(** * pyback: rsync-over-ssh snapshot backups

    A shallow embedding of [pyback.py] (the [BackupNotifier] class and the
    [main] driver) together with the properties of the retention resolver,
    the per-(target, dataset) pipeline and the result aggregation.

    Conventions.
    - A Python [bytes] object is the [string] of its bytes.
    - A Python [str] is the [string] of its UTF-8 encoding. The texts of the
      program come from the settings file and from decoding what a child
      process wrote; [bytes.decode('utf-8')] checks the bytes and keeps
      them, and the arguments of a child process are encoded back the same
      way (the file system encoding is UTF-8). Where Python works on
      characters ([s[:-1]], [s[-1:]], [int], [str.lower],
      [str.splitlines]) the definitions below work on the encoded
      characters. A [str] with a lone surrogate, which has no UTF-8 form,
      is outside the model.
    - A Python [int] is a [Z]. [int(s)] and [str(n)] refuse more than 4300
      digits, as Python does since 3.11 (and in the security releases of
      3.7 to 3.10).
    - An exception that [main] does not catch ends the run: [Exc e].
    - The operating system (directory tests, child processes, the clock, the
      host name) is a [World]; the code is written once, over any world.
      The two local filters of the pipelines, [sort] and [head], are the
      functions of [Coreutils]. The mail server is the list of the messages
      handed to it. *)

From Stdlib Require Import String Ascii List ZArith NArith Lia Bool Arith.
From Stdlib Require Import DecimalString DecimalZ DecimalPos DecimalFacts.
Import ListNotations.

Local Open Scope string_scope.
Local Open Scope Z_scope.

(** ** Python strings *)

Module Py.

Definition chr (n : nat) : ascii := ascii_of_nat n.
Definition ord (c : ascii) : nat := nat_of_ascii c.

Definition NL : ascii := chr 10.
Definition str1 (c : ascii) : string := String c EmptyString.
Definition nl : string := str1 NL.

(** *** Characters in UTF-8 *)

(** A byte that is a character of its own. *)
Definition is_ascii (c : ascii) : bool := Nat.ltb (ord c) 128.

(** A byte that continues a character. *)
Definition is_cont (c : ascii) : bool :=
  andb (Nat.leb 128 (ord c)) (Nat.ltb (ord c) 192).

Fixpoint all_cont (s : string) : bool :=
  match s with
  | EmptyString => true
  | String c r => andb (is_cont c) (all_cont r)
  end.

(** A text cut before its last character: the last character is its last
    byte that is no continuation byte, with the continuation bytes after
    it. *)
Fixpoint split_last (s : string) : string * string :=
  match s with
  | EmptyString => (EmptyString, EmptyString)
  | String c r =>
      if all_cont r then (EmptyString, s)
      else let (i, l) := split_last r in (String c i, l)
  end.

(** [s[:-1]]: all but the last character (the empty string stays empty). *)
Definition init (s : string) : string := fst (split_last s).

(** [s[-1:]]: the last character as a string (empty for the empty string). *)
Definition last1 (s : string) : string := snd (split_last s).

(** The decoder between two characters, or inside one: [need] more bytes
    are to come after the next one, which must lie between [lo] and [hi];
    [cp] holds the bits read so far. *)
Inductive ustate : Type :=
| Ready
| More (need : nat) (cp lo hi : N).

(** One byte of UTF-8, as Python's strict decoder reads it: no overlong
    form, no surrogate, nothing above U+10FFFF. The result is the next
    state and the character that the byte completes, if it completes one. *)
Definition ustep (q : ustate) (c : ascii) : option (ustate * option N) :=
  let b := N_of_ascii c in
  match q with
  | Ready =>
      if (b <? 128)%N then Some (Ready, Some b)
      else if (b <? 194)%N then None
      else if (b <? 224)%N then Some (More 0 (b - 192) 128 191, None)
      else if (b =? 224)%N then Some (More 1 0 160 191, None)
      else if (b =? 237)%N then Some (More 1 13 128 159, None)
      else if (b <? 240)%N then Some (More 1 (b - 224) 128 191, None)
      else if (b =? 240)%N then Some (More 2 0 144 191, None)
      else if (b <? 244)%N then Some (More 2 (b - 240) 128 191, None)
      else if (b =? 244)%N then Some (More 2 4 128 143, None)
      else None
  | More need cp lo hi =>
      if andb (lo <=? b)%N (b <=? hi)%N then
        let cp' := (cp * 64 + (b - 128))%N in
        match need with
        | O => Some (Ready, Some cp')
        | S k => Some (More k cp' 128 191, None)
        end
      else None
  end.

Fixpoint decode_from (q : ustate) (s : string) : option (list N) :=
  match s with
  | EmptyString => match q with Ready => Some [] | More _ _ _ _ => None end
  | String c r =>
      match ustep q c with
      | None => None
      | Some (q', None) => decode_from q' r
      | Some (q', Some cp) => option_map (cons cp) (decode_from q' r)
      end
  end.

(** The characters of a text, by their numbers; [None] when the bytes are
    not UTF-8. *)
Definition decode (s : string) : option (list N) := decode_from Ready s.

(** [b.decode('utf-8')]: [None] stands for [UnicodeDecodeError]. *)
Definition decode_utf8 (b : string) : option string :=
  match decode b with Some _ => Some b | None => None end.

Definition byte (n : N) : ascii := ascii_of_N n.

(** The UTF-8 form of one character. *)
Definition encode1 (cp : N) : string :=
  (if cp <? 128 then str1 (byte cp)
   else if cp <? 2048 then
     String (byte (192 + cp / 64)) (str1 (byte (128 + cp mod 64)))
   else if cp <? 65536 then
     String (byte (224 + cp / 4096))
       (String (byte (128 + (cp / 64) mod 64)) (str1 (byte (128 + cp mod 64))))
   else
     String (byte (240 + cp / 262144))
       (String (byte (128 + (cp / 4096) mod 64))
          (String (byte (128 + (cp / 64) mod 64))
             (str1 (byte (128 + cp mod 64))))))%N.

Fixpoint encode (l : list N) : string :=
  match l with
  | [] => EmptyString
  | cp :: r => encode1 cp ++ encode r
  end.

(** *** [str.lower] *)

(** The characters outside ASCII that have another lower case form, in
    Unicode 14.0 (Python 3.11): every [step]-th character from [lo] to [hi]
    goes to the character as far from [target] as it is from [lo]. The
    capital I with a dot (U+0130) is the one character that becomes two. *)
Definition lower_runs : list (N * N * N * N) :=
  [
    (192, 214, 1, 224); (216, 222, 1, 248); (256, 302, 2, 257);
    (306, 310, 2, 307); (313, 327, 2, 314); (330, 374, 2, 331);
    (376, 376, 1, 255); (377, 381, 2, 378); (385, 385, 1, 595);
    (386, 388, 2, 387); (390, 390, 1, 596); (391, 391, 1, 392);
    (393, 394, 1, 598); (395, 395, 1, 396); (398, 398, 1, 477);
    (399, 399, 1, 601); (400, 400, 1, 603); (401, 401, 1, 402);
    (403, 403, 1, 608); (404, 404, 1, 611); (406, 406, 1, 617);
    (407, 407, 1, 616); (408, 408, 1, 409); (412, 412, 1, 623);
    (413, 413, 1, 626); (415, 415, 1, 629); (416, 420, 2, 417);
    (422, 422, 1, 640); (423, 423, 1, 424); (425, 425, 1, 643);
    (428, 428, 1, 429); (430, 430, 1, 648); (431, 431, 1, 432);
    (433, 434, 1, 650); (435, 437, 2, 436); (439, 439, 1, 658);
    (440, 440, 1, 441); (444, 444, 1, 445); (452, 452, 1, 454);
    (453, 453, 1, 454); (455, 455, 1, 457); (456, 456, 1, 457);
    (458, 458, 1, 460); (459, 475, 2, 460); (478, 494, 2, 479);
    (497, 497, 1, 499); (498, 500, 2, 499); (502, 502, 1, 405);
    (503, 503, 1, 447); (504, 542, 2, 505); (544, 544, 1, 414);
    (546, 562, 2, 547); (570, 570, 1, 11365); (571, 571, 1, 572);
    (573, 573, 1, 410); (574, 574, 1, 11366); (577, 577, 1, 578);
    (579, 579, 1, 384); (580, 580, 1, 649); (581, 581, 1, 652);
    (582, 590, 2, 583); (880, 882, 2, 881); (886, 886, 1, 887);
    (895, 895, 1, 1011); (902, 902, 1, 940); (904, 906, 1, 941);
    (908, 908, 1, 972); (910, 911, 1, 973); (913, 929, 1, 945);
    (931, 939, 1, 963); (975, 975, 1, 983); (984, 1006, 2, 985);
    (1012, 1012, 1, 952); (1015, 1015, 1, 1016); (1017, 1017, 1, 1010);
    (1018, 1018, 1, 1019); (1021, 1023, 1, 891); (1024, 1039, 1, 1104);
    (1040, 1071, 1, 1072); (1120, 1152, 2, 1121); (1162, 1214, 2, 1163);
    (1216, 1216, 1, 1231); (1217, 1229, 2, 1218); (1232, 1326, 2, 1233);
    (1329, 1366, 1, 1377); (4256, 4293, 1, 11520); (4295, 4295, 1, 11559);
    (4301, 4301, 1, 11565); (5024, 5103, 1, 43888); (5104, 5109, 1, 5112);
    (7312, 7354, 1, 4304); (7357, 7359, 1, 4349); (7680, 7828, 2, 7681);
    (7838, 7838, 1, 223); (7840, 7934, 2, 7841); (7944, 7951, 1, 7936);
    (7960, 7965, 1, 7952); (7976, 7983, 1, 7968); (7992, 7999, 1, 7984);
    (8008, 8013, 1, 8000); (8025, 8031, 2, 8017); (8040, 8047, 1, 8032);
    (8072, 8079, 1, 8064); (8088, 8095, 1, 8080); (8104, 8111, 1, 8096);
    (8120, 8121, 1, 8112); (8122, 8123, 1, 8048); (8124, 8124, 1, 8115);
    (8136, 8139, 1, 8050); (8140, 8140, 1, 8131); (8152, 8153, 1, 8144);
    (8154, 8155, 1, 8054); (8168, 8169, 1, 8160); (8170, 8171, 1, 8058);
    (8172, 8172, 1, 8165); (8184, 8185, 1, 8056); (8186, 8187, 1, 8060);
    (8188, 8188, 1, 8179); (8486, 8486, 1, 969); (8490, 8490, 1, 107);
    (8491, 8491, 1, 229); (8498, 8498, 1, 8526); (8544, 8559, 1, 8560);
    (8579, 8579, 1, 8580); (9398, 9423, 1, 9424); (11264, 11311, 1, 11312);
    (11360, 11360, 1, 11361); (11362, 11362, 1, 619);
    (11363, 11363, 1, 7549); (11364, 11364, 1, 637);
    (11367, 11371, 2, 11368); (11373, 11373, 1, 593); (11374, 11374, 1, 625);
    (11375, 11375, 1, 592); (11376, 11376, 1, 594); (11378, 11378, 1, 11379);
    (11381, 11381, 1, 11382); (11390, 11391, 1, 575);
    (11392, 11490, 2, 11393); (11499, 11501, 2, 11500);
    (11506, 11506, 1, 11507); (42560, 42604, 2, 42561);
    (42624, 42650, 2, 42625); (42786, 42798, 2, 42787);
    (42802, 42862, 2, 42803); (42873, 42875, 2, 42874);
    (42877, 42877, 1, 7545); (42878, 42886, 2, 42879);
    (42891, 42891, 1, 42892); (42893, 42893, 1, 613);
    (42896, 42898, 2, 42897); (42902, 42920, 2, 42903);
    (42922, 42922, 1, 614); (42923, 42923, 1, 604); (42924, 42924, 1, 609);
    (42925, 42925, 1, 620); (42926, 42926, 1, 618); (42928, 42928, 1, 670);
    (42929, 42929, 1, 647); (42930, 42930, 1, 669); (42931, 42931, 1, 43859);
    (42932, 42946, 2, 42933); (42948, 42948, 1, 42900);
    (42949, 42949, 1, 642); (42950, 42950, 1, 7566);
    (42951, 42953, 2, 42952); (42960, 42960, 1, 42961);
    (42966, 42968, 2, 42967); (42997, 42997, 1, 42998);
    (65313, 65338, 1, 65345); (66560, 66599, 1, 66600);
    (66736, 66771, 1, 66776); (66928, 66938, 1, 66967);
    (66940, 66954, 1, 66979); (66956, 66962, 1, 66995);
    (66964, 66965, 1, 67003); (68736, 68786, 1, 68800);
    (71840, 71871, 1, 71872); (93760, 93791, 1, 93792);
    (125184, 125217, 1, 125218)
  ]%N.

Fixpoint lower_find (cp : N) (runs : list (N * N * N * N)) : option N :=
  match runs with
  | [] => None
  | (lo, hi, step, target) :: r =>
      if andb (andb (lo <=? cp)%N (cp <=? hi)%N) (((cp - lo) mod step) =? 0)%N
      then Some (target + (cp - lo))%N
      else lower_find cp r
  end.

Definition lower_cp (cp : N) : list N :=
  (if andb (65 <=? cp) (cp <=? 90) then [cp + 32]
   else if cp <? 128 then [cp]
   else if cp =? 304 then [105; 775]
   else match lower_find cp lower_runs with
        | Some t => [t]
        | None => [cp]
        end)%N.

(** [s.lower()], character by character. The program lowers one character
    at most (the unit of a retention), to which the one rule of Unicode that
    looks at the neighbours of a character (a capital sigma at the end of a
    word) does not apply. *)
Definition lower (s : string) : string :=
  match decode s with
  | Some cps => encode (flat_map lower_cp cps)
  | None => s
  end.

(** [a in b] for two strings: substring containment. *)
Definition contains (a b : string) : bool :=
  match String.index 0 a b with Some _ => true | None => false end.

(** Truth value of a string in a condition. *)
Definition truthy (s : string) : bool :=
  match s with EmptyString => false | _ => true end.

(** [sep.join(l)] *)
Fixpoint join (sep : string) (l : list string) : string :=
  match l with
  | [] => EmptyString
  | [x] => x
  | x :: r => x ++ sep ++ join sep r
  end.

(** *** [int(s)] *)

(** White space outside ASCII ([str.isspace]). *)
Definition uspace (cp : N) : bool :=
  existsb (N.eqb cp)
    [
      133; 160; 5760; 8192; 8193; 8194; 8195; 8196; 8197; 8198; 8199; 8200;
      8201; 8202; 8232; 8233; 8239; 8287; 12288
    ]%N.

(** The digits zero outside ASCII: each starts a run of ten decimal digits
    (Unicode 14.0). *)
Definition decimal_zeros : list N :=
  [
    1632; 1776; 1984; 2406; 2534; 2662; 2790; 2918; 3046; 3174; 3302; 3430;
    3558; 3664; 3792; 3872; 4160; 4240; 6112; 6160; 6470; 6608; 6784; 6800;
    6992; 7088; 7232; 7248; 42528; 43216; 43264; 43472; 43504; 43600; 44016;
    65296; 66720; 68912; 69734; 69872; 69942; 70096; 70384; 70736; 70864;
    71248; 71360; 71472; 71904; 72016; 72784; 73040; 73120; 92768; 92864;
    93008; 120782; 120792; 120802; 120812; 120822; 123200; 123632; 125264;
    130032
  ]%N.

Definition udecimal (cp : N) : option N :=
  match find (fun z => andb (z <=? cp)%N (cp <? z + 10)%N) decimal_zeros with
  | Some z => Some (cp - z)%N
  | None => None
  end.

(** What [int] does to a character before it reads the text: a character of
    ASCII stays, white space becomes a space and a decimal digit of any
    script becomes the ASCII digit; [None] for any other character, which
    [int] replaces by a question mark and then refuses. *)
Definition to_ascii1 (cp : N) : option ascii :=
  if (cp <? 128)%N then Some (byte cp)
  else if uspace cp then Some " "%char
  else option_map (fun d => byte (48 + d)) (udecimal cp).

Fixpoint to_ascii (l : list N) : option string :=
  match l with
  | [] => Some EmptyString
  | cp :: r =>
      match to_ascii1 cp, to_ascii r with
      | Some c, Some t => Some (String c t)
      | _, _ => None
      end
  end.

(** The ASCII characters that [int] strips on both sides: tab, line feed,
    vertical tab, form feed, carriage return and space. *)
Definition is_space (c : ascii) : bool :=
  let n := ord c in
  orb (andb (Nat.leb 9 n) (Nat.leb n 13)) (Nat.eqb n 32).

Definition digit_val (c : ascii) : option Z :=
  let n := ord c in
  if andb (Nat.leb 48 n) (Nat.leb n 57) then Some (Z.of_nat (n - 48)) else None.

Fixpoint lstrip (s : string) : string :=
  match s with
  | String c r => if is_space c then lstrip r else s
  | EmptyString => EmptyString
  end.

(** Drops the trailing white space. *)
Fixpoint rstrip (s : string) : string :=
  match s with
  | EmptyString => EmptyString
  | String c r =>
      match rstrip r with
      | EmptyString => if is_space c then EmptyString else str1 c
      | r' => String c r'
      end
  end.

Definition strip (s : string) : string := lstrip (rstrip s).

(** The digits of a decimal literal, read left to right; one underscore is
    allowed between two digits. [after_digit] tells whether the character
    just read was a digit. *)
Fixpoint int_digits (s : string) (after_digit : bool) (acc : Z) : option Z :=
  match s with
  | EmptyString => if after_digit then Some acc else None
  | String c r =>
      match digit_val c with
      | Some d => int_digits r true (10 * acc + d)
      | None =>
          if andb (Ascii.eqb c "_") after_digit
          then match r with
               | EmptyString => None
               | String c' _ =>
                   match digit_val c' with
                   | Some _ => int_digits r false acc
                   | None => None
                   end
               end
          else None
      end
  end.

(** How many digits a text has. *)
Fixpoint count_digits (s : string) : Z :=
  match s with
  | EmptyString => 0
  | String c r =>
      (match digit_val c with Some _ => 1 | None => 0 end) + count_digits r
  end.

(** [sys.get_int_max_str_digits()] *)
Definition max_str_digits : Z := 4300.

(** The digits after the sign: more than [max_str_digits] of them are
    refused. *)
Definition int_body (r : string) : option Z :=
  if max_str_digits <? count_digits r then None else int_digits r false 0.

(** [int(s)] in base ten for a text of ASCII; [None] stands for
    [ValueError]. *)
Definition int_ascii (s : string) : option Z :=
  match strip s with
  | String "-" r => option_map Z.opp (int_body r)
  | String "+" r => int_body r
  | r => int_body r
  end.

(** [int(s)] in base ten; [None] stands for [ValueError]. *)
Definition int (s : string) : option Z :=
  match decode s with
  | Some cps =>
      match to_ascii cps with
      | Some t => int_ascii t
      | None => None
      end
  | None => None
  end.

(** The decimal numeral of an integer. *)
Definition str_of_int (z : Z) : string := NilZero.string_of_int (Z.to_int z).

(** [str(n)] for an integer; [None] stands for [ValueError]. *)
Definition str_int (z : Z) : option string :=
  if max_str_digits <? count_digits (str_of_int z) then None
  else Some (str_of_int z).

(** *** [re.escape] *)

(** The characters [re.escape] protects with a backslash:
    [()[]{}?*+-|^$\.&~#], the space, and tab, newline, return, vertical tab
    and form feed. *)
Definition re_special (c : ascii) : bool :=
  let n := ord c in
  orb (existsb (Nat.eqb n)
         [40; 41; 91; 93; 123; 125; 63; 42; 43; 45; 124; 94; 36; 92; 46; 38; 126; 35; 32]%nat)
      (andb (Nat.leb 9 n) (Nat.leb n 13)).

Definition BSL : ascii := chr 92.

Fixpoint re_escape (s : string) : string :=
  match s with
  | EmptyString => EmptyString
  | String c r =>
      if re_special c then String BSL (String c (re_escape r))
      else String c (re_escape r)
  end.

(** *** [os.path] (POSIX flavour) *)

Definition SLASH : ascii := "/"%char.

(** [s.split(sep)] for a one-character separator: never empty. *)
Fixpoint split (sep : ascii) (s : string) : list string :=
  match s with
  | EmptyString => [EmptyString]
  | String c r =>
      if Ascii.eqb c sep then EmptyString :: split sep r
      else match split sep r with
           | x :: l => String c x :: l
           | [] => [str1 c]
           end
  end.

(** The loop of [normpath] over the components; [new_comps] is kept with its
    last element first. *)
Fixpoint normpath_loop (initial_slashes : nat) (comps : list string)
    (new_comps : list string) : list string :=
  match comps with
  | [] => new_comps
  | comp :: rest =>
      if orb (String.eqb comp "") (String.eqb comp ".")
      then normpath_loop initial_slashes rest new_comps
      else if orb (negb (String.eqb comp ".."))
                (orb (andb (Nat.eqb initial_slashes 0)
                           (match new_comps with [] => true | _ => false end))
                     (match new_comps with
                      | x :: _ => String.eqb x ".."
                      | [] => false
                      end))
      then normpath_loop initial_slashes rest (comp :: new_comps)
      else match new_comps with
           | _ :: popped => normpath_loop initial_slashes rest popped
           | [] => normpath_loop initial_slashes rest new_comps
           end
  end.

Fixpoint repeat_str (n : nat) (s : string) : string :=
  match n with O => EmptyString | S k => s ++ repeat_str k s end.

Definition normpath (path : string) : string :=
  match path with
  | EmptyString => "."
  | _ =>
      let initial_slashes :=
        if String.prefix "/" path
        then if andb (String.prefix "//" path) (negb (String.prefix "///" path))
             then 2%nat else 1%nat
        else 0%nat in
      let comps := split SLASH path in
      let new_comps := rev (normpath_loop initial_slashes comps []) in
      let path' := repeat_str initial_slashes "/" ++ join "/" new_comps in
      if truthy path' then path' else "."
  end.

(** [basename(p)]: what follows the last slash. *)
Definition basename (p : string) : string := List.last (split SLASH p) EmptyString.

(** *** [str.splitlines] *)

(** The line boundaries of one byte: line feed, vertical tab, form feed,
    carriage return, and the file, group and record separators. *)
Definition is_linebreak (c : ascii) : bool :=
  let n := ord c in
  orb (andb (Nat.leb 10 n) (Nat.leb n 13)) (andb (Nat.leb 28 n) (Nat.leb n 30)).

(** The line boundaries outside ASCII: next line (U+0085), line separator
    (U+2028) and paragraph separator (U+2029). The result is what follows
    the boundary at the front of [s], if there is one. *)
Definition after_wide_break (s : string) : option string :=
  match s with
  | String c0 (String c1 r1) =>
      if andb (Nat.eqb (ord c0) 194) (Nat.eqb (ord c1) 133) then Some r1
      else match r1 with
           | String c2 r2 =>
               if andb (andb (Nat.eqb (ord c0) 226) (Nat.eqb (ord c1) 128))
                       (orb (Nat.eqb (ord c2) 168) (Nat.eqb (ord c2) 169))
               then Some r2 else None
           | EmptyString => None
           end
  | _ => None
  end.

(** [cur] is the line being read, [started] whether it has a character,
    [after_cr] whether the character before was a carriage return (a line
    feed that follows it belongs to the same line break), and [skip] how
    many bytes of a boundary outside ASCII are still to be passed. *)
Fixpoint splitlines_aux (s : string) (cur : string) (started after_cr : bool)
    (skip : nat) : list string :=
  match s with
  | EmptyString => if started then [cur] else []
  | String c r =>
      match skip with
      | S k => splitlines_aux r cur started false k
      | O =>
          if andb after_cr (Nat.eqb (ord c) 10)
          then splitlines_aux r EmptyString false false 0
          else if is_linebreak c
          then cur :: splitlines_aux r EmptyString false (Nat.eqb (ord c) 13) 0
          else match after_wide_break s with
               | Some rest =>
                   cur :: splitlines_aux r EmptyString false false
                            (String.length r - String.length rest)
               | None => splitlines_aux r (cur ++ str1 c) true false 0
               end
      end
  end.

Definition splitlines (s : string) : list string :=
  splitlines_aux s EmptyString false false 0.

End Py.

(** ** Values, exceptions and the run monad *)

(** A value whose Python type matters to the code: the port of a target is
    either an [int] or a [str]. *)
Inductive pyval : Type :=
| VInt (z : Z)
| VStr (s : string).

(** [subprocess.CalledProcessError]: the command, its exit status and the
    bytes it wrote ([output] is the same object as [stdout]). *)
Record ProcError : Type := mkProcError {
  cmd : list string;
  returncode : Z;
  stdout : string;
  stderr : string
}.

Definition output (e : ProcError) : string := stdout e.

Inductive exn : Type :=
| ValueError
| AttributeError
| TypeError
| OSError
| UnicodeDecodeError
| CalledProcessError (e : ProcError).

Inductive result (A : Type) : Type :=
| Val (a : A)
| Exc (e : exn).
Arguments Val {A} a.
Arguments Exc {A} e.

(** A computation over a state that survives an exception. *)
Definition M (St A : Type) : Type := St -> St * result A.

Definition ret {St A} (a : A) : M St A := fun st => (st, Val a).

Definition raise {St A} (e : exn) : M St A := fun st => (st, Exc e).

Definition bind {St A B} (c : M St A) (k : A -> M St B) : M St B :=
  fun st =>
    match c st with
    | (st', Val a) => k a st'
    | (st', Exc e) => (st', Exc e)
    end.

Notation "x <- c ;; k" := (bind c (fun x => k))
  (at level 61, c at next level, right associativity).
Notation "c ;;; k" := (bind c (fun _ => k))
  (at level 61, right associativity).

(** [try: body / except subprocess.CalledProcessError as e: handler; continue]
    followed by the rest of the loop body. *)
Definition try_or_continue {St A} (body : M St A)
    (handler : ProcError -> M St unit) (rest : A -> M St unit) : M St unit :=
  fun st =>
    match body st with
    | (st', Val a) => rest a st'
    | (st', Exc (CalledProcessError e)) => handler e st'
    | (st', Exc e) => (st', Exc e)
    end.

(** [for x in l: body x] *)
Fixpoint for_each {St A} (l : list A) (body : A -> M St unit) : M St unit :=
  match l with
  | [] => ret tt
  | x :: r => body x ;;; for_each r body
  end.

(** ** The operating system *)

(** What a child process leaves behind once it has ended: its exit status
    and the bytes it wrote. *)
Record Completed : Type := mkCompleted {
  c_returncode : Z;
  c_stdout : string;
  c_stderr : string
}.

Class World (W : Type) : Type := {
  (** [os.path.isdir] *)
  isdir : W -> string -> bool;
  (** whether a child process with this argument vector can be started; when
      it cannot (no such program, no permission, too many arguments),
      [Popen] raises [OSError] *)
  starts : W -> list string -> bool;
  (** one child process that has started, from its argument vector to its
      end *)
  spawn : W -> list string -> W * Completed;
  (** [time.strftime("%Y-%m-%d_%H%M%S")] *)
  strftime : W -> string;
  (** [socket.gethostname()] *)
  gethostname : W -> string
}.

(** ** The local [sort] and [head] (C locale) *)

Module Coreutils.

Definition is_blank (c : ascii) : bool :=
  orb (Nat.eqb (Py.ord c) 32) (Nat.eqb (Py.ord c) 9).

Fixpoint skip_blanks (s : string) : string :=
  match s with
  | String c r => if is_blank c then skip_blanks r else s
  | EmptyString => EmptyString
  end.

(** The digits at the front of [s], as the number they spell after [acc],
    how many they are, and what follows them. *)
Fixpoint digits (s : string) (acc : Z) (n : nat) : Z * nat * string :=
  match s with
  | String c r =>
      match Py.digit_val c with
      | Some d => digits r (10 * acc + d) (S n)
      | None => (acc, n, s)
      end
  | EmptyString => (acc, n, s)
  end.

(** The number at the front of a line for [sort -n]: blanks, an optional
    minus sign, digits, an optional point and digits; a line that starts
    with none of these counts as zero. The result [(m, k)] stands for
    [m / 10^k]. *)
Definition num_key (s : string) : Z * nat :=
  let s1 := skip_blanks s in
  let '(neg, s2) :=
    match s1 with
    | String c r => if Ascii.eqb c "-" then (true, r) else (false, s1)
    | EmptyString => (false, s1)
    end in
  let '(i, _, s3) := digits s2 0 0 in
  let '(m, k) :=
    match s3 with
    | String c r =>
        if Ascii.eqb c "." then let '(f, k, _) := digits r i 0 in (f, k)
        else (i, 0%nat)
    | EmptyString => (i, 0%nat)
    end in
  (if neg then - m else m, k).

Definition num_compare (a b : string) : comparison :=
  let '(m1, k1) := num_key a in
  let '(m2, k2) := num_key b in
  Z.compare (m1 * 10 ^ Z.of_nat k2) (m2 * 10 ^ Z.of_nat k1).

(** The order of [sort -n]: the numbers first, then the bytes of the whole
    line; [-r] reverses both. *)
Definition line_compare (reverse : bool) (a b : string) : comparison :=
  let c := match num_compare a b with
           | Eq => String.compare a b
           | c => c
           end in
  if reverse then CompOpp c else c.

Definition line_le (reverse : bool) (a b : string) : bool :=
  match line_compare reverse a b with Gt => false | _ => true end.

Fixpoint insert (reverse : bool) (x : string) (l : list string) : list string :=
  match l with
  | [] => [x]
  | y :: r => if line_le reverse x y then x :: l else y :: insert reverse x r
  end.

Fixpoint sort_lines (reverse : bool) (l : list string) : list string :=
  match l with
  | [] => []
  | x :: r => insert reverse x (sort_lines reverse r)
  end.

(** The lines of a text: each ends at a newline; a last line without one
    counts. *)
Fixpoint lines_aux (s : string) (cur : string) : list string :=
  match s with
  | EmptyString => match cur with EmptyString => [] | _ => [cur] end
  | String c r =>
      if Ascii.eqb c Py.NL then cur :: lines_aux r EmptyString
      else lines_aux r (cur ++ Py.str1 c)
  end.

Definition lines (s : string) : list string := lines_aux s EmptyString.

Fixpoint unlines (l : list string) : string :=
  match l with
  | [] => EmptyString
  | x :: r => x ++ Py.nl ++ unlines r
  end.

(** [sort -n] and [sort -n -r] from standard input to standard output. *)
Definition sort_n (reverse : bool) (input : string) : string :=
  unlines (sort_lines reverse (lines input)).

(** [head -1] *)
Definition head_1 (input : string) : string :=
  match lines input with
  | [] => EmptyString
  | x :: _ => x ++ Py.nl
  end.

End Coreutils.

(** ** The configuration *)

(** The settings file, once [json.load] has read it. Optional keys are
    options; a list of [{"exclude": pattern}] objects is the list of its
    patterns. *)
Record TargetSettings : Type := mkTargetSettings {
  j_address : string;
  j_user : string;
  j_port : pyval;
  j_key : string
}.

Record SetSettings : Type := mkSetSettings {
  j_localdir : string;
  j_remotedir : string;
  j_excludes : option (list string);
  j_retention : option string
}.

Record Settings : Type := mkSettings {
  ssh : option string;
  rsync : option string;
  excludes_global : option (list string);
  smtpserver : string;
  smtpport : Z;
  smtpuser : string;
  smtppassword : string;
  smtpfrom : string;
  smtpto : string;
  backuptargets : list TargetSettings;
  backupsets : list SetSettings
}.

(** ** The classes *)

Record BackupTarget : Type := mkBackupTarget {
  address : string;
  key : string;
  port : pyval;
  user : string
}.

Record BackupSet : Type := mkBackupSet {
  localdir : string;
  remotedir : string;
  excludes : list string;
  retention : Z
}.

Record BackupNotifier : Type := mkBackupNotifier {
  _server : string;
  _port : Z;
  _user : string;
  _password : string;
  _fromaddr : string;
  _toaddr : string;
  _success_messages : list string;
  _error_messages : list string;
  _warning_messages : list string
}.

(** A message handed to the mail server: subject, sender, receiver, body. *)
Record Email : Type := mkEmail {
  subject : string;
  from_ : string;
  to_ : string;
  content : string
}.

(** The state of a run: the world, the notifier object and the mail sent. *)
Record State (W : Type) : Type := mkState {
  world : W;
  notifier : BackupNotifier;
  outbox : list Email
}.
Arguments mkState {W} world notifier outbox.
Arguments world {W} s.
Arguments notifier {W} s.
Arguments outbox {W} s.

(** The optional second argument [e] of [add_error] and [add_warning]. *)
Inductive context : Type :=
| CNone
| CStr (s : string)
| CProc (e : ProcError).

(** [if e:] *)
Definition context_truthy (e : context) : bool :=
  match e with
  | CNone => false
  | CStr s => Py.truthy s
  | CProc _ => true
  end.

Definition hex_digit (n : nat) : ascii :=
  if Nat.ltb n 10 then Py.chr (48 + n) else Py.chr (87 + n).

(** [str(b)] for a [bytes] object [b]: its literal. *)
Fixpoint bytes_repr_body (quote : ascii) (s : string) : string :=
  match s with
  | EmptyString => EmptyString
  | String c r =>
      let n := Py.ord c in
      (if orb (Ascii.eqb c quote) (Nat.eqb n 92)
       then String Py.BSL (Py.str1 c)
       else if Nat.eqb n 9 then "\t"
       else if Nat.eqb n 10 then "\n"
       else if Nat.eqb n 13 then "\r"
       else if orb (Nat.ltb n 32) (Nat.leb 127 n)
       then String Py.BSL (String "x" (String (hex_digit (n / 16))
                                         (Py.str1 (hex_digit (n mod 16)))))
       else Py.str1 c)
      ++ bytes_repr_body quote r
  end.

Definition bytes_repr (s : string) : string :=
  let quote :=
    if andb (Py.contains "'" s) (negb (Py.contains (Py.str1 (Py.chr 34)) s))
    then Py.chr 34 else "'"%char in
  "b" ++ Py.str1 quote ++ bytes_repr_body quote s ++ Py.str1 quote.


(** Whether a text holds a null character. *)
Fixpoint has_nul (s : string) : bool :=
  match s with
  | EmptyString => false
  | String c r => orb (Nat.eqb (Py.ord c) 0) (has_nul r)
  end.

Section Driver.

Context {W : Type} `{World W}.

Local Abbreviation St := (State W).

Definition get_notifier : M St BackupNotifier := fun st => (st, Val (notifier st)).

Definition set_notifier (n : BackupNotifier) : M St unit :=
  fun st => (mkState (world st) n (outbox st), Val tt).

(** [str(n)] *)
Definition str_of (n : Z) : M St string :=
  match Py.str_int n with
  | Some s => ret s
  | None => raise ValueError
  end.

(** [b.decode('utf8')] *)
Definition decode_bytes (b : string) : M St string :=
  match Py.decode_utf8 b with
  | Some s => ret s
  | None => raise UnicodeDecodeError
  end.

(** *** [BackupNotifier] *)

(** [add_success(self, message)] *)
Definition add_success (message : string) : M St unit :=
  n <- get_notifier ;;
  set_notifier
    (mkBackupNotifier (_server n) (_port n) (_user n) (_password n)
       (_fromaddr n) (_toaddr n)
       (_success_messages n ++ [message]) (_error_messages n)
       (_warning_messages n)).

(** [add_error(self, message, e=None)]. The parts of the text are computed
    from left to right: [str(e.returncode)], then the three [decode]. *)
Definition add_error (message : string) (e : context) : M St unit :=
  let body := message ++ Py.nl in
  body <-
    (if context_truthy e then
       match e with
       | CProc e =>
           status <- str_of (returncode e) ;;
           out <- decode_bytes (stdout e) ;;
           err <- decode_bytes (stderr e) ;;
           out' <- decode_bytes (output e) ;;
           ret (body ++ "Call:" ++ Py.nl ++ " " ++ Py.join " " (cmd e)
                  ++ Py.nl ++ Py.nl
                  ++ "Call exited with status " ++ status
                  ++ Py.nl ++ Py.nl
                  ++ "Stdout:" ++ Py.nl ++ out ++ Py.nl ++ Py.nl
                  ++ "Stderr:" ++ Py.nl ++ err ++ Py.nl ++ Py.nl
                  ++ "Output:" ++ Py.nl ++ out' ++ Py.nl ++ Py.nl)
       | _ => raise AttributeError
       end
     else ret body) ;;
  n <- get_notifier ;;
  set_notifier
    (mkBackupNotifier (_server n) (_port n) (_user n) (_password n)
       (_fromaddr n) (_toaddr n)
       (_success_messages n) (_error_messages n ++ [body])
       (_warning_messages n)).

(** [add_warning(self, message, e=None)] *)
Definition add_warning (message : string) (e : context) : M St unit :=
  let body := message ++ Py.nl in
  body <-
    (if context_truthy e then
       match e with
       | CProc e =>
           status <- str_of (returncode e) ;;
           ret (body ++ "Call:" ++ Py.nl ++ " " ++ Py.join " " (cmd e)
                  ++ Py.nl ++ Py.nl
                  ++ "Call exited with status " ++ status
                  ++ Py.nl ++ Py.nl
                  ++ "Stdout:" ++ Py.nl ++ " " ++ bytes_repr (stdout e)
                  ++ Py.nl ++ Py.nl
                  ++ "Stderr:" ++ Py.nl ++ " " ++ bytes_repr (stderr e)
                  ++ Py.nl ++ Py.nl
                  ++ "Output:" ++ Py.nl ++ " " ++ bytes_repr (output e)
                  ++ Py.nl ++ Py.nl)
       | _ => raise AttributeError
       end
     else ret body) ;;
  n <- get_notifier ;;
  set_notifier
    (mkBackupNotifier (_server n) (_port n) (_user n) (_password n)
       (_fromaddr n) (_toaddr n)
       (_success_messages n) (_error_messages n)
       (_warning_messages n ++ [body])).

(** [str(len(l))]: the length of a list is below [2 ^ 63], far from 4300
    digits. *)
Definition str_of_nat (n : nat) : string := Py.str_of_int (Z.of_nat n).

(** [for x in l: body += tag + x + "\n\n"] *)
Fixpoint report_section (tag : string) (l : list string) (body : string) : string :=
  match l with
  | [] => body
  | x :: r => report_section tag r (body ++ tag ++ x ++ Py.nl ++ Py.nl)
  end.

(** [send_notification(self)], with [_send_email_notification] handing the
    message to the mail server. *)
Definition send_notification : M St unit :=
  fun st =>
    let n := notifier st in
    let hostname := gethostname (world st) in
    let num_successes := length (_success_messages n) in
    let num_errors := length (_error_messages n) in
    let num_warnings := length (_warning_messages n) in
    let subject :=
      hostname ++ " Backup Complete: " ++ str_of_nat num_errors ++ " Errors, "
        ++ str_of_nat num_successes ++ " Successes, "
        ++ str_of_nat num_warnings ++ " Warnings." in
    let body := "" in
    let body :=
      if Nat.eqb num_errors 0 then body
      else report_section ("--- ERROR:" ++ Py.nl) (_error_messages n) body in
    let body :=
      if Nat.eqb num_warnings 0 then body
      else report_section ("--- WARNING:" ++ Py.nl) (_warning_messages n) body in
    let body :=
      if Nat.eqb num_successes 0 then body
      else report_section ("--- OK:" ++ Py.nl) (_success_messages n) body in
    (mkState (world st) n
       (outbox st ++ [mkEmail subject (_fromaddr n) (_toaddr n) body]),
     Val tt).

(** *** Child processes *)

(** The argument vector of a child process, read from its first element on:
    an element that is no [str] raises [TypeError], and a [str] with a null
    character raises [ValueError]. *)
Fixpoint argv_of (args : list pyval) : result (list string) :=
  match args with
  | [] => Val []
  | VStr s :: r =>
      if has_nul s then Exc ValueError
      else match argv_of r with
           | Val l => Val (s :: l)
           | Exc e => Exc e
           end
  | VInt _ :: _ => Exc TypeError
  end.

(** [subprocess.run(args, check=True, stdout=PIPE, stderr=PIPE)] *)
Definition subprocess_run (args : list pyval) : M St unit :=
  fun st =>
    match argv_of args with
    | Exc e => (st, Exc e)
    | Val argv =>
        if starts (world st) argv then
          let '(w, c) := spawn (world st) argv in
          let st' := mkState w (notifier st) (outbox st) in
          if Z.eqb (c_returncode c) 0 then (st', Val tt)
          else (st', Exc (CalledProcessError
                            (mkProcError argv (c_returncode c) (c_stdout c)
                               (c_stderr c))))
        else (st, Exc OSError)
    end.

(** [subprocess.Popen(args, stdout=PIPE)], read to its end: the bytes that
    the child wrote; its exit status is not looked at. *)
Definition popen_stdout (args : list pyval) : M St string :=
  fun st =>
    match argv_of args with
    | Exc e => (st, Exc e)
    | Val argv =>
        if starts (world st) argv then
          let '(w, c) := spawn (world st) argv in
          (mkState w (notifier st) (outbox st), Val (c_stdout c))
        else (st, Exc OSError)
    end.

(** [subprocess.Popen(argv, stdin=p.stdout, stdout=PIPE)] for a local
    filter, read to its end: [f] is what the program makes of its input. *)
Definition popen_filter (argv : list string) (f : string -> string)
    (input : string) : M St string :=
  fun st =>
    if starts (world st) argv then (st, Val (f input)) else (st, Exc OSError).

(** [a + b] where [a] is a [str]. *)
Definition str_add (a : string) (b : pyval) : M St string :=
  match b with
  | VStr s => ret (a ++ s)
  | VInt _ => raise TypeError
  end.

Definition strs (l : list string) : list pyval := map VStr l.

(** *** [main]: reading the settings *)

Definition exclude_options (l : option (list string)) : list string :=
  match l with
  | None => []
  | Some l => map (fun exclude => "--exclude=" ++ exclude) l
  end.

(** Lines 138 to 153: the retention of one backup set, in minutes. *)
Definition resolve_retention (backupsetLocalDir : string)
    (retention : option string) : M St Z :=
  let retentionMinutes := 12 * 52 * 7 * 24 * 60 in
  match retention with
  | None => ret retentionMinutes
  | Some retentionData =>
      match Py.int (Py.init retentionData) with
      | None => raise ValueError
      | Some retentionTime =>
          let retentionUnit := Py.lower (Py.last1 retentionData) in
          if Py.contains "y" retentionUnit then
            ret (retentionTime * 365 * 24 * 60)
          else if Py.contains "w" retentionUnit then
            ret (retentionTime * 52 * 7 * 24 * 60)
          else if Py.contains "d" retentionUnit then
            ret (retentionTime * 24 * 60)
          else if Py.contains "h" retentionUnit then
            ret (retentionTime * 60)
          else if Py.contains "m" retentionUnit then
            ret retentionTime
          else
            add_warning "No Retention Policy Set on Backup Set"
              (CStr ("Retention for " ++ backupsetLocalDir
                       ++ " defaulting to 12 weeks.")) ;;;
            ret retentionMinutes
      end
  end.

(** Lines 127 to 155: one turn of the loop over the configured backup sets;
    the result is the list [backupSets] after it. *)
Definition load_backupset (backupBaseExcludes : list string)
    (backupSets : list BackupSet) (backupset : SetSettings)
    : M St (list BackupSet) :=
  fun st =>
    let backupsetLocalDir := j_localdir backupset in
    if negb (isdir (world st) backupsetLocalDir) then
      (add_warning "Local Backup Directory Missing"
         (CStr ("Local directory to backup, " ++ backupsetLocalDir
                  ++ " does not exist. Should it? Backup set skipped.")) ;;;
       ret backupSets) st
    else
      (let backupsetRemoteDir := j_remotedir backupset in
       let backupsetExcludes := exclude_options (j_excludes backupset) in
       retentionMinutes <- resolve_retention backupsetLocalDir (j_retention backupset) ;;
       ret (backupSets ++
              [mkBackupSet backupsetLocalDir backupsetRemoteDir
                 (backupBaseExcludes ++ backupsetExcludes) retentionMinutes])%list) st.

Fixpoint load_backupsets (backupBaseExcludes : list string)
    (l : list SetSettings) (backupSets : list BackupSet)
    : M St (list BackupSet) :=
  match l with
  | [] => ret backupSets
  | backupset :: r =>
      backupSets' <- load_backupset backupBaseExcludes backupSets backupset ;;
      load_backupsets backupBaseExcludes r backupSets'
  end.

(** *** [main]: one (target, backup set) pair *)

Definition find_args (escapedRemoteBaseDir : string) : list string :=
  ["find"; escapedRemoteBaseDir; "-mindepth 1"; "-maxdepth 1"; "-type d"].

Definition rsync_options : list string :=
  ["-rltgoDz"; "--stats"; "--ignore-errors"; "--delete"; "--delete-excluded"].

(** [sshexe+' -p '+backupTarget.port+' -i '+backupTarget.key] *)
Definition rsh_option (sshexe : string) (backupTarget : BackupTarget) : M St string :=
  a <- str_add (sshexe ++ " -p ") (port backupTarget) ;;
  ret (a ++ " -i " ++ key backupTarget).

(** Lines 193 to 199: the command of the transfer. *)
Definition make_backupcmd (sshexe rsyncexe : string) (backupTarget : BackupTarget)
    (backupSet : BackupSet) (escapedRemoteTmpDir latestBackupDir : string)
    : M St (list pyval) :=
  let destination :=
    user backupTarget ++ "@" ++ address backupTarget ++ ":" ++ escapedRemoteTmpDir in
  if negb (Py.truthy latestBackupDir) then
    rsh <- rsh_option sshexe backupTarget ;;
    ret (strs ((rsyncexe :: rsync_options) ++ excludes backupSet
               ++ ["-e"; rsh; localdir backupSet; destination])%list)
  else
    let escapedLatestBackupDir := Py.re_escape latestBackupDir in
    let linkDestTarget := "../" ++ Py.basename (Py.normpath escapedLatestBackupDir) in
    rsh <- rsh_option sshexe backupTarget ;;
    ret (strs ((rsyncexe :: rsync_options) ++ excludes backupSet
               ++ ["-e"; rsh; ("--link-dest=" ++ linkDestTarget)%string;
                   localdir backupSet; destination])%list).

(** Lines 182 to 187: the latest snapshot directory, as [head -1] prints it:
    three processes in a pipeline, and the bytes that the last one wrote,
    decoded. *)
Definition get_latest (sshbasecmd : list pyval) (escapedRemoteBaseDir : string)
    : M St string :=
  p1 <- popen_stdout (sshbasecmd ++ strs (find_args escapedRemoteBaseDir))%list ;;
  p2 <- popen_filter ["sort"; "-n"; "-r"] (Coreutils.sort_n true) p1 ;;
  p3 <- popen_filter ["head"; "-1"] Coreutils.head_1 p2 ;;
  decode_bytes p3.

(** Lines 218 to 221: the directories past their retention time. *)
Definition get_old (sshbasecmd : list pyval) (escapedRemoteBaseDir : string)
    (retentionMins : Z) : M St string :=
  mins <- str_of retentionMins ;;
  p1 <- popen_stdout
          (sshbasecmd ++ strs (find_args escapedRemoteBaseDir
                               ++ [("-cmin +" ++ mins)%string]))%list ;;
  p2 <- popen_filter ["sort"; "-n"] (Coreutils.sort_n false) p1 ;;
  decode_bytes p2.

(** The body of the inner loop (lines 161 to 237) is one sequence of steps,
    each of which ends the turn ([continue]) when its command fails. It is
    written here from its last step to its first: every definition is one
    step together with all that follows it. *)

Section Pair.

Variables (sshexe rsyncexe : string) (backupTarget : BackupTarget)
  (sshbasecmd : list pyval) (backupSet : BackupSet).

Let remoteBaseDir := remotedir backupSet.
Let remoteTmpDir := remoteBaseDir ++ "/" ++ ".tmp".
Let escapedRemoteBaseDir := Py.re_escape remoteBaseDir.
Let escapedRemoteTmpDir := Py.re_escape remoteTmpDir.

(** Line 237. *)
Definition record_success : M St unit :=
  add_success ("Successfully completed backup of:" ++ Py.nl
                 ++ localdir backupSet ++ Py.nl ++ Py.nl ++ "To:" ++ Py.nl
                 ++ remoteBaseDir ++ Py.nl ++ Py.nl ++ "On:" ++ Py.nl
                 ++ address backupTarget ++ Py.nl).

(** Lines 226 to 236: the removal of the listed directories. *)
Definition remove_old (oldBackupDirs : string) : M St unit :=
  if Py.truthy oldBackupDirs then
    let escapedOldBackupDirs := map Py.re_escape (Py.splitlines oldBackupDirs) in
    let sshcmd := (sshbasecmd ++ strs (["rm"; "-fR"] ++ escapedOldBackupDirs))%list in
    try_or_continue
      (subprocess_run sshcmd)
      (fun e => add_error "Removing old backup directories failed. Backup set skipped."
                  (CProc e))
      (fun _ => record_success)
  else record_success.

(** Lines 215 to 237: remove directories that lived past their retention
    time. *)
Definition enforce_retention : M St unit :=
  let retentionMins := retention backupSet in
  try_or_continue
    (get_old sshbasecmd escapedRemoteBaseDir retentionMins)
    (fun e => add_error ("Listing directories to get rid of old backups "
                           ++ "(outside of retention period) failed. "
                           ++ "Backup set skipped.") (CProc e))
    remove_old.

(** Lines 207 to 237: move tmp backup dir to final resting place. *)
Definition promote : M St unit :=
  fun st =>
    let escapedRemoteCompletedBackupDir :=
      Py.re_escape (remoteBaseDir ++ "/" ++ strftime (world st)) in
    try_or_continue
      (subprocess_run (sshbasecmd ++ strs ["mv"; escapedRemoteTmpDir;
                                            escapedRemoteCompletedBackupDir])%list)
      (fun e => add_error ("Renaming temp backup dir from:" ++ Py.nl
                             ++ escapedRemoteTmpDir ++ Py.nl ++ Py.nl
                             ++ "to:" ++ Py.nl ++ escapedRemoteCompletedBackupDir
                             ++ Py.nl ++ Py.nl ++ "Backup set skipped.") (CProc e))
      (fun _ => enforce_retention)
      st.

(** Lines 192 to 237: backup to tmp directory. *)
Definition transfer (latestBackupDir : string) : M St unit :=
  backupcmd <- make_backupcmd sshexe rsyncexe backupTarget backupSet
                 escapedRemoteTmpDir latestBackupDir ;;
  try_or_continue
    (subprocess_run backupcmd)
    (fun e => add_error "Rsync failed. Backup set skipped." (CProc e))
    (fun _ => promote).

(** Lines 180 to 237: get latest backup directory. *)
Definition resolve_latest : M St unit :=
  try_or_continue
    (get_latest sshbasecmd escapedRemoteBaseDir)
    (fun e => add_error "Could not get latest directory. Backup Set Skipped." (CProc e))
    transfer.

(** Lines 173 to 237: remove tmp dir if it exists. *)
Definition clear_staging : M St unit :=
  try_or_continue
    (subprocess_run (sshbasecmd ++ strs ["rm"; "-fR"; escapedRemoteTmpDir])%list)
    (fun e => add_error ("Could not remove remote temp directory:" ++ Py.nl
                           ++ escapedRemoteTmpDir ++ Py.nl ++ Py.nl
                           ++ "Backup set skipped.") (CProc e))
    (fun _ => resolve_latest).

(** Lines 161 to 237: the whole body; it starts by creating the base
    directory, which a first run may not find. *)
Definition backup_pair : M St unit :=
  try_or_continue
    (subprocess_run (sshbasecmd ++ strs ["mkdir"; "-p"; escapedRemoteBaseDir])%list)
    (fun e => add_error ("Could not create remote directory:" ++ Py.nl
                           ++ escapedRemoteBaseDir ++ Py.nl ++ Py.nl
                           ++ "Backup set skipped.") (CProc e))
    (fun _ => clear_staging).

End Pair.

(** Lines 157 to 237: the two loops. *)
Definition backup_target (sshexe rsyncexe : string) (backupSets : list BackupSet)
    (backupTarget : BackupTarget) : M St unit :=
  let sshparams :=
    [VStr "-i"; VStr (key backupTarget); VStr "-p"; port backupTarget;
     VStr (user backupTarget ++ "@" ++ address backupTarget)] in
  let sshbasecmd := ([VStr sshexe] ++ sshparams)%list in
  for_each backupSets (backup_pair sshexe rsyncexe backupTarget sshbasecmd).

(** [main()], from the settings that [json.load] returned. *)
Definition main (settingsData : Settings) : M St unit :=
  let sshexe := match ssh settingsData with Some s => s | None => "ssh" end in
  let rsyncexe := match rsync settingsData with Some s => s | None => "rsync" end in
  let backupBaseExcludes := exclude_options (excludes_global settingsData) in
  set_notifier
    (mkBackupNotifier (smtpserver settingsData) (smtpport settingsData)
       (smtpuser settingsData) (smtppassword settingsData)
       (smtpfrom settingsData) (smtpto settingsData) [] [] []) ;;;
  let backupTargets :=
    map (fun server => mkBackupTarget (j_address server) (j_key server)
                         (j_port server) (j_user server))
      (backuptargets settingsData) in
  backupSets <- load_backupsets backupBaseExcludes (backupsets settingsData) [] ;;
  for_each backupTargets (backup_target sshexe rsyncexe backupSets) ;;;
  send_notification.

End Driver.

(** The state in which [main] starts: nothing recorded, nothing sent. *)
Definition start {W : Type} (w : W) : State W :=
  mkState w (mkBackupNotifier "" 0 "" "" "" "" [] [] []) [].

(** ** A scripted machine to run against *)

(** A world that answers the child processes from a script and keeps the
    list of those it has run (the local filters [sort] and [head] apart,
    which [popen_filter] computes). It does not stand for any real machine:
    it is there to run the code on chosen answers. *)
Record Script : Type := mkScript {
  (** the local directories that exist *)
  local_dirs : list string;
  (** the programs that cannot be started, by the first element of the
      argument vector *)
  missing : list string;
  (** what the [n]-th child process leaves behind, given its arguments *)
  answers : nat -> list string -> Completed;
  (** how many child processes have run *)
  count : nat;
  (** their argument vectors, the first one first *)
  log : list (list string);
  (** the time stamp of the clock once [n] child processes have run *)
  stamp : nat -> string;
  hostname : string
}.

#[global] Instance script_world : World Script := {
  isdir s p := existsb (String.eqb p) (local_dirs s);
  starts s argv := negb (existsb (String.eqb (hd "" argv)) (missing s));
  spawn s argv :=
    (mkScript (local_dirs s) (missing s) (answers s) (S (count s))
       (log s ++ [argv]) (stamp s) (hostname s),
     answers s (count s) argv);
  strftime s := stamp s (count s);
  gethostname := hostname
}.

Definition done (out : string) : Completed := mkCompleted 0 out "".
Definition failed (status : Z) : Completed := mkCompleted status "" "failed".

(** ** A sample run *)

Module Sample.

(** A laptop with one directory to back up, on which every program can be
    started. The [n]-th child process prints [listing n]; it ends with
    status 255 when [down n], as [ssh] does when it cannot connect, and
    with status 0 otherwise. *)
Definition machine (down : nat -> bool) (listing : nat -> string) : Script :=
  mkScript ["/home/a"] []
    (fun n _ => if down n then failed 255 else done (listing n))
    0 [] (fun _ => "2024-01-15_030000") "laptop".

(** The same, with child processes that print nothing. *)
Definition host (down : nat -> bool) : Script := machine down (fun _ => "").

Definition up : nat -> bool := fun _ => false.

Definition target (port : pyval) : TargetSettings :=
  mkTargetSettings "nas" "bob" port "/k".

Definition dataset (localdir : string) (retention : option string) : SetSettings :=
  mkSetSettings localdir "/b" None retention.

Definition settings (port : pyval) (sets : list SetSettings) : Settings :=
  mkSettings None None None "smtp" 465 "u" "p" "from" "to" [target port] sets.

Definition backupTarget : BackupTarget := mkBackupTarget "nas" "/k" (VStr "22") "bob".

Definition sshbase : list string := ["ssh"; "-i"; "/k"; "-p"; "22"; "bob@nas"].

Definition sshbasecmd : list pyval := strs sshbase.

Definition backupSet (retention : Z) : BackupSet :=
  mkBackupSet "/home/a" "/b" [] retention.

End Sample.

(** ** Auxiliary definitions for the proofs *)

(** Every character of [s] satisfies [p]. *)
Fixpoint all_chars (p : ascii -> bool) (s : string) : bool :=
  match s with
  | EmptyString => true
  | String c r => andb (p c) (all_chars p r)
  end.

Definition is_digit (c : ascii) : bool :=
  match Py.digit_val c with Some _ => true | None => false end.

(** The number that the digits of [d] spell after [acc]. *)
Fixpoint uint_value (d : Decimal.uint) (acc : Z) : Z :=
  match d with
  | Decimal.Nil => acc
  | Decimal.D0 l => uint_value l (10 * acc + 0)
  | Decimal.D1 l => uint_value l (10 * acc + 1)
  | Decimal.D2 l => uint_value l (10 * acc + 2)
  | Decimal.D3 l => uint_value l (10 * acc + 3)
  | Decimal.D4 l => uint_value l (10 * acc + 4)
  | Decimal.D5 l => uint_value l (10 * acc + 5)
  | Decimal.D6 l => uint_value l (10 * acc + 6)
  | Decimal.D7 l => uint_value l (10 * acc + 7)
  | Decimal.D8 l => uint_value l (10 * acc + 8)
  | Decimal.D9 l => uint_value l (10 * acc + 9)
  end.

(** The first integer that has more digits than [int] and [str] accept. *)
Definition int_limit : Z := 10 ^ Py.max_str_digits.

Definition no_slash (c : ascii) : bool := negb (Ascii.eqb c Py.SLASH).

(** A character that does not end a line for [sort] and [head]. *)
Definition no_newline (c : ascii) : bool := negb (Ascii.eqb c Py.NL).

(** The path of [name] in the directory [base]. *)
Definition child (base name : string) : string := base ++ "/" ++ name.


(** What an error says about the command that failed: the command line, the
    exit status, and what the command wrote. *)
Definition call_report (e : ProcError) : string :=
  "Call:" ++ Py.nl ++ " " ++ Py.join " " (cmd e) ++ Py.nl ++ Py.nl
    ++ "Call exited with status " ++ Py.str_of_int (returncode e)
    ++ Py.nl ++ Py.nl
    ++ "Stdout:" ++ Py.nl ++ stdout e ++ Py.nl ++ Py.nl
    ++ "Stderr:" ++ Py.nl ++ stderr e ++ Py.nl ++ Py.nl
    ++ "Output:" ++ Py.nl ++ stdout e ++ Py.nl ++ Py.nl.

(** Whether [add_error] can write the report of a failed command: the exit
    status has at most 4300 digits and both texts that the command wrote
    are UTF-8. *)
Definition reportable (e : ProcError) : bool :=
  andb (Z.abs (returncode e) <? int_limit)
    (match Py.decode_utf8 (stdout e), Py.decode_utf8 (stderr e) with
     | Some _, Some _ => true
     | _, _ => false
     end).

(** The exception of [add_error] for a failed command whose report it
    cannot write. *)
Definition report_error (e : ProcError) : exn :=
  if Z.abs (returncode e) <? int_limit then UnicodeDecodeError else ValueError.

(** The notifier [n] with one more error. *)
Definition with_error (n : BackupNotifier) (text : string) : BackupNotifier :=
  mkBackupNotifier (_server n) (_port n) (_user n) (_password n)
    (_fromaddr n) (_toaddr n)
    (_success_messages n) (_error_messages n ++ [text]) (_warning_messages n).


(** One more outcome of a pair: either an error or a success is added to the
    notifier, and nothing else about it changes. *)
Definition one_outcome (n n' : BackupNotifier) : Prop :=
  _warning_messages n' = _warning_messages n
  /\ _server n' = _server n /\ _port n' = _port n /\ _user n' = _user n
  /\ _password n' = _password n /\ _fromaddr n' = _fromaddr n
  /\ _toaddr n' = _toaddr n
  /\ ((exists e, _error_messages n' = (_error_messages n ++ [e])%list
                 /\ _success_messages n' = _success_messages n)
      \/ (exists m, _success_messages n' = (_success_messages n ++ [m])%list
                    /\ _error_messages n' = _error_messages n)).

(** The number of outcomes, other than warnings, that a notifier holds. *)
Definition outcomes (n : BackupNotifier) : nat :=
  (length (_error_messages n) + length (_success_messages n))%nat.

(** The exceptions that a pair lets through: a null character in an
    argument or a retention of more than 4300 digits ([ValueError]), a
    program that cannot be started ([OSError]), and output that is no UTF-8
    ([UnicodeDecodeError]). *)
Definition escapes (e : exn) : Prop :=
  e = ValueError \/ e = OSError \/ e = UnicodeDecodeError.

(** A computation that leaves the notifier and the mail alone, and ends with
    a value, with a failed command, or with one of the exceptions that a
    pair lets through. *)
Definition quiet {W A : Type} (c : M (State W) A) : Prop :=
  forall st, exists st' r,
    c st = (st', r)
    /\ notifier st' = notifier st
    /\ outbox st' = outbox st
    /\ match r with
       | Val _ => True
       | Exc (CalledProcessError _) => True
       | Exc e => escapes e
       end.

(** A computation that sends no mail and either ends with one outcome
    recorded, or lets an exception through with nothing recorded. *)
Definition settles {W : Type} (c : M (State W) unit) : Prop :=
  forall st, exists st' r,
    c st = (st', r)
    /\ outbox st' = outbox st
    /\ match r with
       | Val _ => one_outcome (notifier st) (notifier st')
       | Exc e => escapes e /\ notifier st' = notifier st
       end.

(** A computation that sends no mail and records no warning, and that has
    recorded [k] outcomes whenever it ends without an exception. *)
Definition adds {W : Type} (k : nat) (c : M (State W) unit) : Prop :=
  forall st, exists st' r,
    c st = (st', r)
    /\ outbox st' = outbox st
    /\ _warning_messages (notifier st') = _warning_messages (notifier st)
    /\ match r with
       | Val _ => outcomes (notifier st') = (outcomes (notifier st) + k)%nat
       | Exc e => escapes e
       end.

(** The backup set [s] is what the settings [b] of a backup set give, in the
    state [st], after the global exclude options [base]. *)
Definition loaded_from {W : Type} `{World W} (base : list string) (st : State W)
    (b : SetSettings) (s : BackupSet) : Prop :=
  localdir s = j_localdir b
  /\ remotedir s = j_remotedir b
  /\ excludes s = (base ++ exclude_options (j_excludes b))%list
  /\ isdir (world st) (j_localdir b) = true
  /\ resolve_retention (j_localdir b) (j_retention b) st = (st, Val (retention s)).

(** A computation that records no warning, however it ends. *)
Definition keeps_warnings {W A : Type} (c : M (State W) A) : Prop :=
  forall st,
    _warning_messages (notifier (fst (c st))) = _warning_messages (notifier st).

(** The base command of [ssh] for a target, as [main] builds it. *)
Definition sshbase_of (sshexe : string) (backupTarget : BackupTarget) : list pyval :=
  [VStr sshexe; VStr "-i"; VStr (key backupTarget); VStr "-p"; port backupTarget;
   VStr (user backupTarget ++ "@" ++ address backupTarget)].

(** No text of [l] holds a null character. *)
Definition clean (l : list string) : bool := forallb (fun s => negb (has_nul s)) l.

(** The failed command that [subprocess.run] reports for the argument vector
    [argv] and what the child left behind. *)
Definition failure (argv : list string) (c : Completed) : ProcError :=
  mkProcError argv (c_returncode c) (c_stdout c) (c_stderr c).

(** A computation that never ends with a failed command. *)
Definition unchecked {W A : Type} (c : M (State W) A) : Prop :=
  forall st e, snd (c st) <> Exc (CalledProcessError e).

(** A computation that leaves the notifier alone, however it ends. *)
Definition keeps_notifier {W A : Type} (c : M (State W) A) : Prop :=
  forall st, notifier (fst (c st)) = notifier st.

(** A text without a newline: one line for [sort] and [head]. *)
Definition oneline (s : string) : bool := all_chars no_newline s.


(** The text of an error: the message, then the report of the command. *)
Definition error_text (message : string) (e : ProcError) : string :=
  (message ++ Py.nl) ++ call_report e.


(** Closes a goal that names one of the exceptions that a pair lets
    through. *)
Ltac escape :=
  first [ exact I
        | left; reflexivity
        | right; left; reflexivity
        | right; right; reflexivity ].

(** * Properties *)

(** ** Strings and numbers *)

Lemma all_chars_impl (p q : ascii -> bool) (s : string) :
  (forall c, p c = true -> q c = true) ->
  all_chars p s = true -> all_chars q s = true.
Proof.
  intros Hpq. induction s as [|c r IH]; [reflexivity|].
  simpl. intros H. apply andb_prop in H. destruct H as [Hc Hr].
  rewrite (Hpq _ Hc), (IH Hr). reflexivity.
Qed.

Lemma all_chars_app (p : ascii -> bool) (a b : string) :
  all_chars p (a ++ b) = andb (all_chars p a) (all_chars p b).
Proof.
  induction a as [|c r IH]; [reflexivity|].
  simpl. rewrite IH. now rewrite andb_assoc.
Qed.

(** The last character of a text that ends with a character of ASCII, or
    with any byte that starts a character. *)
Lemma split_last_app_char (s : string) (c : ascii) :
  Py.is_cont c = false -> Py.split_last (s ++ Py.str1 c) = (s, Py.str1 c).
Proof.
  intros Hc.
  assert (Hall : forall t, Py.all_cont (t ++ Py.str1 c) = false).
  { induction t as [|a t IH]; simpl.
    - now rewrite Hc.
    - rewrite IH. apply andb_false_r. }
  induction s as [|a r IH]; simpl.
  - reflexivity.
  - rewrite Hall, IH. reflexivity.
Qed.

Lemma init_app_char (s : string) (c : ascii) :
  Py.is_cont c = false -> Py.init (s ++ Py.str1 c) = s.
Proof. intros Hc. unfold Py.init. now rewrite split_last_app_char. Qed.

Lemma last1_app_char (s : string) (c : ascii) :
  Py.is_cont c = false -> Py.last1 (s ++ Py.str1 c) = Py.str1 c.
Proof. intros Hc. unfold Py.last1. now rewrite split_last_app_char. Qed.

Lemma ascii_not_cont (c : ascii) : Py.is_ascii c = true -> Py.is_cont c = false.
Proof.
  unfold Py.is_ascii, Py.is_cont. intros Hc. apply Nat.ltb_lt in Hc.
  apply andb_false_iff. left. apply Nat.leb_gt. exact Hc.
Qed.

(** A character of ASCII is one character of UTF-8, and [int] keeps it. *)
Lemma ascii_step (c : ascii) :
  Py.is_ascii c = true ->
  Py.ustep Py.Ready c = Some (Py.Ready, Some (N_of_ascii c))
  /\ Py.to_ascii1 (N_of_ascii c) = Some c.
Proof.
  destruct c as [[|] [|] [|] [|] [|] [|] [|] [|]]; vm_compute;
    try congruence; intros _; split; reflexivity.
Qed.

Lemma decode_ascii (s : string) :
  all_chars Py.is_ascii s = true ->
  exists cps, Py.decode s = Some cps /\ Py.to_ascii cps = Some s.
Proof.
  unfold Py.decode. induction s as [|c r IH]; intros H.
  - exists []. split; reflexivity.
  - simpl in H. apply andb_prop in H. destruct H as [Hc Hr].
    destruct (IH Hr) as [cps [Hd Ht]].
    destruct (ascii_step c Hc) as [Hs Ha].
    exists (N_of_ascii c :: cps). split.
    + cbn [Py.decode_from]. rewrite Hs, Hd. reflexivity.
    + cbn [Py.to_ascii]. rewrite Ha, Ht. reflexivity.
Qed.

(** A text of ASCII is valid UTF-8. *)
Lemma decode_utf8_ascii (s : string) :
  all_chars Py.is_ascii s = true -> Py.decode_utf8 s = Some s.
Proof.
  intros H. unfold Py.decode_utf8.
  destruct (decode_ascii s H) as [cps [-> _]]. reflexivity.
Qed.

Lemma int_of_ascii (s : string) :
  all_chars Py.is_ascii s = true -> Py.int s = Py.int_ascii s.
Proof.
  intros H. unfold Py.int.
  destruct (decode_ascii s H) as [cps [-> ->]]. reflexivity.
Qed.

Lemma digit_is_ascii (c : ascii) : is_digit c = true -> Py.is_ascii c = true.
Proof.
  destruct c as [[|] [|] [|] [|] [|] [|] [|] [|]]; vm_compute; congruence.
Qed.

Lemma digit_not_space (c : ascii) : is_digit c = true -> Py.is_space c = false.
Proof.
  destruct c as [[|] [|] [|] [|] [|] [|] [|] [|]]; vm_compute; congruence.
Qed.

Lemma digit_bits (c : ascii) :
  is_digit c = true ->
  exists b0 b1 b2 b3, c = Ascii b0 b1 b2 b3 true true false false.
Proof.
  destruct c as [[|] [|] [|] [|] [|] [|] [|] [|]]; vm_compute;
    try congruence; intros _; do 4 eexists; reflexivity.
Qed.

Lemma string_of_uint_digits (d : Decimal.uint) :
  all_chars is_digit (NilEmpty.string_of_uint d) = true.
Proof. induction d; simpl; auto. Qed.

Lemma count_digits_digit (c : ascii) (r : string) :
  is_digit c = true -> Py.count_digits (String c r) = 1 + Py.count_digits r.
Proof.
  unfold is_digit. cbn [Py.count_digits].
  destruct (Py.digit_val c); [reflexivity | discriminate].
Qed.

Lemma count_digits_uint (d : Decimal.uint) :
  Py.count_digits (NilEmpty.string_of_uint d) = Z.of_nat (Decimal.nb_digits d).
Proof.
  induction d; cbn [NilEmpty.string_of_uint Decimal.nb_digits];
    [reflexivity| | | | | | | | | |];
    rewrite count_digits_digit by reflexivity; rewrite IHd; lia.
Qed.

Lemma int_digits_uint (d : Decimal.uint) (acc : Z) :
  Py.int_digits (NilEmpty.string_of_uint d) true acc = Some (uint_value d acc).
Proof.
  revert acc. induction d; intros acc; simpl; auto.
Qed.

Lemma int_digits_uint_start (d : Decimal.uint) (acc : Z) :
  d <> Decimal.Nil ->
  Py.int_digits (NilEmpty.string_of_uint d) false acc = Some (uint_value d acc).
Proof.
  destruct d; intros Hd; try congruence; simpl; apply int_digits_uint.
Qed.

Lemma uint_value_acc (d : Decimal.uint) (p : positive) :
  uint_value d (Z.pos p) = Z.pos (Pos.of_uint_acc d p).
Proof.
  revert p. induction d; intros p; cbn [uint_value Pos.of_uint_acc]; auto;
    match goal with
    | |- uint_value _ ?a = Z.pos (Pos.of_uint_acc _ ?q) =>
        replace a with (Z.pos q) by lia; apply IHd
    end.
Qed.

Lemma uint_value_of_uint (d : Decimal.uint) :
  uint_value d 0 = Z.of_N (Pos.of_uint d).
Proof.
  induction d; cbn [uint_value Pos.of_uint]; auto;
    match goal with
    | |- uint_value _ ?a = Z.of_N (N.pos (Pos.of_uint_acc _ ?q)) =>
        replace a with (Z.pos q) by lia; apply uint_value_acc
    end.
Qed.

Lemma uint_value_to_uint (p : positive) : uint_value (Pos.to_uint p) 0 = Z.pos p.
Proof.
  rewrite uint_value_of_uint, DecimalPos.Unsigned.of_to. reflexivity.
Qed.

(** The digits of [d] after [acc]: [acc] moves up by as many places as [d]
    has digits, and the digits alone stay below the next power of ten. *)
Lemma uint_value_split (d : Decimal.uint) (acc : Z) :
  uint_value d acc
  = acc * 10 ^ Z.of_nat (Decimal.nb_digits d) + uint_value d 0
  /\ 0 <= uint_value d 0 < 10 ^ Z.of_nat (Decimal.nb_digits d).
Proof.
  revert acc.
  induction d; intros acc; cbn [uint_value Decimal.nb_digits];
    [split; [cbn; lia | cbn; lia] | | | | | | | | | |];
    rewrite Nat2Z.inj_succ, Z.pow_succ_r by lia;
    match goal with
    | |- uint_value _ ?a = _ /\ 0 <= uint_value _ ?b < _ =>
        destruct (IHd a) as [Ea _]; destruct (IHd b) as [Eb Hb];
        rewrite Ea, Eb
    end;
    (split; [ring | lia]).
Qed.

(** A numeral that starts with another digit than zero is at least the
    power of ten of its length. *)
Lemma uint_value_lower (d : Decimal.uint) :
  d <> Decimal.Nil -> Decimal.nzhead d = d ->
  10 ^ (Z.of_nat (Decimal.nb_digits d) - 1) <= uint_value d 0.
Proof.
  intros Hn Hz.
  destruct d; try congruence;
    try (exfalso; revert Hz; cbn [Decimal.nzhead]; intros Hz;
         apply (f_equal Decimal.nb_digits) in Hz;
         pose proof (DecimalFacts.nb_digits_nzhead d) as Hle;
         cbn [Decimal.nb_digits] in Hz; lia);
    cbn [uint_value Decimal.nb_digits];
    rewrite Nat2Z.inj_succ;
    replace (Z.succ (Z.of_nat (Decimal.nb_digits d)) - 1)
      with (Z.of_nat (Decimal.nb_digits d)) by lia;
    match goal with
    | |- _ <= uint_value _ ?a =>
        destruct (uint_value_split d a) as [E [Hlo _]]; rewrite E
    end; lia.
Qed.

Lemma to_uint_normal (p : positive) :
  Decimal.nzhead (Pos.to_uint p) = Pos.to_uint p.
Proof.
  pose proof (DecimalPos.Unsigned.to_of (Pos.to_uint p)) as E.
  rewrite DecimalPos.Unsigned.of_to in E. cbn [N.to_uint] in E.
  unfold Decimal.unorm in E.
  destruct (Decimal.nzhead (Pos.to_uint p)) eqn:Ez; try (now symmetry).
  exfalso. exact (DecimalPos.Unsigned.to_uint_nonzero p E).
Qed.

(** A positive number has at most 4300 digits exactly when it lies below
    [10 ^ 4300]. *)
Lemma digits_limit (p : positive) :
  (Py.max_str_digits <? Z.of_nat (Decimal.nb_digits (Pos.to_uint p)))
  = negb (Z.pos p <? int_limit).
Proof.
  pose proof (uint_value_to_uint p) as Ev.
  pose proof (uint_value_lower _ (DecimalPos.Unsigned.to_uint_nonnil p)
                (to_uint_normal p)) as Hlo.
  destruct (uint_value_split (Pos.to_uint p) 0) as [_ [_ Hhi]].
  rewrite Ev in Hlo, Hhi. unfold int_limit.
  set (k := Z.of_nat (Decimal.nb_digits (Pos.to_uint p))) in *.
  destruct (Py.max_str_digits <? k) eqn:E1;
    destruct (Z.pos p <? 10 ^ Py.max_str_digits) eqn:E2; try reflexivity;
    exfalso.
  - apply Z.ltb_lt in E1, E2.
    assert (10 ^ Py.max_str_digits <= 10 ^ (k - 1))
      by (apply Z.pow_le_mono_r; unfold Py.max_str_digits in *; lia).
    lia.
  - apply Z.ltb_ge in E1, E2.
    assert (10 ^ k <= 10 ^ Py.max_str_digits)
      by (apply Z.pow_le_mono_r; unfold Py.max_str_digits in *; lia).
    lia.
Qed.

Lemma rstrip_id (s : string) :
  all_chars (fun c => negb (Py.is_space c)) s = true -> Py.rstrip s = s.
Proof.
  induction s as [|c r IH]; [reflexivity|].
  simpl. intros H. apply andb_prop in H. destruct H as [Hc Hr].
  rewrite (IH Hr). destruct r; [|reflexivity].
  apply negb_true_iff in Hc. now rewrite Hc.
Qed.

Lemma strip_digits (s : string) : all_chars is_digit s = true -> Py.strip s = s.
Proof.
  intros H. unfold Py.strip. rewrite rstrip_id.
  - destruct s as [|c r]; [reflexivity|]. simpl in *.
    apply andb_prop in H. destruct H as [Hc _].
    now rewrite (digit_not_space _ Hc).
  - revert H. apply all_chars_impl. intros c Hc.
    now rewrite (digit_not_space _ Hc).
Qed.

Lemma int_ascii_digits (s : string) :
  all_chars is_digit s = true -> Py.int_ascii s = Py.int_body s.
Proof.
  intros H. unfold Py.int_ascii. rewrite (strip_digits _ H).
  destruct s as [|c r]; [reflexivity|]. simpl in H.
  apply andb_prop in H. destruct H as [Hc _].
  destruct (digit_bits _ Hc) as [b0 [b1 [b2 [b3 ->]]]].
  destruct b0, b1, b2, b3; reflexivity.
Qed.

Lemma int_ascii_minus_digits (s : string) :
  all_chars is_digit s = true -> s <> EmptyString ->
  Py.int_ascii (String "-" s) = option_map Z.opp (Py.int_body s).
Proof.
  intros H Hs. unfold Py.int_ascii, Py.strip.
  assert (Hr : Py.rstrip (String "-" s) = String "-" s).
  { apply rstrip_id. simpl. revert H. apply all_chars_impl.
    intros c Hc. now rewrite (digit_not_space _ Hc). }
  rewrite Hr. reflexivity.
Qed.

Lemma string_of_uint_nonnil (d : Decimal.uint) :
  d <> Decimal.Nil ->
  NilZero.string_of_uint d = NilEmpty.string_of_uint d
  /\ NilEmpty.string_of_uint d <> EmptyString.
Proof. destruct d; intros Hd; try congruence; split; simpl; congruence. Qed.

(** The numeral of an integer is a text of ASCII. *)
Lemma str_of_int_ascii (z : Z) : all_chars Py.is_ascii (Py.str_of_int z) = true.
Proof.
  unfold Py.str_of_int. destruct z as [|p|p]; [reflexivity| |];
    pose proof (DecimalPos.Unsigned.to_uint_nonnil p) as Hn;
    destruct (string_of_uint_nonnil _ Hn) as [E _]; simpl; rewrite E;
    try (apply andb_true_intro; split; [reflexivity|]);
    apply (all_chars_impl is_digit); auto using digit_is_ascii, string_of_uint_digits.
Qed.

(** The digits of the numeral of an integer. *)
Lemma count_digits_str_of_int (z : Z) :
  (Py.max_str_digits <? Py.count_digits (Py.str_of_int z))
  = negb (Z.abs z <? int_limit).
Proof.
  unfold Py.str_of_int. destruct z as [|p|p]; [reflexivity| |];
    pose proof (DecimalPos.Unsigned.to_uint_nonnil p) as Hn;
    destruct (string_of_uint_nonnil _ Hn) as [E _]; simpl Z.to_int;
    cbn [NilZero.string_of_int]; rewrite E.
  - rewrite count_digits_uint. apply digits_limit.
  - cbn [Py.count_digits]. change (Py.digit_val "-") with (@None Z).
    rewrite count_digits_uint. cbn [Z.abs]. rewrite Z.add_0_l.
    apply digits_limit.
Qed.

(** [str(z)]: the numeral, unless it has more than 4300 digits. *)
Lemma str_int_value (z : Z) :
  Py.str_int z = if Z.abs z <? int_limit then Some (Py.str_of_int z) else None.
Proof.
  unfold Py.str_int. rewrite count_digits_str_of_int.
  now destruct (Z.abs z <? int_limit).
Qed.

(** [int(str(z)) == z], for the numerals that [int] accepts. *)
Lemma int_ascii_str_of_int (z : Z) :
  Py.int_ascii (Py.str_of_int z) = if Z.abs z <? int_limit then Some z else None.
Proof.
  unfold Py.str_of_int. destruct z as [|p|p]; [reflexivity| |];
    pose proof (DecimalPos.Unsigned.to_uint_nonnil p) as Hn;
    destruct (string_of_uint_nonnil _ Hn) as [E Hs]; simpl Z.to_int;
    cbn [NilZero.string_of_int]; rewrite E.
  - rewrite int_ascii_digits by apply string_of_uint_digits.
    unfold Py.int_body. rewrite count_digits_uint, digits_limit.
    cbn [Z.abs]. destruct (Z.pos p <? int_limit); [|reflexivity].
    cbn [negb]. rewrite int_digits_uint_start by exact Hn.
    now rewrite uint_value_to_uint.
  - rewrite int_ascii_minus_digits by auto using string_of_uint_digits.
    unfold Py.int_body. rewrite count_digits_uint, digits_limit.
    cbn [Z.abs]. destruct (Z.pos p <? int_limit); [|reflexivity].
    cbn [negb]. rewrite int_digits_uint_start by exact Hn.
    now rewrite uint_value_to_uint.
Qed.

Lemma int_str_of_int (z : Z) :
  Py.int (Py.str_of_int z) = if Z.abs z <? int_limit then Some z else None.
Proof.
  rewrite int_of_ascii by apply str_of_int_ascii. apply int_ascii_str_of_int.
Qed.

(** ** The retention of a backup set *)

Lemma append_assoc (a b c : string) : (a ++ b) ++ c = a ++ (b ++ c).
Proof. induction a as [|x a IH]; simpl; [reflexivity | now rewrite IH]. Qed.

Lemma append_empty_r (a : string) : a ++ "" = a.
Proof. induction a as [|x a IH]; simpl; [reflexivity | now rewrite IH]. Qed.

(** Digits followed by a character that is neither a digit nor an underscore
    are no integer. *)
Lemma int_digits_stop (ds rest : string) (c : ascii) (b : bool) (acc : Z) :
  all_chars is_digit ds = true ->
  is_digit c = false -> Ascii.eqb c "_" = false ->
  Py.int_digits (ds ++ String c rest) b acc = None.
Proof.
  intros Hds Hc Hu. revert b acc.
  induction ds as [|d ds IH]; intros b acc.
  - cbn [append Py.int_digits]. unfold is_digit in Hc.
    destruct (Py.digit_val c); [discriminate|]. now rewrite Hu.
  - simpl in Hds. apply andb_prop in Hds. destruct Hds as [Hd Hds].
    cbn [append Py.int_digits]. unfold is_digit in Hd.
    destruct (Py.digit_val d); [|discriminate]. now apply IH.
Qed.

Lemma int_body_stop (ds rest : string) (c : ascii) :
  all_chars is_digit ds = true ->
  is_digit c = false -> Ascii.eqb c "_" = false ->
  Py.int_body (ds ++ String c rest) = None.
Proof.
  intros Hds Hc Hu. unfold Py.int_body.
  rewrite (int_digits_stop ds rest c false 0 Hds Hc Hu).
  now destruct (_ <? _).
Qed.

Lemma int_ascii_digit_first (d : ascii) (r : string) :
  is_digit d = true ->
  all_chars (fun c => negb (Py.is_space c)) (String d r) = true ->
  Py.int_ascii (String d r) = Py.int_body (String d r).
Proof.
  intros Hd Hs. unfold Py.int_ascii, Py.strip. rewrite (rstrip_id _ Hs).
  cbn [Py.lstrip]. rewrite (digit_not_space _ Hd).
  destruct (digit_bits _ Hd) as [b0 [b1 [b2 [b3 ->]]]].
  destruct b0, b1, b2, b3; reflexivity.
Qed.

Lemma int_ascii_minus_first (r : string) :
  all_chars (fun c => negb (Py.is_space c)) r = true -> r <> "" ->
  Py.int_ascii (String "-" r) = option_map Z.opp (Py.int_body r).
Proof.
  intros Hs Hne. unfold Py.int_ascii, Py.strip.
  assert (Hr : Py.rstrip (String "-" r) = String "-" r)
    by (apply rstrip_id; simpl; exact Hs).
  rewrite Hr. reflexivity.
Qed.

(** A numeral followed by a character of ASCII that is no digit, no
    underscore and no white space is no integer for [int]. *)
Lemma int_number_then_letter (z : Z) (c : ascii) :
  Py.is_ascii c = true ->
  is_digit c = false -> Ascii.eqb c "_" = false -> Py.is_space c = false ->
  Py.int (Py.str_of_int z ++ Py.str1 c) = None.
Proof.
  intros Ha Hc Hu Hsp.
  rewrite int_of_ascii
    by (rewrite all_chars_app, str_of_int_ascii; simpl; now rewrite Ha).
  assert (Hns : forall d,
             all_chars (fun x => negb (Py.is_space x))
               (NilEmpty.string_of_uint d ++ Py.str1 c) = true).
  { intros d. rewrite all_chars_app. simpl. rewrite Hsp. simpl.
    rewrite andb_true_r.
    apply (all_chars_impl is_digit); [|apply string_of_uint_digits].
    intros x Hx. now rewrite (digit_not_space _ Hx). }
  unfold Py.str_of_int. destruct z as [|p|p]; simpl.
  - rewrite int_ascii_digit_first; [|reflexivity|simpl; now rewrite Hsp].
    apply (int_body_stop "0" "" c); auto.
  - pose proof (DecimalPos.Unsigned.to_uint_nonnil p) as Hn.
    destruct (string_of_uint_nonnil _ Hn) as [E Hne]. rewrite E.
    pose proof (string_of_uint_digits (Pos.to_uint p)) as Hd.
    pose proof (Hns (Pos.to_uint p)) as Hs.
    destruct (NilEmpty.string_of_uint (Pos.to_uint p)) as [|d r] eqn:Er;
      [congruence|].
    simpl in Hd. pose proof Hd as Hd'. apply andb_prop in Hd'.
    destruct Hd' as [Hd0 _].
    cbn [append]. cbn [append] in Hs.
    rewrite (int_ascii_digit_first _ _ Hd0 Hs).
    change (String d (r ++ Py.str1 c)) with (String d r ++ String c "").
    now apply int_body_stop.
  - pose proof (DecimalPos.Unsigned.to_uint_nonnil p) as Hn.
    destruct (string_of_uint_nonnil _ Hn) as [E Hne]. rewrite E.
    rewrite int_ascii_minus_first.
    + rewrite (int_body_stop _ "" c); auto using string_of_uint_digits.
    + apply Hns.
    + destruct (NilEmpty.string_of_uint (Pos.to_uint p)); discriminate.
Qed.

(** The bytes of one character: a first byte that is no continuation byte,
    and continuation bytes after it. *)
Lemma byte_ord (n : N) : (n < 256)%N -> Py.ord (Py.byte n) = N.to_nat n.
Proof.
  intros Hn. unfold Py.ord, Py.byte, nat_of_ascii.
  now rewrite N_ascii_embedding.
Qed.

Lemma byte_cont (n : N) : (n < 64)%N -> Py.is_cont (Py.byte (128 + n)) = true.
Proof.
  intros Hn. unfold Py.is_cont. rewrite byte_ord by lia.
  apply andb_true_intro. split; [apply Nat.leb_le | apply Nat.ltb_lt]; lia.
Qed.

Lemma byte_lead (n : N) :
  (n < 128 \/ 192 <= n < 256)%N -> Py.is_cont (Py.byte n) = false.
Proof.
  intros Hn. unfold Py.is_cont. rewrite byte_ord by lia.
  apply andb_false_iff.
  destruct Hn as [Hn|Hn]; [left; apply Nat.leb_gt | right; apply Nat.ltb_ge]; lia.
Qed.

Lemma split_last_encode1 (cp : N) :
  (cp < 1114112)%N -> Py.split_last (Py.encode1 cp) = ("", Py.encode1 cp).
Proof.
  intros Hcp. unfold Py.encode1.
  assert (H64 : forall n : N, (n mod 64 < 64)%N)
    by (intros n; apply N.mod_lt; lia).
  destruct (cp <? 128)%N eqn:E1; [reflexivity|].
  apply N.ltb_ge in E1.
  destruct (cp <? 2048)%N eqn:E2; [|destruct (cp <? 65536)%N eqn:E3];
    cbn [Py.split_last Py.str1 Py.all_cont];
    rewrite ?byte_cont by apply H64; reflexivity.
Qed.

Section Retention.

Context {W : Type} `{World W}.

(** A warning that comes with a text as its second argument is never
    recorded: the text is taken for a failed command and has no [cmd]. *)
Lemma add_warning_text (message s : string) (st : State W) :
  Py.truthy s = true ->
  add_warning message (CStr s) st = (st, Exc AttributeError).
Proof.
  intros Hs. unfold add_warning, bind, context_truthy. rewrite Hs. reflexivity.
Qed.

(** The outcomes of resolving a retention: the state is left as it was, and
    the only exceptions are those of [int] and of [add_warning]. *)
Lemma resolve_retention_outcome (dir : string) (r : option string) (st : State W) :
  exists res,
    resolve_retention dir r st = (st, res)
    /\ (forall e, res = Exc e -> e = ValueError \/ e = AttributeError).
Proof.
  unfold resolve_retention. destruct r as [data|].
  - destruct (Py.int (Py.init data)) as [n|].
    + repeat match goal with
             | |- context [if ?b then _ else _] =>
                 destruct b;
                 [eexists; split; [reflexivity | intros e [=]]|]
             end.
      unfold bind. rewrite add_warning_text by reflexivity.
      eexists; split; [reflexivity|]. intros e [= <-]. now right.
    + eexists; split; [reflexivity|]. intros e [= <-]. now left.
  - eexists; split; [reflexivity|]. intros e [=].
Qed.

(** A number followed by a unit letter. *)
Lemma resolve_retention_number (dir : string) (n : Z) (u : ascii) (st : State W) :
  Py.is_ascii u = true ->
  resolve_retention dir (Some (Py.str_of_int n ++ Py.str1 u)) st
  = if Z.abs n <? int_limit then
      let unit := Py.lower (Py.str1 u) in
      if Py.contains "y" unit then (st, Val (n * 365 * 24 * 60))
      else if Py.contains "w" unit then (st, Val (n * 52 * 7 * 24 * 60))
      else if Py.contains "d" unit then (st, Val (n * 24 * 60))
      else if Py.contains "h" unit then (st, Val (n * 60))
      else if Py.contains "m" unit then (st, Val n)
      else (st, Exc AttributeError)
    else (st, Exc ValueError).
Proof.
  intros Hu. apply ascii_not_cont in Hu. unfold resolve_retention.
  rewrite (init_app_char _ _ Hu), (last1_app_char _ _ Hu), int_str_of_int.
  destruct (Z.abs n <? int_limit); [|reflexivity]. cbv zeta.
  repeat match goal with
         | |- context [if ?b then _ else _] => destruct b; [reflexivity|]
         end.
  unfold bind. now rewrite add_warning_text.
Qed.

(** C1. A retention of [N] weeks, written [Nw], resolves to [N * 52] weeks in
    minutes: [N * 52 * 7 * 24 * 60], and ["2w"] to 1048320 minutes, not to
    the 20160 minutes of two weeks. (A number of more than 4300 digits is
    refused by [int].) *)
Theorem resolve_weeks (dir : string) (st : State W) :
  (forall n : N,
      resolve_retention dir (Some (Py.str_of_int (Z.of_N n) ++ "w")) st
      = (st, if Z.of_N n <? 10 ^ 4300
             then Val (Z.of_N n * 52 * 7 * 24 * 60)
             else Exc ValueError))
  /\ resolve_retention dir (Some "2w") st = (st, Val 1048320)
  /\ 1048320 <> 2 * 7 * 24 * 60.
Proof.
  split; [|split].
  - intros n.
    pose proof (resolve_retention_number dir (Z.of_N n) "w" st eq_refl) as E.
    rewrite Z.abs_eq in E by lia. change (Py.str1 "w") with "w" in E.
    rewrite E. change (10 ^ 4300) with int_limit.
    now destruct (Z.of_N n <? int_limit).
  - apply (resolve_retention_number dir 2 "w" st eq_refl).
  - lia.
Qed.

(** C2. A retention with an unknown unit, such as ["3x"], ends the run with
    [AttributeError] and records no warning; a backup set without retention
    gets 12 * 52 weeks, 6289920 minutes, and no warning. (A number of more
    than 4300 digits ends the run with the [ValueError] of [int].) *)
Theorem resolve_unknown_unit (dir : string) (st : State W) :
  resolve_retention dir (Some "3x") st = (st, Exc AttributeError)
  /\ (forall n : Z,
         resolve_retention dir (Some (Py.str_of_int n ++ "x")) st
         = (st, Exc (if Z.abs n <? 10 ^ 4300 then AttributeError
                     else ValueError)))
  /\ resolve_retention dir None st = (st, Val 6289920)
  /\ 6289920 <> 12 * 7 * 24 * 60.
Proof.
  split; [|split; [|split]].
  - apply (resolve_retention_number dir 3 "x" st eq_refl).
  - intros n.
    pose proof (resolve_retention_number dir n "x" st eq_refl) as E.
    change (Py.str1 "x") with "x" in E.
    rewrite E. change (10 ^ 4300) with int_limit.
    now destruct (Z.abs n <? int_limit).
  - reflexivity.
  - lia.
Qed.

(** A retention whose number does not read as an integer. *)
Lemma resolve_retention_not_a_number (dir : string) (st : State W) :
  resolve_retention dir (Some "w") st = (st, Exc ValueError).
Proof. reflexivity. Qed.

(** X1. The units of a retention, in either case: a number of years counts
    365 days, then days, hours and minutes; the number may be negative. A
    number of more than 4300 digits ends the run with [ValueError]. *)
Theorem resolve_units (dir : string) (n : Z) (st : State W) :
  let within (v : Z) : result Z :=
    if Z.abs n <? 10 ^ 4300 then Val v else Exc ValueError in
  resolve_retention dir (Some (Py.str_of_int n ++ "y")) st
  = (st, within (n * 365 * 24 * 60))
  /\ resolve_retention dir (Some (Py.str_of_int n ++ "Y")) st
     = (st, within (n * 365 * 24 * 60))
  /\ resolve_retention dir (Some (Py.str_of_int n ++ "d")) st
     = (st, within (n * 24 * 60))
  /\ resolve_retention dir (Some (Py.str_of_int n ++ "D")) st
     = (st, within (n * 24 * 60))
  /\ resolve_retention dir (Some (Py.str_of_int n ++ "h")) st
     = (st, within (n * 60))
  /\ resolve_retention dir (Some (Py.str_of_int n ++ "H")) st
     = (st, within (n * 60))
  /\ resolve_retention dir (Some (Py.str_of_int n ++ "m")) st = (st, within n)
  /\ resolve_retention dir (Some (Py.str_of_int n ++ "M")) st = (st, within n).
Proof.
  intros within. unfold within. change (10 ^ 4300) with int_limit.
  repeat split.
  - pose proof (resolve_retention_number dir n "y" st eq_refl) as E.
    change (Py.str1 "y") with "y" in E. rewrite E.
    now destruct (Z.abs n <? int_limit).
  - pose proof (resolve_retention_number dir n "Y" st eq_refl) as E.
    change (Py.str1 "Y") with "Y" in E. rewrite E.
    now destruct (Z.abs n <? int_limit).
  - pose proof (resolve_retention_number dir n "d" st eq_refl) as E.
    change (Py.str1 "d") with "d" in E. rewrite E.
    now destruct (Z.abs n <? int_limit).
  - pose proof (resolve_retention_number dir n "D" st eq_refl) as E.
    change (Py.str1 "D") with "D" in E. rewrite E.
    now destruct (Z.abs n <? int_limit).
  - pose proof (resolve_retention_number dir n "h" st eq_refl) as E.
    change (Py.str1 "h") with "h" in E. rewrite E.
    now destruct (Z.abs n <? int_limit).
  - pose proof (resolve_retention_number dir n "H" st eq_refl) as E.
    change (Py.str1 "H") with "H" in E. rewrite E.
    now destruct (Z.abs n <? int_limit).
  - pose proof (resolve_retention_number dir n "m" st eq_refl) as E.
    change (Py.str1 "m") with "m" in E. rewrite E.
    now destruct (Z.abs n <? int_limit).
  - pose proof (resolve_retention_number dir n "M" st eq_refl) as E.
    change (Py.str1 "M") with "M" in E. rewrite E.
    now destruct (Z.abs n <? int_limit).
Qed.

(** X2. A retention that is empty or a single character, and a number
    followed by two characters of ASCII of which the first is no digit, no
    underscore and none of the white space that [int] strips, end the run
    with [ValueError]: only the last character is taken for the unit, and
    the rest must read as an integer. *)
Theorem resolve_malformed (dir : string) (st : State W) :
  resolve_retention dir (Some "") st = (st, Exc ValueError)
  /\ (forall cp : N,
         (cp < 1114112)%N ->
         resolve_retention dir (Some (Py.encode1 cp)) st = (st, Exc ValueError))
  /\ (forall (n : Z) (c u : ascii),
         Py.is_ascii c = true -> Py.is_ascii u = true ->
         is_digit c = false -> Ascii.eqb c "_" = false -> Py.is_space c = false ->
         resolve_retention dir
           (Some (Py.str_of_int n ++ Py.str1 c ++ Py.str1 u)) st
         = (st, Exc ValueError)).
Proof.
  split; [reflexivity|]. split.
  - intros cp Hcp. unfold resolve_retention, Py.init.
    rewrite (split_last_encode1 cp Hcp). reflexivity.
  - intros n c u Hac Hau Hc Hu Hs. unfold resolve_retention.
    rewrite <- append_assoc, init_app_char by now apply ascii_not_cont.
    now rewrite (int_number_then_letter n c Hac Hc Hu Hs).
Qed.

End Retention.

Lemma resolve_malformed_sample :
  ((87 < 1114112)%N
   /\ resolve_retention "/home/a" (Some "W") (start (Sample.host Sample.up))
      = (start (Sample.host Sample.up), Exc ValueError))
  /\ (Py.is_ascii "w" = true /\ Py.is_ascii "d" = true
      /\ is_digit "w" = false /\ Ascii.eqb "w" "_" = false
      /\ Py.is_space "w" = false)
  /\ resolve_retention "/home/a" (Some "2wd") (start (Sample.host Sample.up))
     = (start (Sample.host Sample.up), Exc ValueError).
Proof.
  split; [split; [reflexivity|]|split; [repeat split|]].
  - exact (proj1 (proj2 (resolve_malformed "/home/a"
                           (start (Sample.host Sample.up)))) 87%N eq_refl).
  - exact (proj2 (proj2 (resolve_malformed "/home/a" (start (Sample.host Sample.up))))
             2 "w"%char "d"%char eq_refl eq_refl eq_refl eq_refl eq_refl).
Defined.

(** ** Reading the settings *)

Section Loading.

Context {W : Type} `{World W}.

Lemma load_backupset_outcome (base : list string) (acc : list BackupSet)
    (b : SetSettings) (st : State W) :
  exists res,
    load_backupset base acc b st = (st, res)
    /\ (isdir (world st) (j_localdir b) = false -> res = Exc AttributeError)
    /\ (forall e, res = Exc e -> e = ValueError \/ e = AttributeError).
Proof.
  unfold load_backupset.
  destruct (isdir (world st) (j_localdir b)) eqn:E; simpl.
  - unfold bind.
    destruct (resolve_retention_outcome (j_localdir b) (j_retention b) st)
      as [res [Hres He]].
    rewrite Hres. destruct res as [m|e].
    + eexists; split; [reflexivity|]. split; [discriminate|]. intros e [=].
    + eexists; split; [reflexivity|]. split; [discriminate|].
      intros e' [= <-]. now apply He.
  - unfold bind. rewrite add_warning_text by reflexivity.
    eexists; split; [reflexivity|]. split; [reflexivity|].
    intros e [= <-]. now right.
Qed.

Lemma load_backupsets_outcome (base : list string) (l : list SetSettings)
    (acc : list BackupSet) (st : State W) :
  exists res,
    load_backupsets base l acc st = (st, res)
    /\ ((exists b, In b l /\ isdir (world st) (j_localdir b) = false) ->
        exists e, res = Exc e)
    /\ (forall e, res = Exc e -> e = ValueError \/ e = AttributeError).
Proof.
  revert acc. induction l as [|b l IH]; intros acc.
  - eexists; split; [reflexivity|]. split.
    + intros [b [[] _]].
    + intros e [=].
  - simpl. unfold bind.
    destruct (load_backupset_outcome base acc b st) as [res [Hres [Hmiss He]]].
    rewrite Hres. destruct res as [acc'|e].
    + destruct (IH acc') as [res' [Hres' [Hmiss' He']]].
      rewrite Hres'. eexists; split; [reflexivity|]. split; [|exact He'].
      intros [b' [[<-|Hin] Hb']].
      * specialize (Hmiss Hb'). discriminate.
      * apply Hmiss'. now exists b'.
    + eexists; split; [reflexivity|]. split.
      * intros _. now exists e.
      * intros e' [= <-]. now apply He.
Qed.

(** C3. When the local directory of a configured backup set does not exist,
    [main] ends with an exception: no command is run, no warning is
    recorded and no report is sent. *)
Theorem missing_local_directory (settingsData : Settings) (st : State W)
    (backupset : SetSettings) :
  In backupset (backupsets settingsData) ->
  isdir (world st) (j_localdir backupset) = false ->
  exists e st',
    main settingsData st = (st', Exc e)
    /\ (e = ValueError \/ e = AttributeError)
    /\ world st' = world st
    /\ outbox st' = outbox st
    /\ _warning_messages (notifier st') = [].
Proof.
  intros Hin Hdir. unfold main, bind. simpl.
  match goal with
  | |- context [load_backupsets ?b ?l ?a ?s] =>
      destruct (load_backupsets_outcome b l a s) as [res [Hres [Hmiss He]]]
  end.
  rewrite Hres. destruct Hmiss as [e ->].
  - exists backupset. split; [exact Hin | exact Hdir].
  - exists e. eexists. split; [reflexivity|]. split; [now apply He|].
    repeat split.
Qed.

End Loading.

(** The run of C3 on the sample machine: the only backup set names a local
    directory that does not exist. *)
Lemma missing_local_directory_sample :
  (In (Sample.dataset "/home/gone" None)
      (backupsets (Sample.settings (VStr "22") [Sample.dataset "/home/gone" None]))
   /\ isdir (world (start (Sample.host Sample.up))) "/home/gone" = false)
  /\ exists e st',
      main (Sample.settings (VStr "22") [Sample.dataset "/home/gone" None])
        (start (Sample.host Sample.up)) = (st', Exc e)
      /\ (e = ValueError \/ e = AttributeError)
      /\ world st' = world (start (Sample.host Sample.up))
      /\ outbox st' = outbox (start (Sample.host Sample.up))
      /\ _warning_messages (notifier st') = [].
Proof.
  assert (Hin : In (Sample.dataset "/home/gone" None)
                  (backupsets (Sample.settings (VStr "22")
                                 [Sample.dataset "/home/gone" None])))
    by (left; reflexivity).
  assert (Hdir : isdir (world (start (Sample.host Sample.up))) "/home/gone" = false)
    by reflexivity.
  split; [split; assumption|].
  exact (missing_local_directory _ _ _ Hin Hdir).
Defined.

(** The exception of that run is [AttributeError]. *)
Lemma missing_local_directory_raises :
  snd (main (Sample.settings (VStr "22") [Sample.dataset "/home/gone" None])
         (start (Sample.host Sample.up)))
  = Exc AttributeError.
Proof. vm_compute. reflexivity. Qed.

(** C4, as stated, fails. With the port of the target an integer, as the
    settings schema has it, the first command of the first pair raises
    [TypeError]. *)

(** ** The report *)


Section Report.

Context {W : Type} `{World W}.


End Report.

(** ** What reading the settings gives *)

Section Loaded.

Context {W : Type} `{World W}.

Lemma load_backupset_value (base : list string) (acc : list BackupSet)
    (b : SetSettings) (st st' : State W) (sets : list BackupSet) :
  load_backupset base acc b st = (st', Val sets) ->
  st' = st /\ exists s, sets = (acc ++ [s])%list /\ loaded_from base st b s.
Proof.
  unfold load_backupset.
  destruct (isdir (world st) (j_localdir b)) eqn:E; simpl.
  - unfold bind.
    destruct (resolve_retention_outcome (j_localdir b) (j_retention b) st)
      as [res [Hres _]].
    rewrite Hres. destruct res as [m|e]; [|discriminate].
    unfold ret. intros [= <- <-]. split; [reflexivity|].
    eexists. split; [reflexivity|]. repeat split; auto.
  - unfold bind. rewrite add_warning_text by reflexivity. discriminate.
Qed.

Lemma load_backupsets_value (base : list string) (l : list SetSettings)
    (acc : list BackupSet) (st st' : State W) (sets : list BackupSet) :
  load_backupsets base l acc st = (st', Val sets) ->
  st' = st
  /\ exists loaded, sets = (acc ++ loaded)%list
                    /\ Forall2 (loaded_from base st) l loaded.
Proof.
  revert acc. induction l as [|b l IH]; intros acc.
  - simpl. unfold ret. intros [= <- <-]. split; [reflexivity|].
    exists []. split; [now rewrite List.app_nil_r | constructor].
  - simpl. unfold bind.
    destruct (load_backupset base acc b st) as [st1 [acc1|e]] eqn:E1;
      [|discriminate].
    apply load_backupset_value in E1. destruct E1 as [-> [s [-> Hs]]].
    intros E2. apply IH in E2. destruct E2 as [-> [loaded [-> Hl]]].
    split; [reflexivity|]. exists (s :: loaded).
    split; [now rewrite <- List.app_assoc | now constructor].
Qed.

(** X11. When the settings are read without an exception, every configured
    backup set is loaded, in the order of the settings: its local directory
    exists, its exclude options are the global ones followed by its own, and
    its retention is the one its settings resolve to; nothing is recorded
    and the world is left as it was. *)
Theorem load_backupsets_all (base : list string) (l : list SetSettings)
    (st st' : State W) (sets : list BackupSet) :
  load_backupsets base l [] st = (st', Val sets) ->
  st' = st /\ Forall2 (loaded_from base st) l sets.
Proof.
  intros E. apply load_backupsets_value in E.
  destruct E as [-> [loaded [-> Hl]]]. split; [reflexivity | exact Hl].
Qed.

End Loaded.

Lemma load_backupsets_all_sample :
  load_backupsets ["--exclude=*.o"] [Sample.dataset "/home/a" (Some "30d")] []
    (start (Sample.host Sample.up))
  = (start (Sample.host Sample.up),
     Val [mkBackupSet "/home/a" "/b" ["--exclude=*.o"] 43200])
  /\ Forall2 (loaded_from ["--exclude=*.o"] (start (Sample.host Sample.up)))
       [Sample.dataset "/home/a" (Some "30d")]
       [mkBackupSet "/home/a" "/b" ["--exclude=*.o"] 43200].
Proof.
  assert (E : load_backupsets ["--exclude=*.o"]
                [Sample.dataset "/home/a" (Some "30d")] []
                (start (Sample.host Sample.up))
              = (start (Sample.host Sample.up),
                 Val [mkBackupSet "/home/a" "/b" ["--exclude=*.o"] 43200]))
    by reflexivity.
  split; [exact E|].
  exact (proj2 (load_backupsets_all _ _ _ _ _ E)).
Defined.

(** ** The steps of a pair *)

Lemma decode_utf8_some (b s : string) : Py.decode_utf8 b = Some s -> s = b.
Proof. unfold Py.decode_utf8. destruct (Py.decode b); congruence. Qed.

Lemma one_outcome_count (n n' : BackupNotifier) :
  one_outcome n n' ->
  _warning_messages n' = _warning_messages n
  /\ outcomes n' = S (outcomes n).
Proof.
  unfold one_outcome, outcomes.
  intros [Hw [_ [_ [_ [_ [_ [_ [[e [He Hs]]|[m [Hs He]]]]]]]]]];
    rewrite He, Hs; rewrite ?length_app; simpl; split; auto; lia.
Qed.

Section Steps.

Context {W : Type} `{World W}.

Lemma strs_app (a b : list string) : strs (a ++ b) = (strs a ++ strs b)%list.
Proof. apply map_app. Qed.

(** The argument vector of a list of texts. *)
Lemma argv_of_strs (l : list string) :
  argv_of (strs l) = if clean l then Val l else Exc ValueError.
Proof.
  induction l as [|x l IH]; [reflexivity|].
  cbn [strs map argv_of clean forallb]. fold (strs l). fold (clean l).
  destruct (has_nul x); [reflexivity|]. rewrite IH. cbn [negb andb].
  now destruct (clean l).
Qed.

Lemma argv_of_app (a : list pyval) (x l : list string) :
  argv_of a = Val x ->
  argv_of (a ++ strs l) = if clean l then Val (x ++ l)%list else Exc ValueError.
Proof.
  revert x. induction a as [|v a IH]; intros x Ha.
  - injection Ha as <-. apply argv_of_strs.
  - destruct v as [z|s]; [discriminate|]. cbn [app argv_of] in *.
    destruct (has_nul s); [discriminate|].
    destruct (argv_of a) as [x'|e]; [|discriminate].
    injection Ha as <-. rewrite (IH x' eq_refl). now destruct (clean l).
Qed.

Lemma argv_of_outcome (args : list pyval) :
  (exists argv, argv_of args = Val argv)
  \/ argv_of args = Exc ValueError \/ argv_of args = Exc TypeError.
Proof.
  induction args as [|v args IH]; [left; now exists []|].
  destruct v as [z|s]; cbn [argv_of]; [now right; right|].
  destruct (has_nul s); [now right; left|].
  destruct IH as [[argv ->]|[-> | ->]]; [left; now eexists | now right; left | now right; right].
Qed.

(** A command whose arguments are fine: it runs if it can be started, and
    a status other than zero is the failure of the command. *)
Lemma subprocess_run_argv (args : list pyval) (argv : list string) (st : State W) :
  argv_of args = Val argv ->
  subprocess_run args st
  = if starts (world st) argv then
      if Z.eqb (c_returncode (snd (spawn (world st) argv))) 0 then
        (mkState (fst (spawn (world st) argv)) (notifier st) (outbox st), Val tt)
      else
        (mkState (fst (spawn (world st) argv)) (notifier st) (outbox st),
         Exc (CalledProcessError (failure argv (snd (spawn (world st) argv)))))
    else (st, Exc OSError).
Proof.
  intros Ha. unfold subprocess_run. rewrite Ha.
  destruct (starts (world st) argv); [|reflexivity].
  now destruct (spawn (world st) argv).
Qed.

(** Reading what a child wrote never fails for its exit status. *)
Lemma popen_stdout_argv (args : list pyval) (argv : list string) (st : State W) :
  argv_of args = Val argv ->
  popen_stdout args st
  = if starts (world st) argv then
      (mkState (fst (spawn (world st) argv)) (notifier st) (outbox st),
       Val (c_stdout (snd (spawn (world st) argv))))
    else (st, Exc OSError).
Proof.
  intros Ha. unfold popen_stdout. rewrite Ha.
  destruct (starts (world st) argv); [|reflexivity].
  now destruct (spawn (world st) argv).
Qed.

Lemma subprocess_run_quiet (args : list pyval) :
  argv_of args <> Exc TypeError -> quiet (subprocess_run (W:=W) args).
Proof.
  intros Hno st.
  destruct (argv_of_outcome args) as [[argv E]|[E|E]]; [| |contradiction].
  - rewrite (subprocess_run_argv _ _ _ E).
    destruct (starts (world st) argv); [destruct (Z.eqb _ 0)|];
      do 2 eexists; (split; [reflexivity|]); repeat split; escape.
  - unfold subprocess_run. rewrite E.
    do 2 eexists; (split; [reflexivity|]); repeat split; escape.
Qed.

Lemma popen_stdout_quiet (args : list pyval) :
  argv_of args <> Exc TypeError -> quiet (popen_stdout (W:=W) args).
Proof.
  intros Hno st.
  destruct (argv_of_outcome args) as [[argv E]|[E|E]]; [| |contradiction].
  - rewrite (popen_stdout_argv _ _ _ E).
    destruct (starts (world st) argv);
      do 2 eexists; (split; [reflexivity|]); repeat split; escape.
  - unfold popen_stdout. rewrite E.
    do 2 eexists; (split; [reflexivity|]); repeat split; escape.
Qed.

Lemma popen_filter_quiet (argv : list string) (f : string -> string)
    (input : string) :
  quiet (popen_filter (W:=W) argv f input).
Proof.
  intros st. unfold popen_filter.
  destruct (starts (world st) argv);
    do 2 eexists; (split; [reflexivity|]); repeat split; escape.
Qed.

Lemma decode_bytes_quiet (b : string) : quiet (decode_bytes (W:=W) b).
Proof.
  intros st. unfold decode_bytes.
  destruct (Py.decode_utf8 b);
    do 2 eexists; (split; [reflexivity|]); repeat split; escape.
Qed.

Lemma str_of_quiet (n : Z) : quiet (str_of (W:=W) n).
Proof.
  intros st. unfold str_of.
  destruct (Py.str_int n);
    do 2 eexists; (split; [reflexivity|]); repeat split; escape.
Qed.

Lemma quiet_bind {A B : Type} (c : M (State W) A) (k : A -> M (State W) B) :
  quiet c -> (forall a, quiet (k a)) -> quiet (bind c k).
Proof.
  intros Hc Hk st. unfold bind.
  destruct (Hc st) as [st1 [r [E [Hn [Ho Hr]]]]]. rewrite E.
  destruct r as [a|e].
  - destruct (Hk a st1) as [st2 [r2 [E2 [Hn2 [Ho2 Hr2]]]]].
    exists st2, r2. repeat split; congruence || exact Hr2.
  - exists st1, (Exc e). repeat split; auto.
Qed.

(** The exceptions of reading what a child wrote are not failed commands. *)
Lemma popen_stdout_unchecked (args : list pyval) :
  unchecked (popen_stdout (W:=W) args).
Proof.
  intros st e. unfold popen_stdout.
  destruct (argv_of_outcome args) as [[argv E]|[E|E]]; rewrite E;
    try (simpl; discriminate).
  destruct (starts (world st) argv); [|discriminate].
  destruct (spawn (world st) argv). discriminate.
Qed.

Lemma popen_filter_unchecked (argv : list string) (f : string -> string)
    (input : string) :
  unchecked (popen_filter (W:=W) argv f input).
Proof.
  intros st e. unfold popen_filter.
  destruct (starts (world st) argv); discriminate.
Qed.

Lemma decode_bytes_unchecked (b : string) : unchecked (decode_bytes (W:=W) b).
Proof.
  intros st e. unfold decode_bytes. destruct (Py.decode_utf8 b); discriminate.
Qed.

Lemma str_of_unchecked (n : Z) : unchecked (str_of (W:=W) n).
Proof.
  intros st e. unfold str_of. destruct (Py.str_int n); discriminate.
Qed.

Lemma unchecked_bind {A B : Type} (c : M (State W) A) (k : A -> M (State W) B) :
  unchecked c -> (forall a, unchecked (k a)) -> unchecked (bind c k).
Proof.
  intros Hc Hk st e. unfold bind. pose proof (Hc st e) as H1.
  destruct (c st) as [st1 [a|e1]]; [apply Hk|].
  simpl in *. intros [= ->]. now apply H1.
Qed.

(** Neither listing can end with a failed command: the handlers of lines 188
    and 222 are never entered. *)
Lemma listings_never_fail (sshbasecmd : list pyval) (dir : string) (mins : Z)
    (st : State W) (e : ProcError) :
  snd (get_latest sshbasecmd dir st) <> Exc (CalledProcessError e)
  /\ snd (get_old sshbasecmd dir mins st) <> Exc (CalledProcessError e).
Proof.
  split.
  - apply (unchecked_bind (popen_stdout _)); [apply popen_stdout_unchecked|].
    intros p1. apply unchecked_bind; [apply popen_filter_unchecked|].
    intros p2. apply unchecked_bind; [apply popen_filter_unchecked|].
    intros p3. apply decode_bytes_unchecked.
  - apply (unchecked_bind (str_of _)); [apply str_of_unchecked|].
    intros m. apply unchecked_bind; [apply popen_stdout_unchecked|].
    intros p1. apply unchecked_bind; [apply popen_filter_unchecked|].
    intros p2. apply decode_bytes_unchecked.
Qed.

(** What [add_error] records for a failed command: the message and the
    report of the command; it raises when it cannot write the report (the
    output of the command is no UTF-8), and then records nothing. *)
Lemma add_error_proc (message : string) (e : ProcError) (st : State W) :
  add_error message (CProc e) st
  = if reportable e then
      (mkState (world st) (with_error (notifier st) (error_text message e))
         (outbox st), Val tt)
    else (st, Exc (report_error e)).
Proof.
  unfold add_error, bind, str_of, decode_bytes, reportable, report_error, output.
  cbn [context_truthy]. rewrite str_int_value.
  destruct (Z.abs (returncode e) <? int_limit); [|reflexivity].
  cbn [andb].
  destruct (Py.decode_utf8 (stdout e)) as [out|] eqn:E1; [|reflexivity].
  apply decode_utf8_some in E1. subst out.
  destruct (Py.decode_utf8 (stderr e)) as [err|] eqn:E2; [|reflexivity].
  apply decode_utf8_some in E2. subst err.
  reflexivity.
Qed.

Lemma report_error_escapes (e : ProcError) : escapes (report_error e).
Proof. unfold report_error. destruct (_ <? _); escape. Qed.

Lemma add_error_settles (message : string) (e : ProcError) :
  settles (add_error (W:=W) message (CProc e)).
Proof.
  intros st. rewrite add_error_proc. destruct (reportable e).
  - do 2 eexists. split; [reflexivity|]. split; [reflexivity|].
    unfold one_outcome. simpl. repeat split. left. eexists. now split.
  - do 2 eexists. split; [reflexivity|]. split; [reflexivity|].
    split; [apply report_error_escapes | reflexivity].
Qed.

Lemma add_success_settles (message : string) :
  settles (add_success (W:=W) message).
Proof.
  intros st. do 2 eexists. split; [reflexivity|]. split; [reflexivity|].
  unfold one_outcome. simpl. repeat split. right. now exists message.
Qed.

Lemma try_settles {A : Type} (body : M (State W) A)
    (handler : ProcError -> M (State W) unit) (rest : A -> M (State W) unit) :
  quiet body ->
  (forall e, settles (handler e)) ->
  (forall a, settles (rest a)) ->
  settles (try_or_continue body handler rest).
Proof.
  intros Hb Hh Hr st. unfold try_or_continue.
  destruct (Hb st) as [st1 [r [E [Hn [Ho Hq]]]]]. rewrite E.
  destruct r as [a|e].
  - destruct (Hr a st1) as [st2 [r2 [E2 [Ho2 H2]]]]. exists st2, r2.
    split; [exact E2|]. split; [congruence|]. rewrite <- Hn.
    destruct r2; [exact H2|]. destruct H2 as [H2 H3]. split; [exact H2|].
    congruence.
  - destruct e as [| | | | |e];
      try (exists st1; eexists; split; [reflexivity|]; split; [exact Ho|];
           split; [exact Hq | exact Hn]).
    destruct (Hh e st1) as [st2 [r2 [E2 [Ho2 H2]]]]. exists st2, r2.
    split; [exact E2|]. split; [congruence|]. rewrite <- Hn.
    destruct r2; [exact H2|]. destruct H2 as [H2 H3]. split; [exact H2|].
    congruence.
Qed.

Section OnePair.

Variables (sshexe rsyncexe : string) (backupTarget : BackupTarget)
  (backupSet : BackupSet).
Variables (sshbase : list string) (portstr : string).
Hypothesis Hport : port backupTarget = VStr portstr.

Lemma ssh_args (l : list string) :
  argv_of (strs sshbase ++ strs l) <> Exc TypeError.
Proof.
  rewrite <- strs_app, argv_of_strs. now destruct (clean _).
Qed.

Lemma ssh_quiet (l : list string) :
  quiet (subprocess_run (W:=W) (strs sshbase ++ strs l)).
Proof. apply subprocess_run_quiet, ssh_args. Qed.

Lemma get_latest_quiet (dir : string) :
  quiet (get_latest (W:=W) (strs sshbase) dir).
Proof.
  unfold get_latest.
  apply quiet_bind; [apply popen_stdout_quiet, ssh_args|].
  intros p1. apply quiet_bind; [apply popen_filter_quiet|].
  intros p2. apply quiet_bind; [apply popen_filter_quiet|].
  intros p3. apply decode_bytes_quiet.
Qed.

Lemma get_old_quiet (dir : string) (mins : Z) :
  quiet (get_old (W:=W) (strs sshbase) dir mins).
Proof.
  unfold get_old.
  apply quiet_bind; [apply str_of_quiet|].
  intros m. apply quiet_bind; [apply popen_stdout_quiet, ssh_args|].
  intros p1. apply quiet_bind; [apply popen_filter_quiet|].
  intros p2. apply decode_bytes_quiet.
Qed.

Lemma remove_old_settles (old : string) :
  settles (remove_old (W:=W) backupTarget (strs sshbase) backupSet old).
Proof.
  unfold remove_old. destruct (Py.truthy old).
  - apply try_settles.
    + apply ssh_quiet.
    + intros e. apply add_error_settles.
    + intros _. apply add_success_settles.
  - apply add_success_settles.
Qed.

Lemma enforce_retention_settles :
  settles (enforce_retention (W:=W) backupTarget (strs sshbase) backupSet).
Proof.
  unfold enforce_retention. apply try_settles.
  - apply get_old_quiet.
  - intros e. apply add_error_settles.
  - apply remove_old_settles.
Qed.

Lemma promote_settles :
  settles (promote (W:=W) backupTarget (strs sshbase) backupSet).
Proof.
  intros st. unfold promote. apply (try_settles (A:=unit)).
  - apply ssh_quiet.
  - intros e. apply add_error_settles.
  - intros _. apply enforce_retention_settles.
Qed.

Lemma make_backupcmd_value (tmp latest : string) (st : State W) :
  exists l,
    make_backupcmd sshexe rsyncexe backupTarget backupSet tmp latest st
    = (st, Val (strs l)).
Proof.
  unfold make_backupcmd, rsh_option, bind, str_add. rewrite Hport.
  destruct (negb (Py.truthy latest)); eexists; reflexivity.
Qed.

Lemma strs_args (l : list string) : argv_of (strs l) <> Exc TypeError.
Proof. rewrite argv_of_strs. now destruct (clean l). Qed.

Lemma transfer_settles (latest : string) :
  settles (transfer (W:=W) sshexe rsyncexe backupTarget (strs sshbase) backupSet latest).
Proof.
  intros st. unfold transfer, bind.
  destruct (make_backupcmd_value
              (Py.re_escape (remotedir backupSet ++ "/" ++ ".tmp"))
              latest st) as [l E].
  rewrite E. apply (try_settles (A:=unit)).
  - apply subprocess_run_quiet, strs_args.
  - intros e. apply add_error_settles.
  - intros _. apply promote_settles.
Qed.

Lemma resolve_latest_settles :
  settles (resolve_latest (W:=W) sshexe rsyncexe backupTarget (strs sshbase) backupSet).
Proof.
  unfold resolve_latest. apply try_settles.
  - apply get_latest_quiet.
  - intros e. apply add_error_settles.
  - apply transfer_settles.
Qed.

Lemma clear_staging_settles :
  settles (clear_staging (W:=W) sshexe rsyncexe backupTarget (strs sshbase) backupSet).
Proof.
  unfold clear_staging. apply try_settles.
  - apply ssh_quiet.
  - intros e. apply add_error_settles.
  - intros _. apply resolve_latest_settles.
Qed.

Lemma backup_pair_settles :
  settles (backup_pair (W:=W) sshexe rsyncexe backupTarget (strs sshbase) backupSet).
Proof.
  unfold backup_pair. apply try_settles.
  - apply ssh_quiet.
  - intros e. apply add_error_settles.
  - intros _. apply clear_staging_settles.
Qed.

(** X4. With a string for the port, the body of the inner loop sends no
    mail and ends in one of two ways, whatever its commands do. Either it
    ends without an exception and has recorded exactly one outcome for its
    pair: one error or one success, never a warning, with nothing else of
    the notifier changed. Or it lets an exception through and has recorded
    nothing: [ValueError] (a null character in an argument, or a retention
    of more than 4300 digits), [OSError] (a program that cannot be started)
    or [UnicodeDecodeError] (output that is no UTF-8). *)
Theorem pair_records_one_outcome (st : State W) :
  exists st' r,
    backup_pair sshexe rsyncexe backupTarget (strs sshbase) backupSet st = (st', r)
    /\ outbox st' = outbox st
    /\ match r with
       | Val _ => one_outcome (notifier st) (notifier st')
       | Exc e =>
           (e = ValueError \/ e = OSError \/ e = UnicodeDecodeError)
           /\ notifier st' = notifier st
       end.
Proof. exact (backup_pair_settles st). Qed.

End OnePair.

(** *** The loops *)

Lemma settles_adds (c : M (State W) unit) : settles c -> adds 1 c.
Proof.
  intros Hc st. destruct (Hc st) as [st' [r [E [Ho H1]]]].
  exists st', r. split; [exact E|]. split; [exact Ho|].
  destruct r as [u|e].
  - apply one_outcome_count in H1. destruct H1 as [Hw Hn].
    split; [exact Hw|]. rewrite Hn. lia.
  - destruct H1 as [He Hn]. split; [now rewrite Hn | exact He].
Qed.

Lemma for_each_adds {A : Type} (k : nat) (l : list A)
    (body : A -> M (State W) unit) :
  (forall x, In x l -> adds k (body x)) ->
  adds (length l * k) (for_each l body).
Proof.
  induction l as [|x l IH]; intros Hb st.
  - exists st, (Val tt). repeat split. simpl. lia.
  - simpl. unfold bind.
    destruct (Hb x (or_introl eq_refl) st) as [st1 [r1 [E1 [Ho1 [Hw1 Hn1]]]]].
    rewrite E1. destruct r1 as [u|e].
    + destruct (IH (fun y Hy => Hb y (or_intror Hy)) st1)
        as [st2 [r2 [E2 [Ho2 [Hw2 Hn2]]]]].
      exists st2, r2. split; [exact E2|]. split; [congruence|].
      split; [congruence|]. destruct r2; [|exact Hn2]. rewrite Hn2, Hn1. lia.
    + exists st1, (Exc e). repeat split; auto.
Qed.

Lemma backup_target_adds (sshexe rsyncexe : string) (backupSets : list BackupSet)
    (backupTarget : BackupTarget) (portstr : string) :
  port backupTarget = VStr portstr ->
  adds (length backupSets * 1)
    (backup_target (W:=W) sshexe rsyncexe backupSets backupTarget).
Proof.
  intros Hport. unfold backup_target. apply for_each_adds.
  intros backupSet _. apply settles_adds. rewrite Hport.
  apply (backup_pair_settles sshexe rsyncexe backupTarget backupSet
           [sshexe; "-i"; key backupTarget; "-p"; portstr;
            user backupTarget ++ "@" ++ address backupTarget] portstr Hport).
Qed.

(** With string ports, the two loops record one outcome for every pair, or
    let one of the exceptions of a pair through. *)
Lemma loops_add (sshexe rsyncexe : string) (backupSets : list BackupSet)
    (targets : list BackupTarget) :
  (forall t, In t targets -> exists s, port t = VStr s) ->
  adds (length targets * (length backupSets * 1))
    (for_each targets (backup_target (W:=W) sshexe rsyncexe backupSets)).
Proof.
  intros Hports. apply for_each_adds. intros t Ht.
  destruct (Hports t Ht) as [s Hs]. now apply (backup_target_adds _ _ _ _ s).
Qed.

End Steps.

(** ** A whole run *)

Section Run.

Context {W : Type} `{World W}.

Lemma targets_ports (settingsData : Settings) :
  (forall t, In t (backuptargets settingsData) -> exists s, j_port t = VStr s) ->
  forall t,
    In t (map (fun server => mkBackupTarget (j_address server) (j_key server)
                               (j_port server) (j_user server))
            (backuptargets settingsData)) ->
    exists s, port t = VStr s.
Proof.
  intros Hports t Ht. apply in_map_iff in Ht.
  destruct Ht as [server [<- Hin]]. exact (Hports server Hin).
Qed.

(** With string ports, [main] either goes through every pair and sends
    exactly one report, after the loops, or ends with an exception and sends
    none: an exception of reading the settings ([ValueError],
    [AttributeError]) or one that a pair lets through ([ValueError],
    [OSError], [UnicodeDecodeError]). *)
Lemma main_sends_report (settingsData : Settings) (st : State W) :
  (forall t, In t (backuptargets settingsData) -> exists s, j_port t = VStr s) ->
  exists st' r,
    main settingsData st = (st', r)
    /\ match r with
       | Val _ => exists report, outbox st' = (outbox st ++ [report])%list
       | Exc e =>
           (e = ValueError \/ e = AttributeError \/ e = OSError
            \/ e = UnicodeDecodeError)
           /\ outbox st' = outbox st
       end.
Proof.
  intros Hports. unfold main, bind. simpl.
  match goal with
  | |- context [load_backupsets ?b ?l ?a ?s] =>
      destruct (load_backupsets_outcome b l a s) as [res [Hres [_ He]]]
  end.
  rewrite Hres. destruct res as [backupSets|e].
  - match goal with
    | |- context [for_each ?l (backup_target ?a ?b ?c) ?s] =>
        destruct (loops_add a b c l (targets_ports _ Hports) s)
          as [st' [r [E [Ho [_ Hr]]]]]
    end.
    rewrite E. destruct r as [u|e].
    + unfold send_notification. do 2 eexists. split; [reflexivity|].
      simpl. rewrite Ho. eexists. reflexivity.
    + do 2 eexists. split; [reflexivity|]. split; [|exact Ho].
      destruct Hr as [->|[->| ->]]; auto.
  - do 2 eexists. split; [reflexivity|]. split; [|reflexivity].
    destruct (He e eq_refl) as [->| ->]; auto.
Qed.

(** C4, as the code has it. When the port of every backup target is a
    string, [main] builds and runs its commands for every pair without a
    [TypeError]. *)
Theorem string_ports_no_type_error (settingsData : Settings) (st : State W) :
  (forall t, In t (backuptargets settingsData) -> exists s, j_port t = VStr s) ->
  snd (main settingsData st) <> Exc TypeError.
Proof.
  intros Hports.
  destruct (main_sends_report settingsData st Hports) as [st' [r [E Hr]]].
  rewrite E. simpl. intros ->.
  destruct Hr as [[Hr|[Hr|[Hr|Hr]]] _]; discriminate.
Qed.

(** X5. A run with string ports that ends without an exception has recorded
    one outcome, an error or a success, for every pair of a configured target
    and a configured backup set, has recorded no warning, and has sent one
    report, its last action. *)
Theorem run_outcome_count (settingsData : Settings) (st st' : State W) :
  (forall t, In t (backuptargets settingsData) -> exists s, j_port t = VStr s) ->
  main settingsData st = (st', Val tt) ->
  outcomes (notifier st')
  = (length (backuptargets settingsData) * length (backupsets settingsData))%nat
  /\ _warning_messages (notifier st') = []
  /\ exists report, outbox st' = (outbox st ++ [report])%list.
Proof.
  intros Hports. unfold main, bind. simpl.
  match goal with
  | |- context [load_backupsets ?b ?l ?a ?s] =>
      destruct (load_backupsets b l a s) as [st1 [backupSets|e]] eqn:El;
      [|discriminate]
  end.
  apply load_backupsets_value in El. destruct El as [-> [loaded [-> Hl]]].
  cbn [app]. apply Forall2_length in Hl.
  match goal with
  | |- context [for_each ?l (backup_target ?a ?b ?c) ?s] =>
      destruct (loops_add a b c l (targets_ports _ Hports) s)
        as [st2 [r [E [Ho [Hw Hn]]]]]
  end.
  rewrite E. destruct r as [u|e]; [|discriminate].
  unfold send_notification. intros [= <-]. simpl.
  rewrite Hn, Hw, Ho. simpl. rewrite length_map, Hl.
  split; [unfold outcomes; simpl; lia|]. split; [reflexivity|].
  eexists. reflexivity.
Qed.

(** *** No warning is ever recorded *)

Lemma keeps_notifier_bind {A B : Type} (c : M (State W) A)
    (k : A -> M (State W) B) :
  keeps_notifier c -> (forall a, keeps_notifier (k a)) ->
  keeps_notifier (bind c k).
Proof.
  intros Hc Hk st. unfold bind. pose proof (Hc st) as H1.
  destruct (c st) as [st1 [a|e]]; simpl in H1.
  - rewrite (Hk a st1). exact H1.
  - exact H1.
Qed.

Lemma subprocess_run_keeps (args : list pyval) :
  keeps_notifier (subprocess_run (W:=W) args).
Proof.
  intros st. unfold subprocess_run. destruct (argv_of args) as [l|e]; [|reflexivity].
  destruct (starts (world st) l); [|reflexivity].
  destruct (spawn (world st) l) as [w c].
  destruct (Z.eqb (c_returncode c) 0); reflexivity.
Qed.

Lemma popen_stdout_keeps (args : list pyval) :
  keeps_notifier (popen_stdout (W:=W) args).
Proof.
  intros st. unfold popen_stdout. destruct (argv_of args) as [l|e]; [|reflexivity].
  destruct (starts (world st) l); [|reflexivity].
  destruct (spawn (world st) l) as [w c]. reflexivity.
Qed.

Lemma popen_filter_keeps (argv : list string) (f : string -> string)
    (input : string) :
  keeps_notifier (popen_filter (W:=W) argv f input).
Proof.
  intros st. unfold popen_filter. now destruct (starts (world st) argv).
Qed.

Lemma decode_bytes_keeps (b : string) : keeps_notifier (decode_bytes (W:=W) b).
Proof. intros st. unfold decode_bytes. now destruct (Py.decode_utf8 b). Qed.

Lemma str_of_keeps (n : Z) : keeps_notifier (str_of (W:=W) n).
Proof. intros st. unfold str_of. now destruct (Py.str_int n). Qed.

Lemma get_latest_keeps (sshbasecmd : list pyval) (dir : string) :
  keeps_notifier (get_latest (W:=W) sshbasecmd dir).
Proof.
  unfold get_latest.
  apply keeps_notifier_bind; [apply popen_stdout_keeps|].
  intros p1. apply keeps_notifier_bind; [apply popen_filter_keeps|].
  intros p2. apply keeps_notifier_bind; [apply popen_filter_keeps|].
  intros p3. apply decode_bytes_keeps.
Qed.

Lemma get_old_keeps (sshbasecmd : list pyval) (dir : string) (mins : Z) :
  keeps_notifier (get_old (W:=W) sshbasecmd dir mins).
Proof.
  unfold get_old.
  apply keeps_notifier_bind; [apply str_of_keeps|].
  intros m. apply keeps_notifier_bind; [apply popen_stdout_keeps|].
  intros p1. apply keeps_notifier_bind; [apply popen_filter_keeps|].
  intros p2. apply decode_bytes_keeps.
Qed.

Lemma add_error_keeps (message : string) (e : ProcError) :
  keeps_warnings (add_error (W:=W) message (CProc e)).
Proof.
  intros st. rewrite add_error_proc. now destruct (reportable e).
Qed.

Lemma add_success_keeps (message : string) :
  keeps_warnings (add_success (W:=W) message).
Proof. intros st. reflexivity. Qed.

Lemma try_keeps {A : Type} (body : M (State W) A)
    (handler : ProcError -> M (State W) unit) (rest : A -> M (State W) unit) :
  keeps_notifier body ->
  (forall e, keeps_warnings (handler e)) ->
  (forall a, keeps_warnings (rest a)) ->
  keeps_warnings (try_or_continue body handler rest).
Proof.
  intros Hb Hh Hr st. unfold try_or_continue.
  pose proof (Hb st) as Hn.
  destruct (body st) as [st1 [a|e]]; simpl in Hn.
  - rewrite (Hr a st1). now rewrite Hn.
  - destruct e; try (simpl; now rewrite Hn).
    rewrite (Hh e st1). now rewrite Hn.
Qed.

Lemma make_backupcmd_state (sshexe rsyncexe : string) (backupTarget : BackupTarget)
    (backupSet : BackupSet) (tmp latest : string) (st : State W) :
  fst (make_backupcmd sshexe rsyncexe backupTarget backupSet tmp latest st) = st.
Proof.
  unfold make_backupcmd, rsh_option, str_add, bind.
  destruct (negb (Py.truthy latest)); destruct (port backupTarget); reflexivity.
Qed.

Lemma backup_pair_keeps (sshexe rsyncexe : string) (backupTarget : BackupTarget)
    (sshbasecmd : list pyval) (backupSet : BackupSet) :
  keeps_warnings (backup_pair (W:=W) sshexe rsyncexe backupTarget sshbasecmd
                    backupSet).
Proof.
  assert (Hsucc : keeps_warnings (record_success (W:=W) backupTarget backupSet))
    by apply add_success_keeps.
  assert (Hrem : forall old,
             keeps_warnings (remove_old (W:=W) backupTarget sshbasecmd backupSet old)).
  { intros old. unfold remove_old. destruct (Py.truthy old); [|exact Hsucc].
    apply try_keeps; [apply subprocess_run_keeps | |]; intros.
    - apply add_error_keeps.
    - exact Hsucc. }
  assert (Hret : keeps_warnings
                   (enforce_retention (W:=W) backupTarget sshbasecmd backupSet)).
  { unfold enforce_retention.
    apply try_keeps; [apply get_old_keeps | |]; intros.
    - apply add_error_keeps.
    - apply Hrem. }
  assert (Hpro : keeps_warnings (promote (W:=W) backupTarget sshbasecmd backupSet)).
  { intros st. unfold promote.
    apply (try_keeps (A:=unit)); [apply subprocess_run_keeps | |]; intros.
    - apply add_error_keeps.
    - exact Hret. }
  assert (Htra : forall latest,
             keeps_warnings (transfer (W:=W) sshexe rsyncexe backupTarget
                               sshbasecmd backupSet latest)).
  { intros latest st. unfold transfer, bind.
    pose proof (make_backupcmd_state sshexe rsyncexe backupTarget backupSet
                  (Py.re_escape (remotedir backupSet ++ "/" ++ ".tmp"))
                  latest st) as Hm.
    destruct (make_backupcmd _ _ _ _ _ _ st) as [st1 [cmd|e]]; simpl in Hm;
      subst st1; [|reflexivity].
    apply (try_keeps (A:=unit)); [apply subprocess_run_keeps | |]; intros.
    - apply add_error_keeps.
    - exact Hpro. }
  assert (Hlat : keeps_warnings (resolve_latest (W:=W) sshexe rsyncexe
                                   backupTarget sshbasecmd backupSet)).
  { unfold resolve_latest.
    apply try_keeps; [apply get_latest_keeps | |]; intros.
    - apply add_error_keeps.
    - apply Htra. }
  assert (Hcle : keeps_warnings (clear_staging (W:=W) sshexe rsyncexe
                                   backupTarget sshbasecmd backupSet)).
  { unfold clear_staging.
    apply try_keeps; [apply subprocess_run_keeps | |]; intros.
    - apply add_error_keeps.
    - exact Hlat. }
  unfold backup_pair.
  apply try_keeps; [apply subprocess_run_keeps | |]; intros.
  - apply add_error_keeps.
  - exact Hcle.
Qed.

Lemma for_each_keeps {A : Type} (l : list A) (body : A -> M (State W) unit) :
  (forall x, keeps_warnings (body x)) -> keeps_warnings (for_each l body).
Proof.
  intros Hb. induction l as [|x l IH]; intros st; [reflexivity|].
  simpl. unfold bind. pose proof (Hb x st) as Hx.
  destruct (body x st) as [st1 [u|e]]; simpl in Hx.
  - rewrite (IH st1). exact Hx.
  - exact Hx.
Qed.

(** X10. However a run ends, and whatever its settings and its commands do,
    the notifier holds no warning at its end: the two warnings of [main]
    are never recorded. *)
Theorem no_warning_recorded (settingsData : Settings) (st : State W) :
  _warning_messages (notifier (fst (main settingsData st))) = [].
Proof.
  unfold main, bind. simpl.
  match goal with
  | |- context [load_backupsets ?b ?l ?a ?s] =>
      destruct (load_backupsets_outcome b l a s) as [res [Hres _]]
  end.
  rewrite Hres. destruct res as [backupSets|e]; [|reflexivity].
  match goal with
  | |- context [for_each ?l ?f ?s] =>
      assert (Hk : keeps_warnings (for_each l f));
      [|pose proof (Hk s) as Hs; destruct (for_each l f s) as [st2 [u|e]]]
  end.
  - apply for_each_keeps. intros t. unfold backup_target.
    apply for_each_keeps. intros backupSet. apply backup_pair_keeps.
  - simpl in Hs. unfold send_notification. simpl. exact Hs.
  - simpl in Hs. exact Hs.
Qed.

(** *** An integer port *)

(** X7. When the port of the first target is an integer and a backup set is
    configured, [main] ends with an exception before any command is run and
    before any report is sent: [TypeError] from the first command of the
    first pair, unless reading the settings has raised already (or the name
    of the [ssh] program or of the key holds a null character, which raises
    [ValueError] at the same place). *)
Theorem integer_port_aborts (settingsData : Settings) (st : State W)
    (t : TargetSettings) (ts : list TargetSettings) (z : Z) :
  backuptargets settingsData = t :: ts ->
  j_port t = VInt z ->
  backupsets settingsData <> [] ->
  exists e st',
    main settingsData st = (st', Exc e)
    /\ (e = TypeError \/ e = ValueError \/ e = AttributeError)
    /\ world st' = world st
    /\ outbox st' = outbox st.
Proof.
  intros Ht Hp Hs. unfold main, bind. simpl.
  match goal with
  | |- context [load_backupsets ?b ?l ?a ?s] =>
      destruct (load_backupsets_outcome b l a s) as [res [Hres [_ He]]]
  end.
  rewrite Hres. destruct res as [backupSets|e].
  - apply load_backupsets_value in Hres.
    destruct Hres as [_ [backupSets' [-> Hl]]]. cbn [app].
    destruct backupSets' as [|s backupSets].
    { inversion Hl as [E|]; subst. symmetry in E. contradiction. }
    rewrite Ht. cbn [map for_each]. unfold bind, backup_target.
    cbn [for_each]. unfold bind.
    unfold backup_pair at 1. unfold try_or_continue, subprocess_run.
    cbn [port key user address app argv_of]. rewrite Hp.
    change (has_nul "-i") with false. change (has_nul "-p") with false.
    cbn [argv_of].
    destruct (has_nul _); [|destruct (has_nul _)];
      do 2 eexists; (split; [reflexivity|]); auto.
  - exists e. eexists. split; [reflexivity|].
    split; [destruct (He e eq_refl); auto|]. split; reflexivity.
Qed.

End Run.

(** ** Runs on the sample machine *)

(** C4, as stated, fails. With the port of the target an integer, as the
    settings schema has it, the first command of the first pair raises
    [TypeError]. *)
Lemma integer_port_type_error :
  snd (main (Sample.settings (VInt 22) [Sample.dataset "/home/a" None])
         (start (Sample.host Sample.up)))
  = Exc TypeError.
Proof. vm_compute. reflexivity. Qed.

Lemma string_ports_no_type_error_sample :
  (forall t,
      In t (backuptargets (Sample.settings (VStr "22") [Sample.dataset "/home/a" None])) ->
      exists s, j_port t = VStr s)
  /\ snd (main (Sample.settings (VStr "22") [Sample.dataset "/home/a" None])
            (start (Sample.host Sample.up)))
     <> Exc TypeError.
Proof.
  assert (Hp : forall t,
             In t (backuptargets (Sample.settings (VStr "22")
                                    [Sample.dataset "/home/a" None])) ->
             exists s, j_port t = VStr s).
  { intros t [<-|[]]. exists "22". reflexivity. }
  split; [exact Hp|].
  exact (string_ports_no_type_error _ _ Hp).
Defined.

Lemma pair_records_one_outcome_sample :
  port Sample.backupTarget = VStr "22"
  /\ exists st' r,
      backup_pair "ssh" "rsync" Sample.backupTarget Sample.sshbasecmd
        (Sample.backupSet 5) (start (Sample.host Sample.up)) = (st', r)
      /\ outbox st' = outbox (start (Sample.host Sample.up))
      /\ match r with
         | Val _ =>
             one_outcome (notifier (start (Sample.host Sample.up))) (notifier st')
         | Exc e =>
             (e = ValueError \/ e = OSError \/ e = UnicodeDecodeError)
             /\ notifier st' = notifier (start (Sample.host Sample.up))
         end.
Proof.
  assert (Hp : port Sample.backupTarget = VStr "22") by reflexivity.
  split; [exact Hp|].
  exact (pair_records_one_outcome "ssh" "rsync" Sample.backupTarget
           (Sample.backupSet 5) ["ssh"; "-i"; "/k"; "-p"; "22"; "bob@nas"]
           "22" Hp (start (Sample.host Sample.up))).
Defined.

Lemma run_outcome_count_sample :
  let settingsData :=
    Sample.settings (VStr "22")
      [Sample.dataset "/home/a" (Some "30d"); Sample.dataset "/home/a" None] in
  let run := main settingsData (start (Sample.host Sample.up)) in
  ((forall t, In t (backuptargets settingsData) -> exists s, j_port t = VStr s)
   /\ run = (fst run, Val tt))
  /\ outcomes (notifier (fst run)) = 2%nat
  /\ _warning_messages (notifier (fst run)) = []
  /\ exists report,
      outbox (fst run) = (outbox (start (Sample.host Sample.up)) ++ [report])%list.
Proof.
  intros settingsData run.
  assert (Hp : forall t, In t (backuptargets settingsData) ->
                         exists s, j_port t = VStr s).
  { intros t [<-|[]]. exists "22". reflexivity. }
  assert (Hs : snd run = Val tt) by (vm_compute; reflexivity).
  assert (Hr : run = (fst run, Val tt))
    by (rewrite <- Hs; apply surjective_pairing).
  split; [split; assumption|].
  exact (run_outcome_count settingsData (start (Sample.host Sample.up))
           (fst run) Hp Hr).
Defined.

Lemma integer_port_aborts_sample :
  let settingsData :=
    Sample.settings (VInt 22) [Sample.dataset "/home/a" None] in
  (backuptargets settingsData = [Sample.target (VInt 22)]
   /\ j_port (Sample.target (VInt 22)) = VInt 22
   /\ backupsets settingsData <> [])
  /\ exists e st',
      main settingsData (start (Sample.host Sample.up)) = (st', Exc e)
      /\ (e = TypeError \/ e = ValueError \/ e = AttributeError)
      /\ world st' = world (start (Sample.host Sample.up))
      /\ outbox st' = outbox (start (Sample.host Sample.up)).
Proof.
  intros settingsData.
  assert (Ht : backuptargets settingsData = [Sample.target (VInt 22)])
    by reflexivity.
  assert (Hp : j_port (Sample.target (VInt 22)) = VInt 22) by reflexivity.
  assert (Hs : backupsets settingsData <> []) by discriminate.
  split; [repeat split; assumption|].
  exact (integer_port_aborts settingsData (start (Sample.host Sample.up))
           _ _ 22 Ht Hp Hs).
Defined.

(** C9. A run over two backup sets in which the connection is down for the
    third child process, the listing of the first pair: no error is
    recorded, both pairs are recorded as successes, and the report says
    so. *)
Theorem failed_listing_recorded_as_success :
  let run :=
    main (Sample.settings (VStr "22")
            [Sample.dataset "/home/a" (Some "30d"); Sample.dataset "/home/a" (Some "30d")])
      (start (Sample.host (fun n => Nat.eqb n 2))) in
  snd run = Val tt
  /\ _error_messages (notifier (fst run)) = []
  /\ length (_success_messages (notifier (fst run))) = 2%nat
  /\ map subject (outbox (fst run))
     = ["laptop Backup Complete: 0 Errors, 2 Successes, 0 Warnings."].
Proof. vm_compute. repeat split. Qed.

(** ** Paths *)

Lemma re_escape_app (a b : string) :
  Py.re_escape (a ++ b) = Py.re_escape a ++ Py.re_escape b.
Proof.
  induction a as [|x a IH]; simpl; [reflexivity|].
  destruct (Py.re_special x); simpl; now rewrite IH.
Qed.

Lemma re_escape_no_slash (s : string) :
  all_chars no_slash s = true -> all_chars no_slash (Py.re_escape s) = true.
Proof.
  induction s as [|x s IH]; simpl; [reflexivity|].
  intros Hx. apply andb_prop in Hx. destruct Hx as [Hx Hs].
  destruct (Py.re_special x); simpl; rewrite Hx, (IH Hs); reflexivity.
Qed.

Lemma split_nonempty (sep : ascii) (s : string) :
  exists x l, Py.split sep s = x :: l.
Proof.
  destruct s as [|c r]; simpl.
  - now exists "", [].
  - destruct (Ascii.eqb c sep); [now eexists; eexists|].
    destruct (Py.split sep r); now eexists; eexists.
Qed.

Lemma split_app (sep : ascii) (a b : string) :
  Py.split sep (a ++ String sep b) = (Py.split sep a ++ Py.split sep b)%list.
Proof.
  induction a as [|c a IH]; simpl.
  - now rewrite Ascii.eqb_refl.
  - destruct (Ascii.eqb c sep); [now rewrite IH|].
    rewrite IH. destruct (split_nonempty sep a) as [x [l ->]]. reflexivity.
Qed.

Lemma split_none (sep : ascii) (s : string) :
  all_chars (fun c => negb (Ascii.eqb c sep)) s = true -> Py.split sep s = [s].
Proof.
  induction s as [|c r IH]; simpl; [reflexivity|].
  intros Hc. apply andb_prop in Hc. destruct Hc as [Hc Hr].
  apply negb_true_iff in Hc. rewrite Hc, (IH Hr). reflexivity.
Qed.

(** The last component of a path whose tail has no slash. *)
Lemma basename_app (dir name : string) :
  all_chars no_slash name = true ->
  Py.basename (dir ++ String Py.SLASH name) = name.
Proof.
  intros Hn. unfold Py.basename. rewrite split_app, (split_none _ _ Hn).
  apply last_last.
Qed.

Lemma basename_none (name : string) :
  all_chars no_slash name = true -> Py.basename name = name.
Proof. intros Hn. unfold Py.basename. now rewrite (split_none _ _ Hn). Qed.

Lemma normpath_loop_app (i : nat) (a b acc : list string) :
  Py.normpath_loop i (a ++ b) acc = Py.normpath_loop i b (Py.normpath_loop i a acc).
Proof.
  revert acc. induction a as [|x a IH]; intros acc; [reflexivity|].
  simpl.
  repeat match goal with
         | |- context [if ?c then _ else _] => destruct c
         end; try apply IH.
  destruct acc; apply IH.
Qed.

Lemma join_snoc (sep : string) (l : list string) (x : string) :
  Py.join sep (l ++ [x])
  = match l with
    | [] => x
    | _ => Py.join sep l ++ sep ++ x
    end.
Proof.
  induction l as [|y l IH]; [reflexivity|].
  destruct l as [|z l]; [reflexivity|].
  change (Py.join sep ((y :: z :: l) ++ [x]))
    with (y ++ sep ++ Py.join sep ((z :: l) ++ [x])).
  rewrite IH.
  change (Py.join sep (y :: z :: l)) with (y ++ sep ++ Py.join sep (z :: l)).
  now rewrite !append_assoc.
Qed.

(** [normpath] keeps the last component of a path when that component is a
    name: it has no slash and is neither empty nor a dot or two. *)
Lemma basename_normpath (dir name : string) :
  all_chars no_slash name = true ->
  name <> "" -> name <> "." -> name <> ".." ->
  Py.basename (Py.normpath (dir ++ String Py.SLASH name)) = name.
Proof.
  intros Hn H0 H1 H2. unfold Py.normpath.
  destruct (dir ++ String Py.SLASH name) eqn:E.
  { destruct dir; discriminate. }
  rewrite <- E. clear E.
  rewrite split_app, (split_none _ _ Hn), normpath_loop_app.
  set (i := if String.prefix "/" _ then _ else _).
  assert (Hi : (i = 0 \/ i = 1 \/ i = 2)%nat).
  { subst i. destruct (String.prefix "/" _); [destruct (andb _ _)|]; auto. }
  clearbody i.
  set (acc := Py.normpath_loop i (Py.split Py.SLASH dir) []).
  assert (Hl : Py.normpath_loop i [name] acc = name :: acc).
  { simpl.
    apply String.eqb_neq in H0, H1, H2. rewrite H0, H1, H2. reflexivity. }
  rewrite Hl. simpl rev. rewrite join_snoc.
  assert (Ht : forall q, Py.truthy (q ++ name) = true).
  { intros q. destruct q; [|reflexivity]. destruct name; [congruence | reflexivity]. }
  destruct (rev acc) as [|y l] eqn:Er.
  - rewrite (Ht (Py.repeat_str i "/")).
    destruct Hi as [->|[->| ->]]; simpl Py.repeat_str.
    + now apply basename_none.
    + now apply (basename_app "").
    + now apply (basename_app "/").
  - change (Py.join "/" (y :: l) ++ "/" ++ name)
      with (Py.join "/" (y :: l) ++ String Py.SLASH name).
    rewrite <- append_assoc.
    assert (Hs : forall q, Py.truthy (q ++ String Py.SLASH name) = true)
      by (intros q; destruct q; reflexivity).
    rewrite Hs. now apply basename_app.
Qed.

(** ** The command of the transfer *)

(** The last component of an escaped listing line: the escaped name, then
    the escaped newline that ended the line. *)
Lemma escaped_line_basename (dir name : string) :
  all_chars no_slash name = true ->
  Py.basename (Py.normpath (Py.re_escape (dir ++ "/" ++ name ++ Py.nl)))
  = Py.re_escape name ++ String Py.BSL Py.nl.
Proof.
  intros Hn.
  change (dir ++ "/" ++ name ++ Py.nl) with (dir ++ String Py.SLASH (name ++ Py.nl)).
  rewrite re_escape_app.
  change (Py.re_escape (String Py.SLASH (name ++ Py.nl)))
    with (String Py.SLASH (Py.re_escape (name ++ Py.nl))).
  rewrite re_escape_app.
  change (Py.re_escape Py.nl) with (String Py.BSL Py.nl).
  set (x := Py.re_escape name ++ String Py.BSL Py.nl).
  assert (Hlast : Py.last1 x = Py.nl).
  { unfold x.
    change (String Py.BSL Py.nl) with (Py.str1 Py.BSL ++ Py.str1 Py.NL).
    rewrite <- append_assoc. now apply last1_app_char. }
  apply basename_normpath.
  - unfold x. rewrite all_chars_app, (re_escape_no_slash _ Hn). reflexivity.
  - intros E. rewrite E in Hlast. discriminate.
  - intros E. rewrite E in Hlast. discriminate.
  - intros E. rewrite E in Hlast. discriminate.
Qed.

Lemma truthy_app_nl (s : string) : Py.truthy (s ++ Py.nl) = true.
Proof. destruct s; reflexivity. Qed.

(** ** Lines, sorted *)


Lemma lines_aux_line (x rest cur : string) :
  oneline x = true ->
  Coreutils.lines_aux (x ++ Py.nl ++ rest) cur
  = (cur ++ x) :: Coreutils.lines_aux rest "".
Proof.
  revert cur. induction x as [|c x IH]; intros cur Hx.
  - simpl. change (Ascii.eqb Py.NL Py.NL) with true. cbv iota.
    now rewrite append_empty_r.
  - unfold oneline in Hx. simpl in Hx. apply andb_prop in Hx.
    destruct Hx as [Hc Hx]. unfold no_newline in Hc.
    apply negb_true_iff in Hc.
    cbn [append Coreutils.lines_aux]. rewrite Hc, (IH _ Hx).
    now rewrite append_assoc.
Qed.

Lemma lines_unlines (l : list string) :
  Forall (fun x => oneline x = true) l ->
  Coreutils.lines (Coreutils.unlines l) = l.
Proof.
  unfold Coreutils.lines. induction l as [|x l IH]; intros Hl; [reflexivity|].
  inversion Hl; subst. cbn [Coreutils.unlines].
  rewrite lines_aux_line by assumption. now rewrite IH.
Qed.





Lemma insert_In (r : bool) (x y : string) (l : list string) :
  In y (Coreutils.insert r x l) <-> y = x \/ In y l.
Proof.
  induction l as [|z l IH]; simpl.
  - intuition.
  - destruct (Coreutils.line_le r x z); simpl; [intuition|].
    rewrite IH. intuition.
Qed.

(** Sorting keeps the lines. *)
Lemma sort_lines_In (r : bool) (y : string) (l : list string) :
  In y (Coreutils.sort_lines r l) <-> In y l.
Proof.
  induction l as [|x l IH]; simpl; [tauto|].
  rewrite insert_In, IH. intuition.
Qed.

Lemma sort_lines_Forall (P : string -> Prop) (r : bool) (l : list string) :
  Forall P l -> Forall P (Coreutils.sort_lines r l).
Proof.
  rewrite !Forall_forall. intros Hl y Hy. apply Hl. now apply sort_lines_In in Hy.
Qed.


(** *** The order of the lines of one directory *)

Lemma skip_blanks_prefix (b : string) :
  exists b', forall n,
    Coreutils.skip_blanks (b ++ String Py.SLASH n) = b' ++ String Py.SLASH n.
Proof.
  induction b as [|c b [b' IH]].
  - exists "". reflexivity.
  - simpl. destruct (Coreutils.is_blank c).
    + exists b'. exact IH.
    + exists (String c b). reflexivity.
Qed.

Lemma digits_prefix (b : string) (acc : Z) (k : nat) :
  exists v k' b', forall n,
    Coreutils.digits (b ++ String Py.SLASH n) acc k
    = (v, k', b' ++ String Py.SLASH n).
Proof.
  revert acc k. induction b as [|c b IH]; intros acc k.
  - exists acc, k, "". reflexivity.
  - simpl. destruct (Py.digit_val c) as [d|].
    + apply IH.
    + exists acc, k, (String c b). reflexivity.
Qed.

(** The number at the front of a line ends before the first slash. *)
Lemma num_key_prefix (b n m : string) :
  Coreutils.num_key (b ++ String Py.SLASH n)
  = Coreutils.num_key (b ++ String Py.SLASH m).
Proof.
  unfold Coreutils.num_key.
  destruct (skip_blanks_prefix b) as [b1 H1]. rewrite (H1 n), (H1 m).
  assert (H2 : exists neg b2, forall x,
               match b1 ++ String Py.SLASH x with
               | String c r =>
                   if Ascii.eqb c "-" then (true, r)
                   else (false, b1 ++ String Py.SLASH x)
               | EmptyString => (false, b1 ++ String Py.SLASH x)
               end = (neg, b2 ++ String Py.SLASH x)).
  { destruct b1 as [|c b1].
    - exists false, "". reflexivity.
    - simpl. destruct (Ascii.eqb c "-").
      + exists true, b1. reflexivity.
      + exists false, (String c b1). reflexivity. }
  destruct H2 as [neg [b2 H2]]. rewrite (H2 n), (H2 m).
  destruct (digits_prefix b2 0 0) as [i [k [b3 H3]]]. rewrite (H3 n), (H3 m).
  destruct b3 as [|c b3].
  - reflexivity.
  - simpl. destruct (Ascii.eqb c ".").
    + destruct (digits_prefix b3 i 0) as [f [k' [b4 H4]]].
      now rewrite (H4 n), (H4 m).
    + reflexivity.
Qed.

Lemma num_compare_children (base a b : string) :
  Coreutils.num_compare (child base a) (child base b) = Eq.
Proof.
  unfold Coreutils.num_compare, child.
  change (base ++ "/" ++ a) with (base ++ String Py.SLASH a).
  change (base ++ "/" ++ b) with (base ++ String Py.SLASH b).
  rewrite (num_key_prefix base a b).
  destruct (Coreutils.num_key _) as [m k]. apply Z.compare_refl.
Qed.

Lemma compare_refl (a : string) : String.compare a a = Eq.
Proof.
  pose proof (String.compare_antisym a a) as E.
  destruct (String.compare a a); simpl in E; congruence.
Qed.

Lemma ascii_compare_refl (c : ascii) : Ascii.compare c c = Eq.
Proof. unfold Ascii.compare. apply N.compare_refl. Qed.

Lemma compare_app (p a b : string) :
  String.compare (p ++ a) (p ++ b) = String.compare a b.
Proof.
  induction p as [|c p IH]; [reflexivity|].
  cbn [append String.compare]. now rewrite ascii_compare_refl.
Qed.

Lemma compare_children (base a b : string) :
  String.compare (child base a) (child base b) = String.compare a b.
Proof.
  unfold child. rewrite compare_app.
  change ("/" ++ a) with (String Py.SLASH a).
  change ("/" ++ b) with (String Py.SLASH b).
  cbn [String.compare]. now rewrite ascii_compare_refl.
Qed.

Lemma leb_refl (a : string) : String.leb a a = true.
Proof. unfold String.leb. now rewrite compare_refl. Qed.

Lemma leb_trans (a b c : string) :
  String.leb a b = true -> String.leb b c = true -> String.leb a c = true.
Proof.
  unfold String.leb. revert b c.
  induction a as [|x a IH]; intros [|y b] [|z c]; simpl; try congruence.
  unfold Ascii.compare.
  destruct (N.compare_spec (N_of_ascii x) (N_of_ascii y)) as [E1|L1|G1];
    destruct (N.compare_spec (N_of_ascii y) (N_of_ascii z)) as [E2|L2|G2];
    try congruence; intros H1 H2.
  - rewrite E1, E2, N.compare_refl. now apply (IH b c).
  - rewrite E1. now rewrite (proj2 (N.compare_lt_iff _ _) L2).
  - rewrite <- E2. now rewrite (proj2 (N.compare_lt_iff _ _) L1).
  - now rewrite (proj2 (N.compare_lt_iff _ _) (N.lt_trans _ _ _ L1 L2)).
Qed.

(** Among the lines of one directory, [sort -n -r] goes by the names, the
    greatest first. *)
Lemma line_le_children (base a b : string) :
  Coreutils.line_le true (child base a) (child base b) = String.leb b a.
Proof.
  unfold Coreutils.line_le, Coreutils.line_compare, String.leb.
  rewrite num_compare_children, compare_children.
  rewrite (String.compare_antisym b a).
  destruct (String.compare a b); reflexivity.
Qed.

Lemma sort_head_greatest (base : string) (names : list string) :
  names <> [] ->
  exists m rest,
    Coreutils.sort_lines true (map (child base) names) = child base m :: rest
    /\ In m names
    /\ forall n, In n names -> String.leb n m = true.
Proof.
  induction names as [|x names IH]; [congruence|]. intros _.
  destruct names as [|y names].
  - exists x, []. split; [reflexivity|]. split; [now left|].
    intros n [<-|[]]. apply leb_refl.
  - destruct IH as [m [rest [Es [Hin Hmax]]]]; [discriminate|].
    cbn [map Coreutils.sort_lines] in *. rewrite Es.
    cbn [Coreutils.insert]. rewrite line_le_children.
    destruct (String.leb m x) eqn:Hmx.
    + exists x. eexists. split; [reflexivity|]. split; [now left|].
      intros n [<-|Hn]; [apply leb_refl|].
      apply (leb_trans n m x); auto.
    + exists m. eexists. split; [reflexivity|]. split; [now right|].
      intros n [<-|Hn]; [|now apply Hmax].
      destruct (String.leb_total x m) as [Hl|Hl]; congruence.
Qed.

Lemma oneline_child (base n : string) :
  oneline base = true -> oneline n = true -> oneline (child base n) = true.
Proof.
  intros Hb Hn. unfold oneline, child in *.
  rewrite !all_chars_app, Hb, Hn. reflexivity.
Qed.

Lemma head_1_unlines (x : string) (l : list string) :
  Forall (fun y => oneline y = true) (x :: l) ->
  Coreutils.head_1 (Coreutils.unlines (x :: l)) = x ++ Py.nl.
Proof.
  intros Hl. unfold Coreutils.head_1. now rewrite (lines_unlines _ Hl).
Qed.

(** *** Null characters *)

Lemma has_nul_app (a b : string) :
  has_nul (a ++ b) = orb (has_nul a) (has_nul b).
Proof.
  induction a as [|c a IH]; [reflexivity|].
  cbn [append has_nul]. rewrite IH. now rewrite orb_assoc.
Qed.

Lemma has_nul_re_escape (s : string) : has_nul (Py.re_escape s) = has_nul s.
Proof.
  induction s as [|c s IH]; [reflexivity|].
  cbn [Py.re_escape]. destruct (Py.re_special c) eqn:E; cbn [has_nul];
    rewrite IH; [|reflexivity].
  change (Nat.eqb (Py.ord Py.BSL) 0) with false. reflexivity.
Qed.

Lemma has_nul_str_of_int (z : Z) : has_nul (Py.str_of_int z) = false.
Proof.
  assert (Hd : forall s, all_chars is_digit s = true -> has_nul s = false).
  { induction s as [|c s IH]; [reflexivity|]. cbn [all_chars has_nul].
    intros Hs. apply andb_prop in Hs. destruct Hs as [Hc Hs].
    rewrite (IH Hs), orb_false_r.
    destruct (digit_bits _ Hc) as [b0 [b1 [b2 [b3 ->]]]].
    destruct b0, b1, b2, b3; reflexivity. }
  unfold Py.str_of_int. destruct z as [|p|p]; [reflexivity| |];
    pose proof (DecimalPos.Unsigned.to_uint_nonnil p) as Hn;
    destruct (string_of_uint_nonnil _ Hn) as [E _]; simpl; rewrite E;
    apply Hd, string_of_uint_digits.
Qed.

Lemma length_re_escape (s : string) :
  (String.length s <= String.length (Py.re_escape s))%nat.
Proof.
  induction s as [|c s IH]; [reflexivity|].
  cbn [Py.re_escape]. destruct (Py.re_special c); cbn [String.length]; lia.
Qed.

Lemma length_append (a b : string) :
  String.length (a ++ b) = (String.length a + String.length b)%nat.
Proof. induction a as [|c a IH]; simpl; [reflexivity | now rewrite IH]. Qed.

(** ** A command that fails *)

Section Failure.

Context {W : Type} `{World W}.

Variables (sshexe rsyncexe : string) (backupTarget : BackupTarget)
  (sshbasecmd : list pyval) (backupSet : BackupSet).
Variables (sshbase : list string).
Hypothesis Hbase : argv_of sshbasecmd = Val sshbase.

(** A step whose command ends with a status other than zero: the handler
    records the error of the command and the pair ends; when [add_error]
    cannot write the report of the command (what the command wrote is no
    UTF-8), nothing is recorded and the exception goes through. *)
Lemma step_failure (args : list pyval) (argv : list string) (message : string)
    (rest : unit -> M (State W) unit) (st : State W) :
  argv_of args = Val argv ->
  starts (world st) argv = true ->
  c_returncode (snd (spawn (world st) argv)) <> 0 ->
  try_or_continue (subprocess_run args)
    (fun e => add_error message (CProc e)) rest st
  = if reportable (failure argv (snd (spawn (world st) argv))) then
      (mkState (fst (spawn (world st) argv))
         (with_error (notifier st)
            (error_text message (failure argv (snd (spawn (world st) argv)))))
         (outbox st), Val tt)
    else
      (mkState (fst (spawn (world st) argv)) (notifier st) (outbox st),
       Exc (report_error (failure argv (snd (spawn (world st) argv))))).
Proof.
  intros Ha Hs Hc. unfold try_or_continue.
  rewrite (subprocess_run_argv _ _ _ Ha), Hs.
  apply Z.eqb_neq in Hc. rewrite Hc. rewrite add_error_proc.
  now destruct (reportable _).
Qed.

Lemma ssh_argv (l : list string) :
  clean l = true -> argv_of (sshbasecmd ++ strs l) = Val (sshbase ++ l)%list.
Proof. intros Hl. rewrite (argv_of_app _ _ _ Hbase), Hl. reflexivity. Qed.

(** X6. When the command that creates the remote base directory ends with a
    status other than zero, the pair ends there: no other command is run
    for it, and one error is recorded, whose text is the message with the
    escaped directory followed by the command line, the exit status and
    what the command wrote. When what the command wrote is no UTF-8,
    nothing is recorded and [UnicodeDecodeError] ends the run. *)
Theorem base_directory_failure (st : State W) :
  let dir := Py.re_escape (remotedir backupSet) in
  let argv := (sshbase ++ ["mkdir"; "-p"; dir])%list in
  let w := fst (spawn (world st) argv) in
  let e := failure argv (snd (spawn (world st) argv)) in
  has_nul (remotedir backupSet) = false ->
  starts (world st) argv = true ->
  returncode e <> 0 ->
  backup_pair sshexe rsyncexe backupTarget sshbasecmd backupSet st
  = if reportable e then
      (mkState w
         (with_error (notifier st)
            (("Could not create remote directory:" ++ Py.nl ++ dir ++ Py.nl
                ++ Py.nl ++ "Backup set skipped." ++ Py.nl)
               ++ call_report e))
         (outbox st), Val tt)
    else (mkState w (notifier st) (outbox st), Exc (report_error e)).
Proof.
  intros dir argv w e Hn Hs Hc. unfold backup_pair.
  rewrite (step_failure _ argv); try assumption.
  - unfold error_text. fold e w. now rewrite !append_assoc.
  - apply ssh_argv. unfold clean. cbn [forallb].
    unfold dir. rewrite has_nul_re_escape, Hn. reflexivity.
Qed.

(** X18. When the command that removes the staging directory ends with a
    status other than zero, the pair ends there: nothing is listed or
    transferred, and one error is recorded, whose text is the message with
    the escaped staging directory followed by the report of the command.
    When what the command wrote is no UTF-8, nothing is recorded and
    [UnicodeDecodeError] ends the run. *)
Theorem staging_removal_failure (st : State W) :
  let dir := Py.re_escape (remotedir backupSet ++ "/" ++ ".tmp") in
  let argv := (sshbase ++ ["rm"; "-fR"; dir])%list in
  let w := fst (spawn (world st) argv) in
  let e := failure argv (snd (spawn (world st) argv)) in
  has_nul (remotedir backupSet) = false ->
  starts (world st) argv = true ->
  returncode e <> 0 ->
  clear_staging sshexe rsyncexe backupTarget sshbasecmd backupSet st
  = if reportable e then
      (mkState w
         (with_error (notifier st)
            (("Could not remove remote temp directory:" ++ Py.nl ++ dir
                ++ Py.nl ++ Py.nl ++ "Backup set skipped." ++ Py.nl)
               ++ call_report e))
         (outbox st), Val tt)
    else (mkState w (notifier st) (outbox st), Exc (report_error e)).
Proof.
  intros dir argv w e Hn Hs Hc. unfold clear_staging.
  rewrite (step_failure _ argv); try assumption.
  - unfold error_text. fold e w. now rewrite !append_assoc.
  - apply ssh_argv. unfold clean. cbn [forallb].
    unfold dir. rewrite has_nul_re_escape, has_nul_app, Hn. reflexivity.
Qed.

(** X12. When the transfer ends with a status other than zero, the pair
    ends there: the staging directory is neither renamed nor removed, no
    directory is listed or removed for retention, and one error is
    recorded, whose text is [Rsync failed. Backup set skipped.] followed by
    the report of the transfer command. When what the command wrote is no
    UTF-8, nothing is recorded and [UnicodeDecodeError] ends the run. *)
Theorem transfer_failure (latest : string) (st : State W) (cmd : list string) :
  let w := fst (spawn (world st) cmd) in
  let e := failure cmd (snd (spawn (world st) cmd)) in
  make_backupcmd sshexe rsyncexe backupTarget backupSet
    (Py.re_escape (remotedir backupSet ++ "/" ++ ".tmp")) latest st
  = (st, Val (strs cmd)) ->
  clean cmd = true ->
  starts (world st) cmd = true ->
  returncode e <> 0 ->
  transfer sshexe rsyncexe backupTarget sshbasecmd backupSet latest st
  = if reportable e then
      (mkState w
         (with_error (notifier st)
            (("Rsync failed. Backup set skipped." ++ Py.nl) ++ call_report e))
         (outbox st), Val tt)
    else (mkState w (notifier st) (outbox st), Exc (report_error e)).
Proof.
  intros w e Hcmd Hn Hs Hc. unfold transfer, bind. rewrite Hcmd.
  rewrite (step_failure _ cmd); try assumption.
  - reflexivity.
  - rewrite argv_of_strs, Hn. reflexivity.
Qed.

(** X19. When the command that renames the staging directory ends with a
    status other than zero, the pair ends there: no directory is listed or
    removed for retention, no success is recorded, and one error is
    recorded, whose text names the escaped staging directory and the
    escaped directory of the time stamp, taken from the clock just before
    the command, and ends with the report of the command. When what the
    command wrote is no UTF-8, nothing is recorded and
    [UnicodeDecodeError] ends the run. *)
Theorem promotion_failure (st : State W) :
  let tmp := Py.re_escape (remotedir backupSet ++ "/" ++ ".tmp") in
  let final :=
    Py.re_escape (remotedir backupSet ++ "/" ++ strftime (world st)) in
  let argv := (sshbase ++ ["mv"; tmp; final])%list in
  let w := fst (spawn (world st) argv) in
  let e := failure argv (snd (spawn (world st) argv)) in
  has_nul (remotedir backupSet) = false ->
  has_nul (strftime (world st)) = false ->
  starts (world st) argv = true ->
  returncode e <> 0 ->
  promote backupTarget sshbasecmd backupSet st
  = if reportable e then
      (mkState w
         (with_error (notifier st)
            (("Renaming temp backup dir from:" ++ Py.nl ++ tmp ++ Py.nl
                ++ Py.nl ++ "to:" ++ Py.nl ++ final ++ Py.nl ++ Py.nl
                ++ "Backup set skipped." ++ Py.nl)
               ++ call_report e))
         (outbox st), Val tt)
    else (mkState w (notifier st) (outbox st), Exc (report_error e)).
Proof.
  intros tmp final argv w e Hn Ht Hs Hc. unfold promote.
  rewrite (step_failure _ argv); try assumption.
  - unfold error_text. fold e w tmp final. now rewrite !append_assoc.
  - apply ssh_argv. unfold clean. cbn [forallb].
    unfold tmp, final.
    rewrite !has_nul_re_escape, !has_nul_app, Hn, Ht. reflexivity.
Qed.

(** *** A listing that fails *)

(** The latest snapshot as the pipeline of line 182 to 187 gives it: the
    first line of the sorted output of the listing, decoded. *)
Lemma get_latest_run (dir : string) (st : State W) :
  let listing := (sshbase ++ find_args dir)%list in
  let w := fst (spawn (world st) listing) in
  let line :=
    Coreutils.head_1
      (Coreutils.sort_n true (c_stdout (snd (spawn (world st) listing)))) in
  has_nul dir = false ->
  starts (world st) listing = true ->
  starts w ["sort"; "-n"; "-r"] = true ->
  starts w ["head"; "-1"] = true ->
  get_latest sshbasecmd dir st
  = (mkState w (notifier st) (outbox st),
     match Py.decode_utf8 line with
     | Some s => Val s
     | None => Exc UnicodeDecodeError
     end).
Proof.
  intros listing w line Hn Hs Hsort Hhead. unfold get_latest, bind.
  rewrite (popen_stdout_argv _ listing)
    by (apply ssh_argv; unfold clean, find_args; cbn [forallb];
        now rewrite Hn).
  rewrite Hs. unfold popen_filter. cbn [world]. fold w.
  rewrite Hsort. cbn [world]. fold w.
  rewrite Hhead. unfold decode_bytes. fold line.
  now destruct (Py.decode_utf8 line).
Qed.

(** The directories past their retention as the pipeline of line 218 to 221
    gives them: the sorted output of the listing, decoded. *)
Lemma get_old_run (dir : string) (mins : Z) (st : State W) :
  let listing :=
    (sshbase ++ find_args dir
       ++ [("-cmin +" ++ Py.str_of_int mins)%string])%list in
  let w := fst (spawn (world st) listing) in
  let sorted :=
    Coreutils.sort_n false (c_stdout (snd (spawn (world st) listing))) in
  Z.abs mins < 10 ^ 4300 ->
  has_nul dir = false ->
  starts (world st) listing = true ->
  starts w ["sort"; "-n"] = true ->
  get_old sshbasecmd dir mins st
  = (mkState w (notifier st) (outbox st),
     match Py.decode_utf8 sorted with
     | Some s => Val s
     | None => Exc UnicodeDecodeError
     end).
Proof.
  intros listing w sorted Hm Hn Hs Hsort. unfold get_old, bind, str_of.
  rewrite str_int_value. change int_limit with (10 ^ 4300).
  apply Z.ltb_lt in Hm. rewrite Hm.
  change (ret (Py.str_of_int mins) st) with (st, Val (Py.str_of_int mins)).
  cbv iota beta.
  rewrite (popen_stdout_argv _ listing)
    by (rewrite <- strs_app || idtac; apply ssh_argv; unfold clean, find_args;
        cbn [forallb app];
        now rewrite Hn, has_nul_app, has_nul_str_of_int).
  rewrite Hs. unfold popen_filter. cbn [world]. fold w.
  rewrite Hsort. unfold decode_bytes. fold sorted.
  now destruct (Py.decode_utf8 sorted).
Qed.

(** C6. When the command that lists the remote directories ends with a
    status other than zero and prints nothing, no error is recorded and the
    pipeline goes on: after the first listing with the transfer, in full, and
    after the second with the record of a success. *)
Theorem listing_failure_unnoticed (st : State W) :
  has_nul (remotedir backupSet) = false ->
  let dir := Py.re_escape (remotedir backupSet) in
  let latest := (sshbase ++ find_args dir)%list in
  let old :=
    (sshbase ++ find_args dir
       ++ [("-cmin +" ++ Py.str_of_int (retention backupSet))%string])%list in
  (starts (world st) latest = true ->
   starts (fst (spawn (world st) latest)) ["sort"; "-n"; "-r"] = true ->
   starts (fst (spawn (world st) latest)) ["head"; "-1"] = true ->
   c_returncode (snd (spawn (world st) latest)) <> 0 ->
   c_stdout (snd (spawn (world st) latest)) = "" ->
   resolve_latest sshexe rsyncexe backupTarget sshbasecmd backupSet st
   = transfer sshexe rsyncexe backupTarget sshbasecmd backupSet ""
       (mkState (fst (spawn (world st) latest)) (notifier st) (outbox st)))
  /\ (Z.abs (retention backupSet) < 10 ^ 4300 ->
      starts (world st) old = true ->
      starts (fst (spawn (world st) old)) ["sort"; "-n"] = true ->
      c_returncode (snd (spawn (world st) old)) <> 0 ->
      c_stdout (snd (spawn (world st) old)) = "" ->
      enforce_retention backupTarget sshbasecmd backupSet st
      = record_success backupTarget backupSet
          (mkState (fst (spawn (world st) old)) (notifier st) (outbox st))).
Proof.
  intros Hn dir latest old. subst latest old dir.
  assert (Hd : has_nul (Py.re_escape (remotedir backupSet)) = false)
    by now rewrite has_nul_re_escape.
  split.
  - intros Hs Hsort Hhead _ Hout.
    unfold resolve_latest, try_or_continue.
    rewrite (get_latest_run _ st Hd Hs Hsort Hhead).
    rewrite Hout. reflexivity.
  - intros Hm Hs Hsort _ Hout.
    unfold enforce_retention, try_or_continue.
    rewrite (get_old_run _ (retention backupSet) st Hm Hd Hs Hsort).
    rewrite Hout. reflexivity.
Qed.

End Failure.

(** ** What the listings give *)

Lemma append_inv_head (p a b : string) : p ++ a = p ++ b -> a = b.
Proof.
  induction p as [|c p IH]; simpl; [auto|]. intros [= E]. now apply IH.
Qed.

Lemma leb_antisym (a b : string) :
  String.leb a b = true -> String.leb b a = true -> a = b.
Proof.
  unfold String.leb. intros H1 H2.
  pose proof (String.compare_antisym a b) as E.
  destruct (String.compare a b) eqn:E1; destruct (String.compare b a) eqn:E2;
    simpl in *; try discriminate.
  now apply String.compare_eq_iff.
Qed.

(** The hard-link option that the code builds is never the plain one. *)
Lemma link_not_plain (m : string) :
  "--link-dest=../" ++ Py.re_escape m ++ String Py.BSL Py.nl
  <> "--link-dest=../" ++ m.
Proof.
  intros E. apply append_inv_head in E.
  apply (f_equal String.length) in E. rewrite length_append in E.
  pose proof (length_re_escape m). simpl in E. lia.
Qed.

Section Listings.

Context {W : Type} `{World W}.

Variables (sshexe rsyncexe : string) (backupTarget : BackupTarget)
  (sshbasecmd : list pyval) (backupSet : BackupSet).
Variables (sshbase : list string) (portstr : string).
Hypothesis Hbase : argv_of sshbasecmd = Val sshbase.
Hypothesis Hport : port backupTarget = VStr portstr.

(** The command of the transfer (lines 193 to 199), for the line of a
    latest snapshot and for no latest snapshot. *)
Lemma make_backupcmd_line (tmp dir name : string) (st : State W) :
  all_chars no_slash name = true ->
  let rsh := sshexe ++ " -p " ++ portstr ++ " -i " ++ key backupTarget in
  let destination :=
    user backupTarget ++ "@" ++ address backupTarget ++ ":" ++ tmp in
  make_backupcmd sshexe rsyncexe backupTarget backupSet tmp
    (dir ++ "/" ++ name ++ Py.nl) st
  = (st, Val (strs ((rsyncexe :: rsync_options) ++ excludes backupSet
                    ++ ["-e"; rsh;
                        ("--link-dest=../" ++ Py.re_escape name
                           ++ String Py.BSL Py.nl)%string;
                        localdir backupSet; destination])%list))
  /\ make_backupcmd sshexe rsyncexe backupTarget backupSet tmp "" st
     = (st, Val (strs ((rsyncexe :: rsync_options) ++ excludes backupSet
                       ++ ["-e"; rsh; localdir backupSet; destination])%list)).
Proof.
  intros Hn rsh destination. split.
  - unfold make_backupcmd, rsh_option, str_add, bind.
    replace (dir ++ "/" ++ name ++ Py.nl) with ((dir ++ "/" ++ name) ++ Py.nl)
      by (now rewrite !append_assoc).
    rewrite truthy_app_nl. cbv [negb].
    replace ((dir ++ "/" ++ name) ++ Py.nl) with (dir ++ "/" ++ name ++ Py.nl)
      by (now rewrite !append_assoc).
    rewrite (escaped_line_basename dir name Hn), Hport.
    unfold ret. subst rsh. now rewrite !append_assoc.
  - unfold make_backupcmd, rsh_option, str_add, bind. simpl. rewrite Hport.
    unfold ret. subst rsh. now rewrite !append_assoc.
Qed.

(** The transfer step for a command that can be started: the command is
    run, and its exit status decides between the renaming and the error. *)
Lemma transfer_run (latest : string) (cmd : list string) (st : State W) :
  make_backupcmd sshexe rsyncexe backupTarget backupSet
    (Py.re_escape (remotedir backupSet ++ "/" ++ ".tmp")) latest st
  = (st, Val (strs cmd)) ->
  clean cmd = true ->
  starts (world st) cmd = true ->
  transfer sshexe rsyncexe backupTarget sshbasecmd backupSet latest st
  = if Z.eqb (c_returncode (snd (spawn (world st) cmd))) 0 then
      promote backupTarget sshbasecmd backupSet
        (mkState (fst (spawn (world st) cmd)) (notifier st) (outbox st))
    else
      add_error "Rsync failed. Backup set skipped."
        (CProc (failure cmd (snd (spawn (world st) cmd))))
        (mkState (fst (spawn (world st) cmd)) (notifier st) (outbox st)).
Proof.
  intros Hcmd Hn Hs. unfold transfer, bind. rewrite Hcmd.
  unfold try_or_continue.
  rewrite (subprocess_run_argv _ cmd) by (now rewrite argv_of_strs, Hn).
  rewrite Hs. now destruct (Z.eqb _ 0).
Qed.

(** The listing of the directories [names] of [base], sorted with the
    greatest first. *)
Lemma sorted_listing (base : string) (names : list string) :
  oneline base = true ->
  Forall (fun n => oneline n = true) names ->
  Coreutils.head_1
    (Coreutils.sort_n true (Coreutils.unlines (map (child base) names)))
  = match names with
    | [] => ""
    | _ =>
        match Coreutils.sort_lines true (map (child base) names) with
        | [] => ""
        | x :: _ => x ++ Py.nl
        end
    end.
Proof.
  intros Hb Hn.
  assert (Hl : Forall (fun y => oneline y = true) (map (child base) names)).
  { apply Forall_forall. intros y Hy. apply in_map_iff in Hy.
    destruct Hy as [n [<- Hin]]. apply oneline_child; [exact Hb|].
    rewrite Forall_forall in Hn. now apply Hn. }
  unfold Coreutils.sort_n. rewrite (lines_unlines _ Hl).
  destruct names as [|n names]; [reflexivity|].
  pose proof (sort_lines_Forall _ true _ Hl) as Hs.
  destruct (Coreutils.sort_lines true (map (child base) (n :: names)))
    as [|x rest] eqn:Es; [reflexivity|].
  now rewrite (head_1_unlines _ _ Hs).
Qed.


(** C7. The transfer after the listing. When the listing prints one line
    [base/name] for each snapshot and [m] is the latest of them, the
    greatest name, the next child process is the transfer with one
    hard-link option, [--link-dest=../] followed by the escaped name, a
    backslash and the newline that ended the line of the listing: not
    [--link-dest=../m]. When the listing prints nothing, the next child
    process is the transfer without a hard-link option. Either way the exit
    status of the transfer decides between the renaming and the error. *)
Theorem link_dest_invoked (base : string) (names : list string) (m : string)
    (st : State W) :
  let dir := Py.re_escape (remotedir backupSet) in
  let listing := (sshbase ++ find_args dir)%list in
  let w1 := fst (spawn (world st) listing) in
  let rsh := sshexe ++ " -p " ++ portstr ++ " -i " ++ key backupTarget in
  let destination :=
    user backupTarget ++ "@" ++ address backupTarget ++ ":"
      ++ Py.re_escape (remotedir backupSet ++ "/" ++ ".tmp") in
  let command (link : list string) :=
    ((rsyncexe :: rsync_options) ++ excludes backupSet ++ ["-e"; rsh] ++ link
       ++ [localdir backupSet; destination])%list in
  let run (cmd : list string) :=
    if Z.eqb (c_returncode (snd (spawn w1 cmd))) 0 then
      promote backupTarget sshbasecmd backupSet
        (mkState (fst (spawn w1 cmd)) (notifier st) (outbox st))
    else
      add_error "Rsync failed. Backup set skipped."
        (CProc (failure cmd (snd (spawn w1 cmd))))
        (mkState (fst (spawn w1 cmd)) (notifier st) (outbox st)) in
  has_nul (remotedir backupSet) = false ->
  starts (world st) listing = true ->
  starts w1 ["sort"; "-n"; "-r"] = true ->
  starts w1 ["head"; "-1"] = true ->
  oneline base = true ->
  Forall (fun n => oneline n = true /\ all_chars no_slash n = true) names ->
  c_stdout (snd (spawn (world st) listing))
  = Coreutils.unlines (map (child base) names) ->
  (names = [] ->
   clean (command []) = true ->
   starts w1 (command []) = true ->
   resolve_latest sshexe rsyncexe backupTarget sshbasecmd backupSet st
   = run (command []))
  /\ (In m names ->
      (forall n, In n names -> String.leb n m = true) ->
      let link := "--link-dest=../" ++ Py.re_escape m ++ String Py.BSL Py.nl in
      link <> "--link-dest=../" ++ m
      /\ (Py.decode_utf8 (child base m ++ Py.nl) <> None ->
          clean (command [link]) = true ->
          starts w1 (command [link]) = true ->
          resolve_latest sshexe rsyncexe backupTarget sshbasecmd backupSet st
          = run (command [link]))).
Proof.
  intros dir listing w1 rsh destination command run
    Hn Hs Hsort Hhead Hb Hnames Hout.
  assert (Hd : has_nul dir = false)
    by (unfold dir; now rewrite has_nul_re_escape).
  assert (Hone : Forall (fun n => oneline n = true) names).
  { rewrite Forall_forall in *. intros n Hin. now apply Hnames. }
  pose proof (get_latest_run sshbasecmd sshbase Hbase dir st Hd Hs Hsort Hhead)
    as Hrun.
  cbv zeta in Hrun. fold listing w1 in Hrun.
  rewrite Hout, (sorted_listing base names Hb Hone) in Hrun.
  split.
  - intros -> Hclean Hstart.
    unfold resolve_latest, try_or_continue. fold dir. rewrite Hrun.
    cbv iota beta.
    change (Py.decode_utf8 "") with (Some "").  cbv iota beta.
    unfold run.
    apply (transfer_run "" (command []) (mkState w1 (notifier st) (outbox st)));
      [|exact Hclean | exact Hstart].
    exact (proj2 (make_backupcmd_line _ "" "" _ eq_refl)).
  - intros Hin Hmax link. split; [apply link_not_plain|].
    assert (Hne : names <> []) by (intros ->; destruct Hin).
    destruct (sort_head_greatest base names Hne)
      as [m' [rest [Es [Hin' Hmax']]]].
    assert (m' = m) by (apply leb_antisym; auto). subst m'.
    intros Hdec Hclean Hstart.
    unfold resolve_latest, try_or_continue. fold dir. rewrite Hrun, Es.
    destruct names as [|n0 names0]; [congruence|]. cbv iota beta.
    destruct (Py.decode_utf8 (child base m ++ Py.nl)) as [s|] eqn:Ed;
      [|congruence].
    apply decode_utf8_some in Ed. subst s.
    unfold run.
    apply (transfer_run (child base m ++ Py.nl)
             (command ["--link-dest=../" ++ Py.re_escape m
                         ++ String Py.BSL Py.nl])
             (mkState w1 (notifier st) (outbox st)));
      [|exact Hclean | exact Hstart].
    rewrite Forall_forall in Hnames. destruct (Hnames m Hin) as [_ Hslash].
    unfold child. rewrite append_assoc.
    exact (proj1 (make_backupcmd_line _ base m _ Hslash)).
Qed.


End Listings.

(** ** The steps on the sample machine *)

(** On the sample machine with the connection down for the next child
    process, both listings end with status 255 and the pipeline goes on. *)
Lemma listing_failure_unnoticed_sample :
  let st := start (Sample.host (fun n => Nat.eqb n 0)) in
  let dir := Py.re_escape (remotedir (Sample.backupSet 5)) in
  let latest := (Sample.sshbase ++ find_args dir)%list in
  let old :=
    (Sample.sshbase ++ find_args dir
       ++ [("-cmin +" ++ Py.str_of_int (retention (Sample.backupSet 5)))%string])%list in
  (argv_of Sample.sshbasecmd = Val Sample.sshbase
   /\ has_nul (remotedir (Sample.backupSet 5)) = false
   /\ (starts (world st) latest = true
       /\ starts (fst (spawn (world st) latest)) ["sort"; "-n"; "-r"] = true
       /\ starts (fst (spawn (world st) latest)) ["head"; "-1"] = true
       /\ c_returncode (snd (spawn (world st) latest)) <> 0
       /\ c_stdout (snd (spawn (world st) latest)) = "")
   /\ (Z.abs (retention (Sample.backupSet 5)) < 10 ^ 4300
       /\ starts (world st) old = true
       /\ starts (fst (spawn (world st) old)) ["sort"; "-n"] = true
       /\ c_returncode (snd (spawn (world st) old)) <> 0
       /\ c_stdout (snd (spawn (world st) old)) = ""))
  /\ resolve_latest "ssh" "rsync" Sample.backupTarget Sample.sshbasecmd
       (Sample.backupSet 5) st
     = transfer "ssh" "rsync" Sample.backupTarget Sample.sshbasecmd
         (Sample.backupSet 5) ""
         (mkState (fst (spawn (world st) latest)) (notifier st) (outbox st))
  /\ enforce_retention Sample.backupTarget Sample.sshbasecmd (Sample.backupSet 5) st
     = record_success Sample.backupTarget (Sample.backupSet 5)
         (mkState (fst (spawn (world st) old)) (notifier st) (outbox st)).
Proof.
  intros st dir latest old.
  assert (Hbase : argv_of Sample.sshbasecmd = Val Sample.sshbase) by reflexivity.
  assert (Hn : has_nul (remotedir (Sample.backupSet 5)) = false) by reflexivity.
  assert (S1 : starts (world st) latest = true) by reflexivity.
  assert (S2 : starts (fst (spawn (world st) latest)) ["sort"; "-n"; "-r"] = true)
    by reflexivity.
  assert (S3 : starts (fst (spawn (world st) latest)) ["head"; "-1"] = true)
    by reflexivity.
  assert (H1 : c_returncode (snd (spawn (world st) latest)) <> 0)
    by (vm_compute; discriminate).
  assert (H2 : c_stdout (snd (spawn (world st) latest)) = "") by reflexivity.
  assert (Hm : Z.abs (retention (Sample.backupSet 5)) < 10 ^ 4300)
    by (vm_compute; reflexivity).
  assert (S4 : starts (world st) old = true) by reflexivity.
  assert (S5 : starts (fst (spawn (world st) old)) ["sort"; "-n"] = true)
    by reflexivity.
  assert (H3 : c_returncode (snd (spawn (world st) old)) <> 0)
    by (vm_compute; discriminate).
  assert (H4 : c_stdout (snd (spawn (world st) old)) = "") by reflexivity.
  split; [repeat split; assumption|].
  destruct (listing_failure_unnoticed "ssh" "rsync" Sample.backupTarget
              Sample.sshbasecmd (Sample.backupSet 5) Sample.sshbase Hbase st Hn)
    as [Ha Hb].
  split; [exact (Ha S1 S2 S3 H1 H2) | exact (Hb Hm S4 S5 H3 H4)].
Defined.

(** The command that creates the base directory fails: one error, with the
    report of the command. *)
Lemma base_directory_failure_sample :
  let st := start (Sample.host (fun n => Nat.eqb n 0)) in
  let argv := (Sample.sshbase ++ ["mkdir"; "-p"; "/b"])%list in
  let e := mkProcError argv 255 "" "failed" in
  (argv_of Sample.sshbasecmd = Val Sample.sshbase
   /\ has_nul (remotedir (Sample.backupSet 5)) = false
   /\ starts (world st) argv = true
   /\ returncode e <> 0)
  /\ backup_pair "ssh" "rsync" Sample.backupTarget Sample.sshbasecmd
       (Sample.backupSet 5) st
     = (mkState (fst (spawn (world st) argv))
          (with_error (notifier st)
             (("Could not create remote directory:" ++ Py.nl ++ "/b" ++ Py.nl
                 ++ Py.nl ++ "Backup set skipped." ++ Py.nl)
                ++ call_report e))
          (outbox st), Val tt).
Proof.
  intros st argv e.
  assert (Hb : argv_of Sample.sshbasecmd = Val Sample.sshbase) by reflexivity.
  assert (Hn : has_nul (remotedir (Sample.backupSet 5)) = false) by reflexivity.
  assert (Hs : starts (world st) argv = true) by reflexivity.
  assert (Hc : returncode e <> 0) by (vm_compute; discriminate).
  split; [repeat split; assumption|].
  exact (base_directory_failure "ssh" "rsync" Sample.backupTarget
           Sample.sshbasecmd (Sample.backupSet 5) Sample.sshbase Hb st Hn Hs Hc).
Defined.

Lemma staging_removal_failure_sample :
  let st := start (Sample.host (fun n => Nat.eqb n 0)) in
  let argv := (Sample.sshbase ++ ["rm"; "-fR"; "/b/\.tmp"])%list in
  let e := mkProcError argv 255 "" "failed" in
  (argv_of Sample.sshbasecmd = Val Sample.sshbase
   /\ has_nul (remotedir (Sample.backupSet 5)) = false
   /\ starts (world st) argv = true
   /\ returncode e <> 0)
  /\ clear_staging "ssh" "rsync" Sample.backupTarget Sample.sshbasecmd
       (Sample.backupSet 5) st
     = (mkState (fst (spawn (world st) argv))
          (with_error (notifier st)
             (("Could not remove remote temp directory:" ++ Py.nl ++ "/b/\.tmp"
                 ++ Py.nl ++ Py.nl ++ "Backup set skipped." ++ Py.nl)
                ++ call_report e))
          (outbox st), Val tt).
Proof.
  intros st argv e.
  assert (Hb : argv_of Sample.sshbasecmd = Val Sample.sshbase) by reflexivity.
  assert (Hn : has_nul (remotedir (Sample.backupSet 5)) = false) by reflexivity.
  assert (Hs : starts (world st) argv = true) by reflexivity.
  assert (Hc : returncode e <> 0) by (vm_compute; discriminate).
  split; [repeat split; assumption|].
  exact (staging_removal_failure "ssh" "rsync" Sample.backupTarget
           Sample.sshbasecmd (Sample.backupSet 5) Sample.sshbase Hb st Hn Hs Hc).
Defined.

Lemma transfer_failure_sample :
  let st := start (Sample.host (fun n => Nat.eqb n 0)) in
  let cmd := ["rsync"; "-rltgoDz"; "--stats"; "--ignore-errors"; "--delete";
              "--delete-excluded"; "-e"; "ssh -p 22 -i /k"; "/home/a";
              "bob@nas:/b/\.tmp"] in
  let e := mkProcError cmd 255 "" "failed" in
  (make_backupcmd "ssh" "rsync" Sample.backupTarget (Sample.backupSet 5)
     (Py.re_escape (remotedir (Sample.backupSet 5) ++ "/" ++ ".tmp")) "" st
   = (st, Val (strs cmd))
   /\ clean cmd = true
   /\ starts (world st) cmd = true
   /\ returncode e <> 0)
  /\ transfer "ssh" "rsync" Sample.backupTarget Sample.sshbasecmd
       (Sample.backupSet 5) "" st
     = (mkState (fst (spawn (world st) cmd))
          (with_error (notifier st)
             (("Rsync failed. Backup set skipped." ++ Py.nl) ++ call_report e))
          (outbox st), Val tt).
Proof.
  intros st cmd e.
  assert (Hm : make_backupcmd "ssh" "rsync" Sample.backupTarget
                 (Sample.backupSet 5)
                 (Py.re_escape (remotedir (Sample.backupSet 5) ++ "/" ++ ".tmp"))
                 "" st
               = (st, Val (strs cmd))) by reflexivity.
  assert (Hn : clean cmd = true) by reflexivity.
  assert (Hs : starts (world st) cmd = true) by reflexivity.
  assert (Hc : returncode e <> 0) by (vm_compute; discriminate).
  split; [repeat split; assumption|].
  exact (transfer_failure "ssh" "rsync" Sample.backupTarget Sample.sshbasecmd
           (Sample.backupSet 5) "" st cmd Hm Hn Hs Hc).
Defined.

Lemma promotion_failure_sample :
  let st := start (Sample.host (fun n => Nat.eqb n 0)) in
  let argv := (Sample.sshbase
               ++ ["mv"; "/b/\.tmp"; "/b/2024\-01\-15_030000"])%list in
  let e := mkProcError argv 255 "" "failed" in
  (argv_of Sample.sshbasecmd = Val Sample.sshbase
   /\ has_nul (remotedir (Sample.backupSet 5)) = false
   /\ has_nul (strftime (world st)) = false
   /\ starts (world st) argv = true
   /\ returncode e <> 0)
  /\ promote Sample.backupTarget Sample.sshbasecmd (Sample.backupSet 5) st
     = (mkState (fst (spawn (world st) argv))
          (with_error (notifier st)
             (("Renaming temp backup dir from:" ++ Py.nl ++ "/b/\.tmp"
                 ++ Py.nl ++ Py.nl ++ "to:" ++ Py.nl
                 ++ "/b/2024\-01\-15_030000" ++ Py.nl ++ Py.nl
                 ++ "Backup set skipped." ++ Py.nl)
                ++ call_report e))
          (outbox st), Val tt).
Proof.
  intros st argv e.
  assert (Hb : argv_of Sample.sshbasecmd = Val Sample.sshbase) by reflexivity.
  assert (Hn : has_nul (remotedir (Sample.backupSet 5)) = false) by reflexivity.
  assert (Ht : has_nul (strftime (world st)) = false) by reflexivity.
  assert (Hs : starts (world st) argv = true) by reflexivity.
  assert (Hc : returncode e <> 0) by (vm_compute; discriminate).
  split; [repeat split; assumption|].
  exact (promotion_failure Sample.backupTarget Sample.sshbasecmd
           (Sample.backupSet 5) Sample.sshbase Hb st Hn Ht Hs Hc).
Defined.

(** A failed command that wrote bytes that are no UTF-8: the error is not
    recorded, and the exception ends the run before any report. *)
Lemma unreadable_failure_aborts :
  let w :=
    mkScript ["/home/a"] []
      (fun _ _ => mkCompleted 255 "" (String (Py.chr 255) ""))
      0 [] (fun _ => "2024-01-15_030000") "laptop" in
  let run :=
    main (Sample.settings (VStr "22") [Sample.dataset "/home/a" None])
      (start w) in
  snd run = Exc UnicodeDecodeError
  /\ _error_messages (notifier (fst run)) = []
  /\ outbox (fst run) = [].
Proof. vm_compute. repeat split. Qed.

(** A program that cannot be started: the exception ends the run before any
    report. *)
Lemma missing_program_aborts :
  let w :=
    mkScript ["/home/a"] ["sort"] (fun _ _ => done "")
      0 [] (fun _ => "2024-01-15_030000") "laptop" in
  let run :=
    main (Sample.settings (VStr "22") [Sample.dataset "/home/a" None])
      (start w) in
  snd run = Exc OSError
  /\ outcomes (notifier (fst run)) = 0%nat
  /\ outbox (fst run) = [].
Proof. vm_compute. repeat split. Qed.

(** The latest snapshot and the transfer on the sample machine, where the
    listing shows two snapshots. *)
Lemma link_dest_invoked_sample :
  let names := ["2024-01-01_030000"; "2024-01-08_030000"] in
  let m := "2024-01-08_030000" in
  let st :=
    start (Sample.machine Sample.up
             (fun n => if Nat.eqb n 0
                       then Coreutils.unlines (map (child "/b") names)
                       else "")) in
  let listing := (Sample.sshbase ++ find_args "/b")%list in
  let w1 := fst (spawn (world st) listing) in
  let link := "--link-dest=../2024\-01\-08_030000\" ++ Py.nl in
  let cmd := ["rsync"; "-rltgoDz"; "--stats"; "--ignore-errors"; "--delete";
              "--delete-excluded"; "-e"; "ssh -p 22 -i /k"; link; "/home/a";
              "bob@nas:/b/\.tmp"] in
  (argv_of Sample.sshbasecmd = Val Sample.sshbase
   /\ port Sample.backupTarget = VStr "22"
   /\ has_nul (remotedir (Sample.backupSet 5)) = false
   /\ starts (world st) listing = true
   /\ starts w1 ["sort"; "-n"; "-r"] = true
   /\ starts w1 ["head"; "-1"] = true
   /\ oneline "/b" = true
   /\ Forall (fun n => oneline n = true /\ all_chars no_slash n = true) names
   /\ c_stdout (snd (spawn (world st) listing))
      = Coreutils.unlines (map (child "/b") names)
   /\ In m names
   /\ (forall n, In n names -> String.leb n m = true)
   /\ Py.decode_utf8 (child "/b" m ++ Py.nl) <> None
   /\ clean cmd = true
   /\ starts w1 cmd = true)
  /\ link <> "--link-dest=../" ++ m
  /\ resolve_latest "ssh" "rsync" Sample.backupTarget Sample.sshbasecmd
       (Sample.backupSet 5) st
     = promote Sample.backupTarget Sample.sshbasecmd (Sample.backupSet 5)
         (mkState (fst (spawn w1 cmd)) (notifier st) (outbox st)).
Proof.
  intros names m st listing w1 link cmd.
  assert (Hb : argv_of Sample.sshbasecmd = Val Sample.sshbase) by reflexivity.
  assert (Hp : port Sample.backupTarget = VStr "22") by reflexivity.
  assert (Hn : has_nul (remotedir (Sample.backupSet 5)) = false) by reflexivity.
  assert (S1 : starts (world st) listing = true) by reflexivity.
  assert (S2 : starts w1 ["sort"; "-n"; "-r"] = true) by reflexivity.
  assert (S3 : starts w1 ["head"; "-1"] = true) by reflexivity.
  assert (Ho : oneline "/b" = true) by reflexivity.
  assert (Hf : Forall (fun n => oneline n = true /\ all_chars no_slash n = true)
                 names)
    by (repeat constructor).
  assert (Hout : c_stdout (snd (spawn (world st) listing))
                 = Coreutils.unlines (map (child "/b") names))
    by reflexivity.
  assert (Hin : In m names) by (right; left; reflexivity).
  assert (Hmax : forall n, In n names -> String.leb n m = true)
    by (intros n [<-|[<-|[]]]; reflexivity).
  assert (Hd : Py.decode_utf8 (child "/b" m ++ Py.nl) <> None)
    by (vm_compute; discriminate).
  assert (Hc : clean cmd = true) by reflexivity.
  assert (S4 : starts w1 cmd = true) by reflexivity.
  split; [repeat split; assumption|].
  destruct (proj2 (link_dest_invoked "ssh" "rsync" Sample.backupTarget
                     Sample.sshbasecmd (Sample.backupSet 5) Sample.sshbase "22"
                     Hb Hp "/b" names m st Hn S1 S2 S3 Ho Hf Hout) Hin Hmax)
    as [Hne Hrun].
  split; [exact Hne | exact (Hrun Hd Hc S4)].
Defined.

(** The commands of one pair on the sample machine, in the order in which
    they are run (the local filters apart): the fourth is the transfer, and
    its hard-link option ends with a backslash and a newline. *)
Lemma link_dest_sample_log :
  let st :=
    start (Sample.machine Sample.up
             (fun n => if Nat.eqb n 2
                       then "/b/2024-01-01_030000" ++ Py.nl
                              ++ "/b/2024-01-08_030000" ++ Py.nl
                       else "")) in
  log (world (fst (backup_pair "ssh" "rsync" Sample.backupTarget
                     Sample.sshbasecmd (Sample.backupSet 5) st)))
  = [ (Sample.sshbase ++ ["mkdir"; "-p"; "/b"])%list;
      (Sample.sshbase ++ ["rm"; "-fR"; "/b/\.tmp"])%list;
      (Sample.sshbase ++ ["find"; "/b"; "-mindepth 1"; "-maxdepth 1"; "-type d"])%list;
      ["rsync"; "-rltgoDz"; "--stats"; "--ignore-errors"; "--delete";
       "--delete-excluded"; "-e"; "ssh -p 22 -i /k";
       "--link-dest=../2024\-01\-08_030000\" ++ Py.nl; "/home/a";
       "bob@nas:/b/\.tmp"];
      (Sample.sshbase ++ ["mv"; "/b/\.tmp"; "/b/2024\-01\-15_030000"])%list;
      (Sample.sshbase
       ++ ["find"; "/b"; "-mindepth 1"; "-maxdepth 1"; "-type d"; "-cmin +5"])%list ].
Proof. vm_compute. reflexivity. Qed.


(** The latest snapshot of that run is the one of 8 January. *)
Lemma latest_sample_value :
  snd (get_latest Sample.sshbasecmd "/b"
         (start (Sample.machine Sample.up
                   (fun _ => "/b/2024-01-08_030000" ++ Py.nl
                               ++ "/b/2024-01-01_030000" ++ Py.nl))))
  = Val ("/b/2024-01-08_030000" ++ Py.nl).
Proof. vm_compute. reflexivity. Qed.

